(** * ChatGPT-Next-Web-Session-Exporter: the command-line driver (main.go)

    A shallow embedding of [main.go].  The driver is a straight-line
    interactive program: it prompts, calls into the packages [exporter],
    [repairdata], [interactivity] and [filesystem], prints, and leaves
    through [os.Exit] on most error paths.  Each Go function becomes a
    program of the monad [Prog], whose nodes are the calls the function
    makes to the outside; [run] executes a program against a script of
    what the outside answers, with the interrupt signals between the
    answers, and yields the calls in the order made, how the program
    ended and what is left of the script.

    The packages [updater] and [bannercli] are embedded beside it: their
    functions run to the end without waiting for an interrupt, so each
    becomes a function from what the outside returns to the list of the
    actions it performs, in order, and its result. *)

From Stdlib Require Import List String Ascii ZArith Lia Bool.
From Stdlib.Strings Require Import Byte.
Import ListNotations.
Local Open Scope string_scope.
Local Open Scope Z_scope.

(** ** Go's [strings] and [strconv] functions used by the driver *)

Module GoStrings.

(** The line feed of the Go literals ["\n"]. *)
Definition nl : string := String (ascii_of_nat 10) EmptyString.

(** [strings.TrimSpace] takes the white space of Unicode off both ends:
    the six of ASCII (tab, line feed, vertical tab, form feed, carriage
    return, space) and, in their UTF-8 encoding, U+0085, U+00A0, U+1680,
    U+2000 to U+200A, U+2028, U+2029, U+202F, U+205F and U+3000. *)
Definition byteIs (c : ascii) (n : nat) : bool := (nat_of_ascii c =? n)%nat.

Definition isSpace (c : ascii) : bool :=
  let n := nat_of_ascii c in
  ((9 <=? n) && (n <=? 13))%nat || (n =? 32)%nat.

Definition isSpace2 (c1 c2 : ascii) : bool :=
  byteIs c1 194 && (byteIs c2 133 || byteIs c2 160).

Definition isSpace3 (c1 c2 c3 : ascii) : bool :=
  let n3 := nat_of_ascii c3 in
  (byteIs c1 225 && byteIs c2 154 && byteIs c3 128)
  || (byteIs c1 226 && byteIs c2 128
      && (((128 <=? n3) && (n3 <=? 138))%nat
          || byteIs c3 168 || byteIs c3 169 || byteIs c3 175))
  || (byteIs c1 226 && byteIs c2 129 && byteIs c3 159)
  || (byteIs c1 227 && byteIs c2 128 && byteIs c3 128).

Fixpoint trimLeft (s : string) : string :=
  match s with
  | EmptyString => EmptyString
  | String c1 r1 =>
      if isSpace c1 then trimLeft r1
      else
        match r1 with
        | EmptyString => s
        | String c2 r2 =>
            if isSpace2 c1 c2 then trimLeft r2
            else
              match r2 with
              | EmptyString => s
              | String c3 r3 => if isSpace3 c1 c2 c3 then trimLeft r3 else s
              end
        end
  end.

Fixpoint revOnto (s acc : string) : string :=
  match s with
  | EmptyString => acc
  | String c r => revOnto r (String c acc)
  end.

(** The same from the end, on the bytes in reverse. *)
Fixpoint trimLeftReversed (s : string) : string :=
  match s with
  | EmptyString => EmptyString
  | String c1 r1 =>
      if isSpace c1 then trimLeftReversed r1
      else
        match r1 with
        | EmptyString => s
        | String c2 r2 =>
            if isSpace2 c2 c1 then trimLeftReversed r2
            else
              match r2 with
              | EmptyString => s
              | String c3 r3 =>
                  if isSpace3 c3 c2 c1 then trimLeftReversed r3 else s
              end
        end
  end.

Definition trimRight (s : string) : string :=
  revOnto (trimLeftReversed (revOnto s EmptyString)) EmptyString.

Definition TrimSpace (s : string) : string := trimRight (trimLeft s).

(** [strings.ToLower] and [strings.ToTitle] on the letters of ASCII;
    every other byte is kept.  On a string of ASCII bytes ([isASCII])
    these are Go's functions.  Go maps the letters outside ASCII too and
    replaces invalid UTF-8 by U+FFFD, which these definitions do not:
    what is stated of the result of [ToTitle] is stated for strings of
    ASCII bytes only.  (The driver compares the result of [ToLower]
    with ["yes"] only, and no letter outside ASCII has [y], [e] or [s]
    for its lower case.) *)
Definition lowerChar (c : ascii) : ascii :=
  let n := nat_of_ascii c in
  if ((65 <=? n) && (n <=? 90))%nat then ascii_of_nat (n + 32) else c.

Definition titleChar (c : ascii) : ascii :=
  let n := nat_of_ascii c in
  if ((97 <=? n) && (n <=? 122))%nat then ascii_of_nat (n - 32) else c.

Fixpoint mapString (f : ascii -> ascii) (s : string) : string :=
  match s with
  | EmptyString => EmptyString
  | String c r => String (f c) (mapString f r)
  end.

Definition ToLower : string -> string := mapString lowerChar.
Definition ToTitle : string -> string := mapString titleChar.

(** The strings all of whose bytes are below 128. *)
Fixpoint isASCII (s : string) : bool :=
  match s with
  | EmptyString => true
  | String c r => (nat_of_ascii c <? 128)%nat && isASCII r
  end.

(** [strconv.Atoi]: an optional sign, then one or more decimal digits,
    and the value has to fit Go's 64-bit [int]. *)
Definition digit (c : ascii) : option Z :=
  let n := nat_of_ascii c in
  if ((48 <=? n) && (n <=? 57))%nat then Some (Z.of_nat (n - 48)) else None.

Fixpoint digits (acc : Z) (s : string) : option Z :=
  match s with
  | EmptyString => Some acc
  | String c r =>
      match digit c with
      | Some d => digits (acc * 10 + d) r
      | None => None
      end
  end.

Definition unsigned (s : string) : option Z :=
  match s with
  | EmptyString => None
  | _ => digits 0 s
  end.

Definition inInt (n : Z) : bool :=
  (- 2 ^ 63 <=? n) && (n <=? 2 ^ 63 - 1).

Definition Atoi (s : string) : option Z :=
  let signed :=
    match s with
    | String "-" r => option_map Z.opp (unsigned r)
    | String "+" r => unsigned r
    | _ => unsigned s
    end in
  match signed with
  | Some n => if inInt n then Some n else None
  | None => None
  end.

End GoStrings.
Export GoStrings.

(** ** Paths *)

(** What the name of a file is, for a path written with slashes: Go's
    [path.Split] cuts a path right after its last slash into a directory
    and a file name; a path without a slash has the empty directory and
    is its own file name.  main.go calls nothing of the kind: the
    definitions serve to say which file a path names. *)
Module GoPath.

Definition isSlash (c : ascii) : bool := byteIs c 47.

Fixpoint Split (path : string) : string * string :=
  match path with
  | EmptyString => (EmptyString, EmptyString)
  | String c r =>
      let '(dir, file) := Split r in
      if isSlash c then (String c dir, file)
      else
        match dir with
        | EmptyString => (EmptyString, String c file)
        | String _ _ => (String c dir, file)
        end
  end.

Definition directory (path : string) : string := fst (Split path).
Definition fileName (path : string) : string := snd (Split path).

End GoPath.

(** ** Values that cross the boundary of main.go *)

(** Go's [error] values as the driver tells them apart: it compares with
    the two sentinels [context.Canceled] and [io.EOF] by identity and
    prints every error through [Error()]. *)
Inductive error : Type :=
| Canceled
| EOF
| OtherError (msg : string).

Definition Error (e : error) : string :=
  match e with
  | Canceled => "context canceled"
  | EOF => "EOF"
  | OtherError msg => msg
  end.

Definition bytes : Type := list byte.

(** Modelled from the spec: the types of package [exporter] are declared
    outside main.go, which only passes them on.  A message has a role
    and a textual content. *)
Record Message : Type := { Role : string; Content : string }.

(** Modelled from the spec: a session has an opaque identifier, a
    display title and its ordered messages. *)
Record Session : Type :=
  { ID : string; Topic : string; Messages : list Message }.

(** Modelled from the spec: the store holds one [Sessions] sequence;
    main.go reaches it as [store.ChatNextWebStore.Sessions]. *)
Record ChatNextWebStoreData : Type := { Sessions : list Session }.
Record StoreData : Type := { ChatNextWebStore : ChatNextWebStoreData }.

(** The three handles main.go threads through its functions.  Their state
    (whether the context is done, what standard input holds, what the
    files contain) belongs to the outside. *)
Variant Context : Type := WithCancel.           (* context.WithCancel(context.Background()) *)
Variant Reader : Type := Stdin.                 (* bufio.NewReader(os.Stdin) *)
Variant FileSystem : Type := RealFileSystem.    (* &filesystem.RealFileSystem{} *)

(** What the [select] of [promptForInput] receives: the context is done,
    or the reading goroutine delivers the result of [ReadString]. *)
Variant Selected : Type :=
| CtxDone
| ReadResult (input : string) (err : option error).

(** ** Calls to the outside *)

(** What main.go calls and does not define: the printing of [fmt], the
    [select] of [promptForInput] between the reading goroutine and
    [ctx.Done()], the methods of the [filesystem.FileSystem] interface,
    [repairdata.RepairSessionData], the functions of package [exporter],
    [interactivity.ConfirmOverwrite] and [os.Exit].  Each call has the
    arguments of the Go call and, as its index, the type of what the Go
    call returns. *)
Inductive Call : Type -> Type :=
| Print (s : string) : Call unit
| Select (ctx : Context) (reader : Reader) : Call Selected
| ReadFile (rfs : FileSystem) (path : string) : Call (bytes * option error)
| WriteFile (rfs : FileSystem) (path : string) (data : bytes) (perm : Z)
  : Call (option error)
| RepairSessionData (data : bytes) : Call (bytes * option error)
| ReadJSONFromFile (path : string) : Call (StoreData * option error)
| ExtractToDataset (sessions : list Session) : Call (string * option error)
| CreateSeparateCSVFiles (sessions : list Session)
    (sessionsFileName messagesFileName : string) : Call (option error)
| ConvertSessionsToCSV (ctx : Context) (sessions : list Session)
    (formatOption : Z) (csvFileName : string) : Call (option error)
| ConfirmOverwrite (rfs : FileSystem) (ctx : Context) (reader : Reader)
    (fileName : string) : Call (bool * option error)
| Exit (code : Z) : Call Empty_set.

(** Programs: return a value, or make a call and go on with its result. *)
Inductive Prog (A : Type) : Type :=
| Ret (a : A)
| Vis {X : Type} (c : Call X) (k : X -> Prog A).

Arguments Ret {A} a.
Arguments Vis {A X} c k.

Fixpoint bind {A B : Type} (p : Prog A) (f : A -> Prog B) : Prog B :=
  match p with
  | Ret a => f a
  | Vis c k => Vis c (fun x => bind (k x) f)
  end.

Definition call {X : Type} (c : Call X) : Prog X := Vis c Ret.

Declare Scope prog_scope.
Delimit Scope prog_scope with prog.
Notation "x <- p ;; q" := (bind p (fun x => q))
  (at level 61, p at next level, right associativity) : prog_scope.
Notation "' pat <- p ;; q" := (bind p (fun x => match x with pat => q end))
  (at level 61, pat pattern, p at next level, right associativity) : prog_scope.
Notation "p ;; q" := (bind p (fun _ => q))
  (at level 61, right associativity) : prog_scope.
Local Open Scope prog_scope.

(** [os.Exit] does not come back. *)
Definition osExit {A : Type} (code : Z) : Prog A :=
  Vis (Exit code) (fun v : Empty_set => match v with end).

Definition print (s : string) : Prog unit := call (Print s).
Definition println (s : string) : Prog unit := call (Print (s ++ nl)).

(** ** Running a program against the outside *)

(** What the outside gives back to a call, by the type of its result. *)
Inductive Answer : Type :=
| Chose (r : Selected)                         (* Select *)
| GaveBytes (data : bytes) (err : option error)   (* ReadFile, RepairSessionData *)
| GaveErr (err : option error)                 (* WriteFile and the two CSV conversions *)
| GaveStore (store : StoreData) (err : option error)   (* ReadJSONFromFile *)
| GaveString (s : string) (err : option error) (* ExtractToDataset *)
| GaveBool (b : bool) (err : option error).    (* ConfirmOverwrite *)

(** The script of one execution, in the order of time: the answers to
    the successive calls and, between them, the interrupt signals
    (SIGINT, SIGTERM) that [setupSignalHandling] listens for. *)
Inductive Input : Type :=
| Sigint
| Gives (a : Answer).

(** [cancelled] is the state of the context of [main]: [cancel] has been
    called, [ctx.Done()] is closed and [ctx.Err()] is [context.Canceled]. *)
Record World : Type := { cancelled : bool; script : list Input }.

Inductive Event : Type :=
| Interrupted                       (* the signal goroutine prints and calls cancel *)
| Called {X : Type} (c : Call X).

Inductive Outcome (A : Type) : Type :=
| Returned (a : A)
| Exited (code : Z)
| Blocked.                          (* the script has no answer for the call made *)

Arguments Returned {A} a.
Arguments Exited {A} code.
Arguments Blocked {A}.

Record Run (A : Type) : Type :=
  { events : list Event; outcome : Outcome A; final : World }.

Arguments events {A} r.
Arguments outcome {A} r.
Arguments final {A} r.

(** The goroutine of [setupSignalHandling] receives one signal, prints
    and cancels the context; it is gone for the signals after the first. *)
Fixpoint deliver (c : bool) (s : list Input) : list Event * World :=
  match s with
  | Sigint :: s' =>
      let '(es, w) := deliver true s' in
      (if c then es else Interrupted :: es, w)
  | _ => ([], {| cancelled := c; script := s |})
  end.

(** [Print] and [Exit] do not wait for the outside; the other calls do. *)
Definition waits {X : Type} (c : Call X) : bool :=
  match c with
  | Print _ | Exit _ => false
  | _ => true
  end.

Definition arrive {X : Type} (c : Call X) (w : World) : list Event * World :=
  if waits c then deliver (cancelled w) (script w) else ([], w).

(** The answer fits the call.  The [select] can take the branch of
    [ctx.Done()] only once the context is cancelled. *)
Definition decode {X : Type} (c : Call X) (done : bool) (a : Answer) : option X :=
  match c in Call X return option X with
  | Print _ => None
  | Exit _ => None
  | Select _ _ =>
      match a with
      | Chose CtxDone => if done then Some CtxDone else None
      | Chose r => Some r
      | _ => None
      end
  | ReadFile _ _ | RepairSessionData _ =>
      match a with GaveBytes d e => Some (d, e) | _ => None end
  | WriteFile _ _ _ _ | CreateSeparateCSVFiles _ _ _
  | ConvertSessionsToCSV _ _ _ _ =>
      match a with GaveErr e => Some e | _ => None end
  | ReadJSONFromFile _ =>
      match a with GaveStore s e => Some (s, e) | _ => None end
  | ExtractToDataset _ =>
      match a with GaveString s e => Some (s, e) | _ => None end
  | ConfirmOverwrite _ _ _ _ =>
      match a with GaveBool b e => Some (b, e) | _ => None end
  end.

Inductive Step (X : Type) : Type :=
| Resumes (x : X) (w : World)
| Halts (code : Z)
| NoAnswer.

Arguments Resumes {X} x w.
Arguments Halts {X} code.
Arguments NoAnswer {X}.

Definition perform {X : Type} (c : Call X) (w : World) : Step X :=
  match c in Call X return Step X with
  | Print _ => Resumes tt w
  | Exit code => Halts code
  | c' =>
      match script w with
      | Gives a :: s' =>
          match decode c' (cancelled w) a with
          | Some x => Resumes x {| cancelled := cancelled w; script := s' |}
          | None => NoAnswer
          end
      | _ => NoAnswer
      end
  end.

Fixpoint run {A : Type} (p : Prog A) (w : World) : Run A :=
  match p with
  | Ret a => {| events := []; outcome := Returned a; final := w |}
  | Vis c k =>
      let '(sigs, w1) := arrive c w in
      match perform c w1 with
      | Resumes x w2 =>
          let r := run (k x) w2 in
          {| events := sigs ++ Called c :: events r;
             outcome := outcome r; final := final r |}
      | Halts code =>
          {| events := sigs ++ [Called c]; outcome := Exited code; final := w1 |}
      | NoAnswer =>
          {| events := sigs ++ [Called c]; outcome := Blocked; final := w1 |}
      end
  end.

(** The exit status of the process whose [main] is [p]: the argument of
    [os.Exit], or 0 when [main] returns. *)
Definition exitStatus (o : Outcome unit) : option Z :=
  match o with
  | Returned _ => Some 0
  | Exited code => Some code
  | Blocked => None
  end.

(** ** main.go *)

Module Main.

Local Open Scope string_scope.

(** Output format options *)
Definition OutputFormatCSV : Z := 1.
Definition OutputFormatDataset : Z := 2.
Definition OutputFormatInline : Z := 1.
Definition OutputFormatPerLine : Z := 2.
Definition OutputFormatSeparateCSV : Z := 3.
Definition OutputFormatJSONInCSV : Z := 4.

(** File type *)
Definition FileTypeDataset : string := "dataset".

(** Prompt messages *)
Definition PromptEnterJSONFilePath : string := "Enter the path to the JSON file: ".
Definition PromptRepairData : string := "Do you want to repair data? (yes/no): ".
Definition PromptSelectOutputFormat : string :=
  "Select the output format:" ++ nl ++ "1) CSV" ++ nl
  ++ "2) Hugging Face Dataset" ++ nl.
Definition PromptSelectCSVOutputFormat : string :=
  "Select the message output format:" ++ nl ++ "1) Inline Formatting" ++ nl
  ++ "2) One Message Per Line" ++ nl
  ++ "3) Separate Files for Sessions and Messages" ++ nl
  ++ "4) JSON String in CSV" ++ nl.
Definition PromptEnterCSVFileName : string := "Enter the name of the CSV file to save: ".
Definition PromptEnterSessionsCSVFileName : string :=
  "Enter the name of the sessions CSV file to save: ".
Definition PromptEnterMessagesCSVFileName : string :=
  "Enter the name of the messages CSV file to save: ".
Definition PromptSaveOutputToFile : string :=
  "Do you want to save the output to a file? (yes/no)" ++ nl.
(** [fmt.Sprintf(PromptEnterFileName, fileType)] *)
Definition PromptEnterFileName (fileType : string) : string :=
  "Enter the name of the " ++ fileType ++ " file to save: ".

(** The message of the two graceful exits. *)
Definition GracefulExit : string :=
  nl ++ "[GopherHelper] Exiting gracefully..." ++ nl
  ++ "Reason: Operation canceled or end of input. Exiting program.".

(** The file mode [0644]. *)
Definition perm0644 : Z := 420.

(** [ctx.Err()] once [ctx.Done()] is closed: the context of [main] has
    no deadline, it ends by [cancel] only. *)
Definition ctxErr (ctx : Context) : error := Canceled.

(** [err == context.Canceled || err == io.EOF] *)
Definition canceledOrEOF (err : error) : bool :=
  match err with
  | Canceled | EOF => true
  | OtherError _ => false
  end.

(** handleInputError checks the type of error and handles it accordingly. *)
Definition handleInputError (err : error) : Prog unit :=
  if canceledOrEOF err then
    println GracefulExit ;;
    osExit 0
  else
    print (nl ++ "[GopherHelper] Error reading input: " ++ Error err ++ nl) ;;
    osExit 1.

(** promptForInput displays a prompt and returns the trimmed response,
    unless the context is done before the read delivers. *)
Definition promptForInput (ctx : Context) (reader : Reader) (prompt : string)
  : Prog (string * option error) :=
  print prompt ;;
  res <- call (Select ctx reader) ;;
  match res with
  | CtxDone => Ret (EmptyString, Some (ctxErr ctx))
  | ReadResult input err => Ret (TrimSpace input, err)
  end.

(** repairJSONData repairs the JSON data at the given path and returns
    the path to the repaired file. *)
Definition repairJSONData (rfs : FileSystem) (ctx : Context) (jsonFilePath : string)
  : Prog (string * option error) :=
  '(data, err) <- call (ReadFile rfs jsonFilePath) ;;
  match err with
  | Some e => Ret (EmptyString, Some e)
  | None =>
      '(repairedData, repairErr) <- call (RepairSessionData data) ;;
      match repairErr with
      | Some e => Ret (EmptyString, Some e)
      | None =>
          let repairedPath := "repaired_" ++ jsonFilePath in
          err <- call (WriteFile rfs repairedPath repairedData perm0644) ;;
          match err with
          | Some e => Ret (EmptyString, Some e)
          | None => Ret (repairedPath, None)
          end
      end
  end.

(** saveToFile prompts the user to save the content to a file of the
    given type. *)
Definition saveToFile (rfs : FileSystem) (ctx : Context) (reader : Reader)
    (content : string) (fileType : string) : Prog unit :=
  '(saveOutput, err) <- promptForInput ctx reader PromptSaveOutputToFile ;;
  match err with
  | Some e => handleInputError e
  | None =>
      if ToLower saveOutput =? "yes" then
        '(fileName, err) <- promptForInput ctx reader (PromptEnterFileName fileType) ;;
        match err with
        | Some e => handleInputError e
        | None =>
            if fileName =? EmptyString then
              println "No file name entered. Operation cancelled."
            else
              let fileName :=
                if fileType =? FileTypeDataset then fileName ++ ".json"
                else fileName ++ ".csv" in
              '(overwrite, err) <- call (ConfirmOverwrite rfs ctx reader fileName) ;;
              match err with
              | Some e => handleInputError e
              | None =>
                  if negb overwrite then
                    println "Operation cancelled by the user."
                  else
                    err <- call (WriteFile rfs fileName
                                   (list_byte_of_string content) perm0644) ;;
                    match err with
                    | Some e => print ("Error writing file: " ++ Error e ++ nl)
                    | None =>
                        print (ToTitle fileType ++ " output saved to "
                               ++ fileName ++ nl)
                    end
              end
        end
      else
        println "Save to file operation cancelled by the user."
  end.

(** handleInputCancellation checks the error type and handles context
    cancellation and EOF. *)
Definition handleInputCancellation (err : error) : Prog unit :=
  if canceledOrEOF err then
    println GracefulExit ;;
    osExit 0
  else
    print (nl ++ "Error reading input: " ++ Error err ++ nl) ;;
    osExit 1.

(** createSeparateCSVFiles prompts for the two file names and creates
    separate CSV files for sessions and messages. *)
Definition createSeparateCSVFiles (rfs : FileSystem) (ctx : Context)
    (reader : Reader) (sessions : list Session) : Prog unit :=
  '(sessionsFileName, err) <- promptForInput ctx reader PromptEnterSessionsCSVFileName ;;
  match err with
  | Some e => handleInputError e
  | None =>
      '(overwrite, err) <- call (ConfirmOverwrite rfs ctx reader sessionsFileName) ;;
      match err with
      | Some e => handleInputError e
      | None =>
          if negb overwrite then
            println "Operation cancelled by the user for sessions file."
          else
            '(messagesFileName, err) <-
               promptForInput ctx reader PromptEnterMessagesCSVFileName ;;
            match err with
            | Some e => handleInputError e
            | None =>
                '(overwrite, err) <-
                   call (ConfirmOverwrite rfs ctx reader messagesFileName) ;;
                match err with
                | Some e => handleInputError e
                | None =>
                    if negb overwrite then
                      println "Operation cancelled by the user for messages file."
                    else
                      err <- call (CreateSeparateCSVFiles sessions
                                     sessionsFileName messagesFileName) ;;
                      match err with
                      | Some e =>
                          if canceledOrEOF e then
                            println GracefulExit ;;
                            osExit 0
                          else
                            print (nl ++ "Error reading input: " ++ Error e ++ nl) ;;
                            osExit 1
                      | None => Ret tt
                      end ;;
                      print ("Sessions data saved to " ++ sessionsFileName ++ nl) ;;
                      print ("Messages data saved to " ++ messagesFileName ++ nl)
                end
            end
      end
  end.

(** convertToSingleCSV converts the session data to a single CSV file
    using the given format option. *)
Definition convertToSingleCSV (rfs : FileSystem) (ctx : Context) (reader : Reader)
    (sessions : list Session) (formatOption : Z) (csvFileName : string)
  : Prog unit :=
  '(overwrite, err) <- call (ConfirmOverwrite rfs ctx reader csvFileName) ;;
  match err with
  | Some e => print ("Failed to check file existence: " ++ Error e ++ nl)
  | None =>
      if negb overwrite then
        println "Operation cancelled by the user."
      else
        err <- call (ConvertSessionsToCSV ctx sessions formatOption csvFileName) ;;
        match err with
        | Some Canceled => println "Operation was canceled by the user."
        | Some e =>
            print ("Failed to convert sessions to CSV: " ++ Error e ++ nl)
        | None => print ("CSV output saved to " ++ csvFileName ++ nl)
        end
  end.

(** executeCSVConversion handles the CSV conversion for the format
    option the user selected. *)
Definition executeCSVConversion (rfs : FileSystem) (ctx : Context)
    (reader : Reader) (formatOption : Z) (sessions : list Session)
  : Prog unit :=
  let switch (csvFileName : string) : Prog unit :=
    if (formatOption =? OutputFormatSeparateCSV)%Z then
      createSeparateCSVFiles rfs ctx reader sessions
    else
      convertToSingleCSV rfs ctx reader sessions formatOption csvFileName in
  if negb (formatOption =? OutputFormatSeparateCSV)%Z then
    '(csvFileName, err) <- promptForInput ctx reader PromptEnterCSVFileName ;;
    match err with
    | Some e => handleInputError e
    | None => switch csvFileName
    end
  else
    switch EmptyString.

(** processCSVOption prompts for the CSV format option and acts on it. *)
Definition processCSVOption (rfs : FileSystem) (ctx : Context) (reader : Reader)
    (sessions : list Session) : Prog unit :=
  '(formatOptionStr, err) <- promptForInput ctx reader PromptSelectCSVOutputFormat ;;
  match err with
  | Some e =>
      if canceledOrEOF e then
        println GracefulExit ;;
        osExit 0
      else
        print (nl ++ "Error reading input: " ++ Error e ++ nl) ;;
        osExit 1
  | None => Ret tt
  end ;;
  match Atoi formatOptionStr with
  | None => println (nl ++ "Invalid format option.")
  | Some formatOption => executeCSVConversion rfs ctx reader formatOption sessions
  end.

(** processDatasetOption converts the sessions to a Hugging Face
    dataset and offers to save it. *)
Definition processDatasetOption (rfs : FileSystem) (ctx : Context)
    (reader : Reader) (sessions : list Session) : Prog unit :=
  '(datasetOutput, err) <- call (ExtractToDataset sessions) ;;
  match err with
  | Some e =>
      if canceledOrEOF e then
        println GracefulExit ;;
        osExit 0
      else
        print (nl ++ "Error reading input: " ++ Error e ++ nl) ;;
        osExit 1
  | None => Ret tt
  end ;;
  saveToFile rfs ctx reader datasetOutput "dataset".

(** processOutputOption directs the flow by the output format chosen. *)
Definition processOutputOption (fs : FileSystem) (ctx : Context) (reader : Reader)
    (outputOption : string) (sessions : list Session) : Prog unit :=
  if outputOption =? "1" then processCSVOption fs ctx reader sessions
  else if outputOption =? "2" then processDatasetOption fs ctx reader sessions
  else println "Invalid output option.".

(** writeContentToFile collects a file name from the user and writes
    the content to that file. *)
Definition writeContentToFile (rfs : FileSystem) (ctx : Context) (reader : Reader)
    (content : string) (fileType : string) : Prog (option error) :=
  '(fileName, err) <- promptForInput ctx reader (PromptEnterFileName fileType) ;;
  match err with
  | Some e => Ret (Some e)
  | None =>
      let fileName :=
        if fileType =? "dataset" then fileName ++ ".json" else fileName in
      err <- call (WriteFile rfs fileName (list_byte_of_string content) perm0644) ;;
      match err with
      | Some e => Ret (Some e)
      | None =>
          print (ToTitle fileType ++ " output saved to " ++ fileName ++ nl) ;;
          Ret None
      end
  end.

(** main: the signal handling of [setupSignalHandling] is the [Sigint]
    of the script; the context, the reader and the file system are the
    handles created here.  The deferred [cancel] runs when [main]
    returns, after the last call. *)
Definition main : Prog unit :=
  let ctx := WithCancel in
  let reader := Stdin in
  '(jsonFilePath, err) <- promptForInput ctx reader PromptEnterJSONFilePath ;;
  match err with
  | Some e => handleInputError e
  | None =>
      '(repairData, err) <- promptForInput ctx reader PromptRepairData ;;
      match err with
      | Some e => handleInputError e
      | None =>
          if ToLower repairData =? "yes" then
            let realFS := RealFileSystem in
            '(newFilePath, err) <- repairJSONData realFS ctx jsonFilePath ;;
            match err with
            | Some e => print ("Error: " ++ Error e ++ nl) ;; osExit 1
            | None =>
                print ("Repaired JSON data has been saved to: "
                       ++ newFilePath ++ nl) ;;
                osExit 0
            end
          else
            '(store, err) <- call (ReadJSONFromFile jsonFilePath) ;;
            match err with
            | Some e =>
                print ("Error reading or parsing the JSON file: "
                       ++ Error e ++ nl) ;;
                osExit 1
            | None => Ret tt
            end ;;
            '(outputOption, err) <-
               promptForInput ctx reader PromptSelectOutputFormat ;;
            match err with
            | Some e => handleInputError e
            | None =>
                let realFS := RealFileSystem in
                processOutputOption realFS ctx reader outputOption
                  (Sessions (ChatNextWebStore store))
            end
      end
  end.

End Main.
Export Main.

(** ** Reading executions *)

(** The answers of a script, without the signals. *)
Fixpoint answers (s : list Input) : list Answer :=
  match s with
  | [] => []
  | Sigint :: s' => answers s'
  | Gives a :: s' => a :: answers s'
  end.

(** A signal is the next thing to happen. *)
Definition interrupted (s : list Input) : bool :=
  match s with
  | Sigint :: _ => true
  | _ => false
  end.

Definition isCall (e : Event) : bool :=
  match e with
  | Interrupted => false
  | Called _ => true
  end.

(** The calls of an execution, in order, without the signal events. *)
Definition calls (es : list Event) : list Event := filter isCall es.

Definition quiet (es : list Event) : Prop := calls es = [].

(** The path and the data of every [WriteFile] call. *)
Definition writeOf (e : Event) : list (string * bytes) :=
  match e with
  | Interrupted => []
  | Called c =>
      match c with
      | WriteFile _ path data _ => [(path, data)]
      | _ => []
      end
  end.

Definition writeCalls (es : list Event) : list (string * bytes) :=
  flat_map writeOf es.

(** The name [saveToFile] writes to, for the name the user entered:
    the extension chosen by the file type is put after it. *)
Definition savedName (fileType name : string) : string :=
  if (fileType =? FileTypeDataset)%string then name ++ ".json" else name ++ ".csv".

(** The execution of a program that starts with a call: [r] goes on
    with [k x] after the call [c] got the answer [x]. *)
Definition after {A X : Type} (sigs : list Event) (c : Call X) (r : Run A) : Run A :=
  {| events := sigs ++ Called c :: events r;
     outcome := outcome r; final := final r |}.

(** The execution of [p] followed, when [p] returns, by the execution of
    what comes next. *)
Definition andThen {A B : Type} (r : Run A) (next : A -> World -> Run B) : Run B :=
  match outcome r with
  | Returned a =>
      let r' := next a (final r) in
      {| events := events r ++ events r';
         outcome := outcome r'; final := final r' |}
  | Exited code =>
      {| events := events r; outcome := Exited code; final := final r |}
  | Blocked =>
      {| events := events r; outcome := Blocked; final := final r |}
  end.

(** The calls of the pipeline after the repair: the store loader and the
    three exports of package [exporter]. *)
Definition isLoadOrExport (e : Event) : bool :=
  match e with
  | Interrupted => false
  | Called c =>
      match c with
      | ReadJSONFromFile _ | ExtractToDataset _
      | CreateSeparateCSVFiles _ _ _ | ConvertSessionsToCSV _ _ _ _ => true
      | _ => false
      end
  end.

Definition loadsAndExports (es : list Event) : list Event :=
  filter isLoadOrExport es.

(** The context a call is given, if any. *)
Definition contextOf {X : Type} (c : Call X) : option Context :=
  match c with
  | Select ctx _ | ConfirmOverwrite _ ctx _ _
  | ConvertSessionsToCSV ctx _ _ _ => Some ctx
  | _ => None
  end.

(** The two file names of every [CreateSeparateCSVFiles] call. *)
Definition conversionOf (e : Event) : list (string * string) :=
  match e with
  | Interrupted => []
  | Called c =>
      match c with
      | CreateSeparateCSVFiles _ sessionsFileName messagesFileName =>
          [(sessionsFileName, messagesFileName)]
      | _ => []
      end
  end.

Definition separateConversions (es : list Event) : list (string * string) :=
  flat_map conversionOf es.

(** The separate-files conversion that the answers to the two prompts
    and the two confirmations of [createSeparateCSVFiles] lead to. *)
Definition separateConversionFor (l : list Answer) : list (string * string) :=
  match l with
  | Chose (ReadResult sessionsFileName None) :: GaveBool true None
    :: Chose (ReadResult messagesFileName None) :: GaveBool true None :: _ =>
      [(TrimSpace sessionsFileName, TrimSpace messagesFileName)]
  | _ => []
  end.

(** What [convertToSingleCSV] prints after the conversion came back. *)
Definition conversionReport (err : option error) (csvFileName : string) : string :=
  match err with
  | Some Canceled => "Operation was canceled by the user." ++ nl
  | Some e => "Failed to convert sessions to CSV: " ++ Error e ++ nl
  | None => "CSV output saved to " ++ csvFileName ++ nl
  end.

(** The execution of a program that is over. *)
Definition stop {A : Type} (o : Outcome A) (w : World) : Run A :=
  {| events := []; outcome := o; final := w |}.

(** A call that waits for the outside either finds no fitting answer in
    the script, or resumes with the next answer. *)
Inductive Waited {A X : Type} (c : Call X) (k : X -> Prog A) (w : World)
  : Run A -> Prop :=
| WaitedInVain (sigs : list Event) (w1 : World) :
    quiet sigs ->
    cancelled w1 = cancelled w || interrupted (script w) ->
    (answers (script w) = []
     \/ exists a rest, answers (script w) = a :: rest
                       /\ decode c (cancelled w1) a = None) ->
    Waited c k w (after sigs c (stop Blocked w1))
| WaitedFor (sigs : list Event) (d : bool) (a : Answer) (s' : list Input) (x : X) :
    quiet sigs ->
    answers (script w) = a :: answers s' ->
    decode c d a = Some x ->
    d = cancelled w || interrupted (script w) ->
    Waited c k w (after sigs c (run (k x) {| cancelled := d; script := s' |})).

(** ** Executions used as examples *)

Module Scenario.

Local Open Scope string_scope.

(** A line typed at a prompt, with its line feed. *)
Definition typed (s : string) : Input :=
  Gives (Chose (ReadResult (s ++ nl) None)).

Definition start (s : list Input) : World :=
  {| cancelled := false; script := s |}.

Definition broken : bytes := list_byte_of_string "{sessions:[".
Definition repaired : bytes := list_byte_of_string "{sessions:[]}".

(** The file is read, the repair gives up. *)
Definition repairGivesUp : World :=
  start [Gives (GaveBytes broken None);
         Gives (GaveBytes [] (Some (OtherError "unable to repair")))].

(** The file is read, repaired and written. *)
Definition repairDone : World :=
  start [Gives (GaveBytes broken None);
         Gives (GaveBytes repaired None);
         Gives (GaveErr None)].

(** The user saves the dataset under a name that has its extension. *)
Definition saveAsJSON : World :=
  start [typed "yes"; typed "sessions.json"; Gives (GaveBool true None);
         Gives (GaveErr None)].

Definition saveAsCSV : World :=
  start [typed "YES"; typed "sessions.csv"; Gives (GaveBool true None);
         Gives (GaveErr None)].

Definition emptyStore : StoreData :=
  {| ChatNextWebStore := {| Sessions := [] |} |}.

(** The user asks for the repair, which succeeds; the script goes on
    with what a load and an export of the repaired file would get. *)
Definition repairThenExport : World :=
  start [typed "chat.json"; typed "yes";
         Gives (GaveBytes broken None); Gives (GaveBytes repaired None);
         Gives (GaveErr None);
         Gives (GaveStore emptyStore None); typed "2";
         Gives (GaveString "[]" None); typed "no"].

(** The user asks for a CSV export in format 7, which does not exist. *)
Definition formatSeven : World :=
  start [typed "chat.json"; typed "no"; Gives (GaveStore emptyStore None);
         typed "1"; typed "7"; typed "out.csv"; Gives (GaveBool true None);
         Gives (GaveErr (Some (OtherError "invalid format option")))].

(** The single-file conversion fails for want of room. *)
Definition conversionFails : World :=
  start [typed "chat.json"; typed "no"; Gives (GaveStore emptyStore None);
         typed "1"; typed "1"; typed "out.csv"; Gives (GaveBool true None);
         Gives (GaveErr (Some (OtherError "no space left on device")))].

(** The single-file conversion is cancelled. *)
Definition conversionCancelled : World :=
  start [typed "chat.json"; typed "no"; Gives (GaveStore emptyStore None);
         typed "1"; typed "2"; typed "out.csv"; Gives (GaveBool true None);
         Sigint; Gives (GaveErr (Some Canceled))].

(** The dataset cannot be written. *)
Definition writeFails : World :=
  start [typed "chat.json"; typed "no"; Gives (GaveStore emptyStore None);
         typed "2"; Gives (GaveString "[]" None); typed "yes"; typed "out";
         Gives (GaveBool true None);
         Gives (GaveErr (Some (OtherError "permission denied")))].

(** The user interrupts at the first prompt. *)
Definition interruptedAtPrompt : World :=
  start [Sigint; Gives (Chose CtxDone)].

(** The user asks for the repair, which gives up. *)
Definition repairFails : World :=
  start [typed "chat.json"; typed "yes"; Gives (GaveBytes broken None);
         Gives (GaveBytes [] (Some (OtherError "unable to repair")))].

(** The file cannot be parsed. *)
Definition parseFails : World :=
  start [typed "chat.json"; typed "no";
         Gives (GaveStore emptyStore (Some (OtherError "unexpected end of JSON input")))].

(** The user interrupts after the second confirmation of the
    separate-files export, before the conversion. *)
Definition interruptedBeforeConversion : World :=
  start [typed "chat.json"; typed "no"; Gives (GaveStore emptyStore None);
         typed "1"; typed "3"; typed "s.csv"; Gives (GaveBool true None);
         typed "m.csv"; Gives (GaveBool true None);
         Sigint; Gives (GaveErr None)].

(** The user interrupts after the confirmation of the dataset file,
    before the write. *)
Definition interruptedBeforeWrite : World :=
  start [typed "chat.json"; typed "no"; Gives (GaveStore emptyStore None);
         typed "2"; Gives (GaveString "[]" None); typed "yes"; typed "out";
         Gives (GaveBool true None); Sigint; Gives (GaveErr None)].

(** The user saves the dataset and the write fails. *)
Definition saveFails : World :=
  start [typed "yes"; typed "out"; Gives (GaveBool true None);
         Gives (GaveErr (Some (OtherError "permission denied")))].

(** The user declines to overwrite the sessions file; the script goes on
    with what the rest of the export would read. *)
Definition sessionsFileKept : World :=
  start [typed "s.csv"; Gives (GaveBool false None); typed "m.csv";
         Gives (GaveBool true None)].

(** The user declines to overwrite the messages file. *)
Definition messagesFileKept : World :=
  start [typed "s.csv"; Gives (GaveBool true None); typed "m.csv";
         Gives (GaveBool false None); Gives (GaveErr None)].

(** The separate-files conversion fails. *)
Definition separateFails : World :=
  start [typed "s.csv"; Gives (GaveBool true None); typed "m.csv";
         Gives (GaveBool true None);
         Gives (GaveErr (Some (OtherError "no space left on device")))].

(** The dataset is extracted and saved. *)
Definition datasetSaved : World :=
  start [Gives (GaveString "[{}]" None); typed "Yes"; typed " out ";
         Gives (GaveBool true None); Gives (GaveErr None)].

(** The dataset is extracted and the user does not save it. *)
Definition datasetDropped : World :=
  start [Gives (GaveString "[{}]" None); typed "n"; typed "out"].

(** The extraction of the dataset fails. *)
Definition extractionFails : World :=
  start [Gives (GaveString EmptyString (Some (OtherError "json: unsupported value")));
         typed "yes"; typed "out"].

(** Standard input is at its end when [main] asks for the path. *)
Definition endOfInput : World :=
  start [Gives (Chose (ReadResult EmptyString (Some EOF)))].

(** Standard input ends when the name of the CSV file is asked for. *)
Definition endOfInputAtFileName : World :=
  start [typed "chat.json"; typed "no"; Gives (GaveStore emptyStore None);
         typed "1"; typed "1";
         Gives (Chose (ReadResult EmptyString (Some EOF)))].

(** The read of the CSV format fails. *)
Definition readFailsAtFormat : World :=
  start [typed "chat.json"; typed "no"; Gives (GaveStore emptyStore None);
         typed "1";
         Gives (Chose (ReadResult EmptyString
                         (Some (OtherError "read /dev/stdin: input/output error"))))].

(** The user wants to save, and the read of the file name fails. *)
Definition saveInputFails : World :=
  start [typed "yes";
         Gives (Chose (ReadResult EmptyString
                         (Some (OtherError "read /dev/stdin: input/output error"))))].

End Scenario.

(** ** Further readings of executions *)

(** What is printed, in order. *)
Definition printOf (e : Event) : list string :=
  match e with
  | Interrupted => []
  | Called c =>
      match c with
      | Print s => [s]
      | _ => []
      end
  end.

Definition printed (es : list Event) : list string := flat_map printOf es.

(** The file names [ConfirmOverwrite] is asked about. *)
Definition confirmOf (e : Event) : list string :=
  match e with
  | Interrupted => []
  | Called c =>
      match c with
      | ConfirmOverwrite _ _ _ fileName => [fileName]
      | _ => []
      end
  end.

Definition confirmations (es : list Event) : list string := flat_map confirmOf es.

(** The format and the file name of every [ConvertSessionsToCSV] call. *)
Definition singleOf (e : Event) : list (Z * string) :=
  match e with
  | Interrupted => []
  | Called c =>
      match c with
      | ConvertSessionsToCSV _ _ formatOption csvFileName =>
          [(formatOption, csvFileName)]
      | _ => []
      end
  end.

Definition singleConversions (es : list Event) : list (Z * string) :=
  flat_map singleOf es.

(** Kinds of calls. *)
Definition isWrite (e : Event) : bool :=
  match e with
  | Interrupted => false
  | Called c => match c with WriteFile _ _ _ _ => true | _ => false end
  end.

Definition isFileAccess (e : Event) : bool :=
  match e with
  | Interrupted => false
  | Called c =>
      match c with
      | ReadFile _ _ | WriteFile _ _ _ _ => true
      | _ => false
      end
  end.

Definition isRepair (e : Event) : bool :=
  match e with
  | Interrupted => false
  | Called c =>
      match c with
      | ReadFile _ _ | RepairSessionData _ => true
      | _ => false
      end
  end.

Definition isExit (e : Event) : bool :=
  match e with
  | Interrupted => false
  | Called c => match c with Exit _ => true | _ => false end
  end.

Definition isInteraction (e : Event) : bool :=
  match e with
  | Interrupted => false
  | Called c =>
      match c with
      | Print _ | Select _ _ | ConfirmOverwrite _ _ _ _ | Exit _ => true
      | _ => false
      end
  end.

Definition isSeparateConversion (e : Event) : bool :=
  match e with
  | Interrupted => false
  | Called c => match c with CreateSeparateCSVFiles _ _ _ => true | _ => false end
  end.

Definition isSingleConversion (e : Event) : bool :=
  match e with
  | Interrupted => false
  | Called c => match c with ConvertSessionsToCSV _ _ _ _ => true | _ => false end
  end.

(** [AtMost P n p]: whatever the outside answers, the program [p] makes
    at most [n] calls of the kind [P]. *)
Inductive AtMost (P : Event -> bool) {A : Type} : nat -> Prog A -> Prop :=
| AtMostRet (n : nat) (a : A) : AtMost P n (Ret a)
| AtMostSkip (n : nat) {X : Type} (c : Call X) (k : X -> Prog A) :
    P (Called c) = false ->
    (forall x, AtMost P n (k x)) ->
    AtMost P n (Vis c k)
| AtMostTake (n : nat) {X : Type} (c : Call X) (k : X -> Prog A) :
    P (Called c) = true ->
    (forall x, AtMost P n (k x)) ->
    AtMost P (S n) (Vis c k).

(** The write of [writeContentToFile] that the answer to its prompt
    leads to. *)
Definition unconfirmedWrite (fileType content : string) (l : list Answer)
  : list (string * bytes) :=
  match l with
  | Chose (ReadResult name None) :: _ =>
      [(if (fileType =? "dataset")%string then TrimSpace name ++ ".json"
        else TrimSpace name,
        list_byte_of_string content)]
  | _ => []
  end.

(** The single-file conversion that the answer to the confirmation of
    [convertToSingleCSV] leads to. *)
Definition singleConversionFor (formatOption : Z) (csvFileName : string)
    (l : list Answer) : list (Z * string) :=
  match l with
  | GaveBool true None :: _ => [(formatOption, csvFileName)]
  | _ => []
  end.

(** What [saveToFile] prints after the write came back. *)
Definition writeReport (err : option error) (fileType fileName : string) : string :=
  match err with
  | Some e => "Error writing file: " ++ Error e ++ nl
  | None => ToTitle fileType ++ " output saved to " ++ fileName ++ nl
  end.

(** ** The errors of the prompts *)

(** The error [promptForInput] returns for what its [select] received:
    [ctx.Err()], which is [context.Canceled], when the context is done,
    the error of [ReadString] otherwise. *)
Definition promptError (sel : Selected) : option error :=
  match sel with
  | CtxDone => Some Canceled
  | ReadResult _ err => err
  end.

(** The exit status after an input error. *)
Definition statusOf (e : error) : Z := if canceledOrEOF e then 0 else 1.

(** What is printed for an input error: the message of the graceful
    exit, or the error, in the words of [handleInputError] or in those of
    [processCSVOption]. *)
Definition reportsOf (e : error) : list string :=
  if canceledOrEOF e then [GracefulExit ++ nl]
  else [nl ++ "[GopherHelper] Error reading input: " ++ Error e ++ nl;
        nl ++ "Error reading input: " ++ Error e ++ nl].

Definition isSelect (e : Event) : bool :=
  match e with
  | Interrupted => false
  | Called c => match c with Select _ _ => true | _ => false end
  end.

(** [Leaves e p]: the program [p] prints a report of [e] and leaves the
    process with the status of [e]. *)
Inductive Leaves (e : error) {A : Type} : Prog A -> Prop :=
| LeavesBy (msg : string) (k : unit -> Prog A) (k' : Empty_set -> Prog A) :
    In msg (reportsOf e) ->
    k tt = Vis (Exit (statusOf e)) k' ->
    Leaves e (Vis (Print msg) k).

(** [Heeded p]: whatever the outside answers, after every [select] of
    [p] that gives an error the program reports that error and leaves. *)
Inductive Heeded {A : Type} : Prog A -> Prop :=
| HeededRet (a : A) : Heeded (Ret a)
| HeededSelect (ctx : Context) (reader : Reader) (k : Selected -> Prog A) :
    (forall sel e, promptError sel = Some e -> Leaves e (k sel)) ->
    (forall input, Heeded (k (ReadResult input None))) ->
    Heeded (Vis (Select ctx reader) k)
| HeededCall {X : Type} (c : Call X) (k : X -> Prog A) :
    isSelect (Called c) = false ->
    (forall x, Heeded (k x)) ->
    Heeded (Vis c k).

(** ** Package updater *)

(** More of Go's [strings], for [printReleaseNotes]. *)
Module MoreStrings.

Local Open Scope string_scope.

(** [strings.Contains]. *)
Fixpoint Contains (s substr : string) : bool :=
  prefix substr s
  || match s with
     | EmptyString => false
     | String _ r => Contains r substr
     end.

(** [strings.ReplaceAll] for an [old] that is not empty, as in its two
    uses: the instances of [old] are replaced from left to right, without
    overlap.  [skip] counts the bytes of an instance still to pass. *)
Fixpoint replaceFrom (old new : string) (skip : nat) (s : string) : string :=
  match s with
  | EmptyString => EmptyString
  | String c r =>
      match skip with
      | S n => replaceFrom old new n r
      | O =>
          if prefix old s then new ++ replaceFrom old new (String.length old - 1) r
          else String c (replaceFrom old new 0 r)
      end
  end.

Definition ReplaceAll (s old new : string) : string := replaceFrom old new 0 s.

(** [strings.Split] for a separator that is not empty: the piece going
    on, then the pieces after it. *)
Fixpoint splitFrom (sep : string) (skip : nat) (s : string) : string * list string :=
  match s with
  | EmptyString => (EmptyString, [])
  | String c r =>
      match skip with
      | S n => splitFrom sep n r
      | O =>
          if prefix sep s then
            let '(p, ps) := splitFrom sep (String.length sep - 1) r in
            (EmptyString, p :: ps)
          else
            let '(p, ps) := splitFrom sep 0 r in
            (String c p, ps)
      end
  end.

Definition Split (s sep : string) : list string :=
  let '(p, ps) := splitFrom sep 0 s in p :: ps.

End MoreStrings.

Module Updater.

Import MoreStrings.
Local Open Scope string_scope.

Definition currentVersion : string := "1.3.3.7".
Definition githubRepo : string := "H0llyW00dzZ/ChatGPT-Next-Web-Session-Exporter".

(** The name of the binary [applyUpdate] replaces. *)
Definition binaryName : string := "ChatGPT-Next-Web-Session-Exporter".

(** releaseInfo: the tag of a GitHub release, its notes and its assets. *)
Record asset : Type := { Name : string; BrowserDownloadURL : string }.
Record releaseInfo : Type :=
  { TagName : string; Body : string; Assets : list asset }.

(** What the updater does to the outside, in order. *)
Inductive Action : Type :=
| Stdout (s : string)                    (* fmt.Print, Println, Printf *)
| Stderr (s : string)                    (* fmt.Fprintf(os.Stderr, ...) *)
| Get (url : string)                     (* http.Get *)
| CreateTemp (dir pattern : string)      (* os.CreateTemp *)
| Copy                                   (* io.Copy(out, resp.Body) *)
| AskOverwrite (fileName : string)       (* interactivity.ConfirmOverwrite *)
| Rename (oldpath newpath : string)      (* os.Rename *)
| Start                                  (* exec.Command(os.Args...).Start *)
| OsExit (code : Z).                     (* os.Exit *)

(** An HTTP response, as far as the updater looks at it. *)
Record Response : Type :=
  { StatusCode : Z; Status : string; RespBody : bytes }.

(** What the outside returns to the calls of the updater. *)
Record Outside : Type :=
  { httpGet : string -> Response * option error;
    jsonDecode : bytes -> releaseInfo * option error;
    createTemp : string * option error;       (* the name of the file created *)
    ioCopy : option error;
    confirmOverwrite : string -> bool * option error;
    osRename : string -> string -> option error;
    cmdStart : option error }.

(** printReleaseNotes prints the body of a release, line by line. *)
Definition printReleaseNotes (body : string) : list Action :=
  let body := ReplaceAll body "## " nl in
  let body := ReplaceAll body (String (ascii_of_nat 13) nl) nl in
  let lines := Split body nl in
  map (fun line =>
         if Contains line "https://" then Stdout ("Link: " ++ line ++ nl)
         else Stdout (line ++ nl))
      lines.

(** getLatestRelease fetches the latest release from GitHub: the release,
    or the error (with the nil release of the Go function). *)
Definition getLatestRelease (o : Outside)
  : list Action * (releaseInfo + error) :=
  let url := "https://api.github.com/repos/" ++ githubRepo ++ "/releases/latest" in
  let '(resp, err) := httpGet o url in
  ([Get url],
   match err with
   | Some e => inr e
   | None =>
       if negb (StatusCode resp =? 200)%Z then
         inr (OtherError ("GitHub API response status: " ++ Status resp))
       else
         let '(release, err) := jsonDecode o (RespBody resp) in
         match err with
         | Some e => inr e
         | None => inl release
         end
   end).

Section Platform.

(** [runtime.GOOS] and [runtime.GOARCH]. *)
Variables GOOS GOARCH : string.

Definition platformAsset : string :=
  "ChatGPT-Next-Web-Session-Exporter-" ++ GOOS ++ "-" ++ GOARCH.

(** The loop of [findMatchingAsset]. *)
Fixpoint firstMatching (assets : list asset) : string * option error :=
  match assets with
  | [] => (EmptyString, Some (OtherError "no binary for the current platform"))
  | a :: rest =>
      if Name a =? platformAsset then (BrowserDownloadURL a, None)
      else firstMatching rest
  end.

(** findMatchingAsset returns the URL of the asset for this platform. *)
Definition findMatchingAsset (release : releaseInfo) : string * option error :=
  firstMatching (Assets release).

(** downloadAsset downloads the asset to a temporary file and returns the
    name of that file. *)
Definition downloadAsset (o : Outside) (assetURL : string)
  : list Action * (string * option error) :=
  let '(resp, err) := httpGet o assetURL in
  match err with
  | Some e =>
      ([Get assetURL],
       (EmptyString, Some (OtherError ("error downloading update: " ++ Error e))))
  | None =>
      let '(out, err) := createTemp o in
      let temp := CreateTemp EmptyString "ChatGPT-Next-Web-Session-Exporter-update-*" in
      match err with
      | Some e =>
          ([Get assetURL; temp],
           (EmptyString, Some (OtherError ("error creating temp file: " ++ Error e))))
      | None =>
          match ioCopy o with
          | Some e => ([Get assetURL; temp; Copy], (EmptyString, Some e))
          | None => ([Get assetURL; temp; Copy], (out, None))
          end
      end
  end.

(** downloadAndUpdate finds the asset and downloads it. *)
Definition downloadAndUpdate (o : Outside) (release : releaseInfo)
  : list Action * (string * option error) :=
  let said := [Stdout ("Update available: " ++ TagName release ++ nl);
               Stdout ("Downloading update..." ++ nl)] in
  let '(assetURL, err) := findMatchingAsset release in
  match err with
  | Some e => (said, (EmptyString, Some e))
  | None =>
      let '(acts, (tempFileName, err)) := downloadAsset o assetURL in
      match err with
      | Some e => ((said ++ acts)%list, (EmptyString, Some e))
      | None =>
          let done := Stdout ("Update downloaded." ++ nl) in
          ((said ++ acts ++ [done])%list, (tempFileName, None))
      end
  end.

(** applyUpdate replaces the current binary with the new one. *)
Definition applyUpdate (o : Outside) (tempFileName : string)
  : list Action * option error :=
  let '(shouldOverwrite, err) := confirmOverwrite o binaryName in
  match err with
  | Some e =>
      ([AskOverwrite binaryName],
       Some (OtherError ("error during overwrite confirmation: " ++ Error e)))
  | None =>
      if negb shouldOverwrite then
        ([AskOverwrite binaryName; Stdout ("Update cancelled by the user." ++ nl)],
         None)
      else
        match osRename o tempFileName binaryName with
        | Some e =>
            ([AskOverwrite binaryName; Rename tempFileName binaryName],
             Some (OtherError ("error replacing binary: " ++ Error e)))
        | None => ([AskOverwrite binaryName; Rename tempFileName binaryName], None)
        end
  end.

(** restartApplication restarts the application. *)
Definition restartApplication (o : Outside) : list Action * Outcome unit :=
  let said := Stdout ("Update applied. Restarting application..." ++ nl) in
  match cmdStart o with
  | Some e =>
      ([said; Start; Stderr ("error restarting application: " ++ Error e)],
       Returned tt)
  | None => ([said; Start; OsExit 0], Exited 0)
  end.

(** UpdateApplication checks GitHub for another release and, if there is
    one, downloads it, puts it in place of the binary and restarts. *)
Definition UpdateApplication (o : Outside)
  : list Action * Outcome (option error) :=
  let '(fetched, latest) := getLatestRelease o in
  match latest with
  | inr e =>
      (fetched,
       Returned (Some (OtherError ("error fetching latest release: " ++ Error e))))
  | inl release =>
      if TagName release =? currentVersion then
        let none := Stdout ("No update available." ++ nl) in
        ((fetched ++ [none])%list, Returned None)
      else
        let notes :=
          Stdout ("Release notes for version " ++ TagName release ++ ":" ++ nl)
          :: printReleaseNotes (Body release) in
        let '(downloaded, (tempFileName, err)) := downloadAndUpdate o release in
        match err with
        | Some e => ((fetched ++ notes ++ downloaded)%list, Returned (Some e))
        | None =>
            let '(applied, err) := applyUpdate o tempFileName in
            match err with
            | Some e =>
                ((fetched ++ notes ++ downloaded ++ applied)%list,
                 Returned (Some e))
            | None =>
                let '(restarted, out) := restartApplication o in
                ((fetched ++ notes ++ downloaded ++ applied ++ restarted)%list,
                 match out with
                 | Returned _ => Returned None
                 | Exited code => Exited code
                 | Blocked => Blocked
                 end)
            end
        end
  end.

End Platform.

(** Kinds of actions. *)
Definition isRename (a : Action) : bool :=
  match a with Rename _ _ => true | _ => false end.

Definition isStart (a : Action) : bool :=
  match a with Start => true | _ => false end.

Definition isGet (a : Action) : bool :=
  match a with Get _ => true | _ => false end.

Definition isAsk (a : Action) : bool :=
  match a with AskOverwrite _ => true | _ => false end.

End Updater.

(** ** Package bannercli *)

Module Banner.

Local Open Scope string_scope.

(** What a banner does: it prints and it sleeps. *)
Inductive Action : Type :=
| Show (s : string)        (* fmt.Print, fmt.Println *)
| Sleep (delay : Z).       (* time.Sleep *)

(** [strings.Repeat(" ", i)] *)
Fixpoint spaces (i : nat) : string :=
  match i with
  | O => EmptyString
  | S j => " " ++ spaces j
  end.

(** The inner loop of [PrintAnimatedBanner]: one pass of the message
    across the terminal, [i] going from 0 up to [len(message)]. *)
Definition pass (message : string) (delay : Z) : list Action :=
  flat_map
    (fun i => [Show (String (ascii_of_nat 13) (spaces i ++ message)); Sleep delay])
    (seq 0 (String.length message)).

(** The outer loop: [r] goes from 0 up to [repeat]. *)
Fixpoint passes (message : string) (delay : Z) (times : nat) : list Action :=
  match times with
  | O => []
  | S n => (pass message delay ++ passes message delay n)%list
  end.

(** PrintAnimatedBanner scrolls the message horizontally, [repeat]
    times, and ends the line. *)
Definition PrintAnimatedBanner (message : string) (repeat delay : Z) : list Action :=
  (passes message delay (Z.to_nat repeat) ++ [Show nl])%list.

Definition isSleep (a : Action) : bool :=
  match a with Sleep _ => true | Show _ => false end.

(** The time asked of [time.Sleep], all in all. *)
Fixpoint slept (l : list Action) : Z :=
  match l with
  | [] => 0
  | Sleep d :: rest => d + slept rest
  | Show _ :: rest => slept rest
  end.

(** What a banner of [message] may do: sleep for [delay], show a frame
    (a carriage return, fewer spaces than the message has bytes, the
    message), or end the line. *)
Definition frame (message : string) (delay : Z) (a : Action) : Prop :=
  match a with
  | Sleep d => d = delay
  | Show s =>
      s = nl
      \/ exists i, (i < String.length message)%nat
                   /\ s = String (ascii_of_nat 13) (spaces i ++ message)
  end.

End Banner.

(** Releases and outsides to run the updater on. *)
Module UpdateScenario.

Import Updater.
Local Open Scope string_scope.

Definition api : string :=
  "https://api.github.com/repos/H0llyW00dzZ/ChatGPT-Next-Web-Session-Exporter/releases/latest".

Definition forLinux : asset :=
  {| Name := "ChatGPT-Next-Web-Session-Exporter-linux-amd64";
     BrowserDownloadURL := "https://example.org/v2/linux-amd64" |}.

Definition forDarwin : asset :=
  {| Name := "ChatGPT-Next-Web-Session-Exporter-darwin-arm64";
     BrowserDownloadURL := "https://example.org/v2/darwin-arm64" |}.

Definition mirrorForLinux : asset :=
  {| Name := "ChatGPT-Next-Web-Session-Exporter-linux-amd64";
     BrowserDownloadURL := "https://mirror.example.org/linux-amd64" |}.

(** A release with another tag, and notes of two lines. *)
Definition next : releaseInfo :=
  {| TagName := "v1.3.3.8";
     Body := "## Fixes" ++ nl ++ "see https://example.org/notes";
     Assets := [forDarwin; forLinux; mirrorForLinux] |}.

(** The release the program was built from. *)
Definition same : releaseInfo :=
  {| TagName := "1.3.3.7"; Body := EmptyString; Assets := [forLinux] |}.

(** An older release, for darwin only. *)
Definition older : releaseInfo :=
  {| TagName := "1.0.0"; Body := EmptyString; Assets := [forDarwin] |}.

Definition answered (code : Z) (status : string) : Response :=
  {| StatusCode := code; Status := status; RespBody := [] |}.

(** An outside where every call succeeds: GitHub serves [release], the
    download answers with [code], the user gives [answer] and the restart
    ends as [started]. *)
Definition outside (release : releaseInfo) (code : Z) (status : string)
    (answer : bool) (started : option error) : Outside :=
  {| httpGet := fun url =>
       if url =? api then (answered 200 "200 OK", None)
       else (answered code status, None);
     jsonDecode := fun _ => (release, None);
     createTemp := ("/tmp/ChatGPT-Next-Web-Session-Exporter-update-42", None);
     ioCopy := None;
     confirmOverwrite := fun _ => (answer, None);
     osRename := fun _ _ => None;
     cmdStart := started |}.

(** GitHub answers with a status other than 200. *)
Definition limited : Outside :=
  {| httpGet := fun _ => (answered 403 "403 rate limit exceeded", None);
     jsonDecode := fun _ => (next, None);
     createTemp := (EmptyString, None);
     ioCopy := None;
     confirmOverwrite := fun _ => (true, None);
     osRename := fun _ _ => None;
     cmdStart := None |}.

(** GitHub cannot be reached. *)
Definition offline : Outside :=
  {| httpGet := fun _ =>
       (answered 0 EmptyString, Some (OtherError "dial tcp: no route to host"));
     jsonDecode := fun _ => (next, None);
     createTemp := (EmptyString, None);
     ioCopy := None;
     confirmOverwrite := fun _ => (true, None);
     osRename := fun _ _ => None;
     cmdStart := None |}.

(** GitHub answers with a body that is no release. *)
Definition garbled : Outside :=
  {| httpGet := fun _ => (answered 200 "200 OK", None);
     jsonDecode := fun _ =>
       (next, Some (OtherError "invalid character '<' looking for beginning of value"));
     createTemp := (EmptyString, None);
     ioCopy := None;
     confirmOverwrite := fun _ => (true, None);
     osRename := fun _ _ => None;
     cmdStart := None |}.

End UpdateScenario.

(** * Properties *)

(** ** The semantics of [run] *)

Section RunFacts.

Context {A : Type}.

Lemma run_Ret (a : A) (w : World) :
  run (Ret a) w = stop (Returned a) w.
Proof. reflexivity. Qed.

Lemma run_Print (s : string) (k : unit -> Prog A) (w : World) :
  run (Vis (Print s) k) w = after [] (Print s) (run (k tt) w).
Proof. reflexivity. Qed.

Lemma run_Exit (code : Z) (k : Empty_set -> Prog A) (w : World) :
  run (Vis (Exit code) k) w = after [] (Exit code) (stop (Exited code) w).
Proof. reflexivity. Qed.

Lemma deliver_spec (s : list Input) :
  forall c : bool,
    exists sigs d s1,
      deliver c s = (sigs, {| cancelled := d; script := s1 |})
      /\ quiet sigs
      /\ answers s1 = answers s
      /\ d = c || interrupted s
      /\ interrupted s1 = false.
Proof.
  induction s as [|[|a] s IH]; intros c.
  - exists [], c, []. repeat split; auto using orb_false_r.
  - destruct (IH true) as (sigs & d & s1 & E & Q & An & Mono & Hd).
    cbn [deliver]. rewrite E.
    exists (if c then sigs else Interrupted :: sigs), d, s1.
    repeat split; auto.
    + destruct c; auto.
    + cbn. rewrite Mono. now rewrite orb_true_r.
  - exists [], c, (Gives a :: s). repeat split; auto using orb_false_r.
Qed.

Lemma run_waited {X : Type} (c : Call X) (k : X -> Prog A) (w : World) :
  waits c = true -> Waited c k w (run (Vis c k) w).
Proof.
  intros Hw.
  destruct (deliver_spec (script w) (cancelled w))
    as (sigs & d & s1 & E & Q & An & Mono & Hd).
  assert (Hrun : run (Vis c k) w =
            match perform c {| cancelled := d; script := s1 |} with
            | Resumes x w2 => after sigs c (run (k x) w2)
            | Halts code =>
                {| events := sigs ++ [Called c]; outcome := Exited code;
                   final := {| cancelled := d; script := s1 |} |}
            | NoAnswer =>
                {| events := sigs ++ [Called c]; outcome := Blocked;
                   final := {| cancelled := d; script := s1 |} |}
            end).
  { cbn [run]. unfold arrive. rewrite Hw, E. reflexivity. }
  rewrite Hrun. clear Hrun E.
  assert (Hperf : perform c {| cancelled := d; script := s1 |} =
            match s1 with
            | Gives a :: s' =>
                match decode c d a with
                | Some x => Resumes x {| cancelled := d; script := s' |}
                | None => NoAnswer
                end
            | _ => NoAnswer
            end).
  { destruct c; try discriminate Hw; reflexivity. }
  rewrite Hperf. clear Hperf.
  destruct s1 as [|[|a] s'].
  - apply WaitedInVain; auto.
  - discriminate Hd.
  - cbn [answers] in An.
    destruct (decode c d a) as [x|] eqn:Hdec.
    + apply (WaitedFor c k w sigs d a s' x); auto.
    + apply WaitedInVain; auto. right. exists a, (answers s'). auto.
Qed.

Lemma run_bind {B : Type} (p : Prog A) (f : A -> Prog B) (w : World) :
  run (bind p f) w = andThen (run p w) (fun a => run (f a)).
Proof.
  revert w. induction p as [a | X c k IH]; intros w.
  - cbn [bind]. unfold andThen. cbn [run outcome final events app].
    destruct (run (f a) w); reflexivity.
  - cbn [bind run]. destruct (arrive c w) as [sigs w1].
    destruct (perform c w1) as [x w2 | code |]; try reflexivity.
    rewrite IH. unfold andThen. cbn [outcome final events].
    destruct (outcome (run (k x) w2)); try reflexivity.
    cbn [events outcome final]. now rewrite <- app_assoc.
Qed.

End RunFacts.

(** ** Calls and writes of an execution *)

Lemma quiet_writeCalls (sigs : list Event) : quiet sigs -> writeCalls sigs = [].
Proof.
  unfold quiet, calls, writeCalls.
  induction sigs as [|[|X c] sigs IH]; cbn; intros H; auto; discriminate.
Qed.

Section AfterFacts.

Context {A X : Type} (sigs : list Event) (c : Call X) (r : Run A).
Hypothesis Q : quiet sigs.

Lemma calls_after : calls (events (after sigs c r)) = Called c :: calls (events r).
Proof.
  pose proof Q as Q'. unfold quiet, calls in Q'.
  unfold after, calls. cbn [events].
  rewrite filter_app, Q'. reflexivity.
Qed.

Lemma writeCalls_after :
  writeCalls (events (after sigs c r))
  = (writeOf (Called c) ++ writeCalls (events r))%list.
Proof.
  unfold after, writeCalls. cbn [events].
  rewrite flat_map_app. fold (writeCalls sigs).
  rewrite (quiet_writeCalls sigs Q). reflexivity.
Qed.

Lemma loadsAndExports_after :
  loadsAndExports (events (after sigs c r))
  = (filter isLoadOrExport [Called c] ++ loadsAndExports (events r))%list.
Proof.
  pose proof Q as Q'. unfold quiet, calls in Q'.
  unfold after, loadsAndExports. cbn [events].
  rewrite filter_app.
  replace (filter isLoadOrExport sigs) with (@nil Event).
  - cbn [app filter]. destruct (isLoadOrExport (Called c)); reflexivity.
  - clear - Q'. induction sigs as [|[|Y c'] l IH]; cbn in *; auto; discriminate.
Qed.

Lemma separateConversions_after :
  separateConversions (events (after sigs c r))
  = (conversionOf (Called c) ++ separateConversions (events r))%list.
Proof.
  pose proof Q as Q'. unfold quiet, calls in Q'.
  unfold after, separateConversions. cbn [events].
  rewrite flat_map_app.
  replace (flat_map conversionOf sigs) with (@nil (string * string)).
  - reflexivity.
  - clear - Q'. induction sigs as [|[|Y c'] l IH]; cbn in *; auto; discriminate.
Qed.

Lemma outcome_after : outcome (after sigs c r) = outcome r.
Proof. reflexivity. Qed.

Lemma final_after : final (after sigs c r) = final r.
Proof. reflexivity. Qed.

End AfterFacts.

Lemma quiet_nil : quiet [].
Proof. reflexivity. Qed.

#[local] Hint Resolve quiet_nil : core.

Arguments run : simpl never.

(** One step of an execution that waits: the two cases of [Waited]. *)
Ltac wait :=
  match goal with
  | |- context [run (Vis ?c ?k) ?w] =>
      let W := fresh "W" in
      let sigs := fresh "sigs" in
      let w1 := fresh "w" in
      let d := fresh "d" in
      let a := fresh "a" in
      let s' := fresh "s" in
      let x := fresh "x" in
      let Hq := fresh "Hq" in
      let Hno := fresh "Hno" in
      let Hans := fresh "Hans" in
      let Hdec := fresh "Hdec" in
      let Hmono := fresh "Hmono" in
      pose proof (run_waited c k w eq_refl) as W;
      destruct W as [sigs w1 Hq Hmono Hno | sigs d a s' x Hq Hans Hdec Hmono]
  end.

(** The steps that do not wait, and the projections of the result. *)
Ltac steps :=
  repeat first
    [ rewrite run_Print | rewrite run_Exit | rewrite run_Ret
    | rewrite calls_after by auto
    | rewrite writeCalls_after by auto
    | rewrite loadsAndExports_after by auto
    | rewrite separateConversions_after by auto
    | rewrite outcome_after
    | rewrite final_after
    | progress unfold osExit, print, println, call
    | progress cbn [bind call print println osExit stop events outcome final
                      writeOf app calls writeCalls filter flat_map isCall negb
                      isLoadOrExport loadsAndExports
                      conversionOf separateConversions] ].

(** The script is known up to the call: the call cannot get stuck on the
    answer the script holds, and it resumes with that answer. *)
Ltac known :=
  cbn [script cancelled] in *;
  match goal with
  | H : answers ?s = _ :: _,
    Hno : answers ?s = [] \/ (exists a rest, _ /\ decode _ _ a = None) |- _ =>
      let a := fresh "a" in
      let rest := fresh "rest" in
      let E := fresh "E" in
      let D := fresh "D" in
      destruct Hno as [Hno | (a & rest & E & D)];
      [ rewrite H in Hno; discriminate Hno
      | rewrite H in E; injection E as <- _; cbn in D; try discriminate D ]
  | H : answers ?s = _ :: _,
    Hans : answers ?s = ?a :: answers _,
    Hdec : decode _ _ ?a = Some _ |- _ =>
      rewrite H in Hans; injection Hans as <- Hans; symmetry in Hans;
      cbn in Hdec; try discriminate Hdec;
      try (injection Hdec as <-)
  end.

(** ** The errors of the prompts *)

Lemma answers_not_shorter (pre : list Answer) (a : Answer) (rest : list Answer) :
  (pre ++ a :: rest)%list <> rest.
Proof.
  intros E. apply (f_equal (@List.length Answer)) in E.
  rewrite length_app in E. cbn [List.length] in E. lia.
Qed.

Lemma run_Vis {A X : Type} (c : Call X) (k : X -> Prog A) (w : World) :
  run (Vis c k) w
  = let '(sigs, w1) := arrive c w in
    match perform c w1 with
    | Resumes x w2 => after sigs c (run (k x) w2)
    | Halts code => after sigs c (stop (Exited code) w1)
    | NoAnswer => after sigs c (stop Blocked w1)
    end.
Proof.
  change (run (Vis c k) w)
    with (let '(sigs, w1) := arrive c w in
          match perform c w1 with
          | Resumes x w2 =>
              let r := run (k x) w2 in
              {| events := sigs ++ Called c :: events r;
                 outcome := outcome r; final := final r |}
          | Halts code =>
              {| events := sigs ++ [Called c]; outcome := Exited code; final := w1 |}
          | NoAnswer =>
              {| events := sigs ++ [Called c]; outcome := Blocked; final := w1 |}
          end).
  destruct (arrive c w) as [sigs w1]. destruct (perform c w1); reflexivity.
Qed.

(** One call of an execution, with what becomes of the script: the call
    does not wait, or it takes the next answer, or it finds none that
    fits and the answers stay where they are. *)
Lemma run_Vis_script {A X : Type} (c : Call X) (k : X -> Prog A) (w : World) :
  (waits c = false
   /\ ((exists x, run (Vis c k) w = after [] c (run (k x) w))
       \/ exists code, run (Vis c k) w = after [] c (stop (Exited code) w)))
  \/ (waits c = true
      /\ exists sigs, quiet sigs
         /\ ((exists a x w2,
                 answers (script w) = a :: answers (script w2)
                 /\ decode c (cancelled w2) a = Some x
                 /\ run (Vis c k) w = after sigs c (run (k x) w2))
             \/ (exists w1,
                    answers (script w1) = answers (script w)
                    /\ run (Vis c k) w = after sigs c (stop Blocked w1)))).
Proof.
  destruct (waits c) eqn:Hw.
  - right. split; [reflexivity|].
    destruct (deliver_spec (script w) (cancelled w))
      as (sigs & d & s1 & E & Q & An & Mono & Hd).
    exists sigs. split; [exact Q|].
    rewrite run_Vis. unfold arrive. rewrite Hw, E. clear E.
    assert (Hperf : perform c {| cancelled := d; script := s1 |} =
              match s1 with
              | Gives a :: s' =>
                  match decode c d a with
                  | Some x => Resumes x {| cancelled := d; script := s' |}
                  | None => NoAnswer
                  end
              | _ => NoAnswer
              end).
    { destruct c; try discriminate Hw; reflexivity. }
    rewrite Hperf. clear Hperf.
    destruct s1 as [|[|a] s'].
    + right. eexists. split; [|reflexivity]. exact An.
    + discriminate Hd.
    + destruct (decode c d a) as [x|] eqn:Hdec.
      * left. exists a, x, {| cancelled := d; script := s' |}.
        cbn [script cancelled]. repeat split; auto.
      * right. eexists. split; [|reflexivity]. exact An.
  - left. split; [reflexivity|].
    destruct c; try discriminate Hw.
    + left. exists tt. reflexivity.
    + right. exists code. reflexivity.
Qed.

Lemma decode_Select (ctx : Context) (reader : Reader) (d : bool) (a : Answer)
    (x : Selected) :
  decode (Select ctx reader) d a = Some x -> a = Chose x.
Proof.
  destruct a as [[|input err]| | | | |]; cbn; try discriminate.
  - destruct d; [|discriminate]. now intros [= <-].
  - now intros [= <-].
Qed.

Lemma decode_Chose {X : Type} (c : Call X) (d : bool) (sel : Selected) :
  isSelect (Called c) = false -> decode c d (Chose sel) = None.
Proof. destruct c; cbn; auto; discriminate. Qed.

Lemma leaves_run {A : Type} (e : error) (p : Prog A) (w : World) :
  Leaves e p ->
  exists msg,
    In msg (reportsOf e)
    /\ run p w
       = {| events := [Called (Print msg); Called (Exit (statusOf e))];
            outcome := Exited (statusOf e); final := w |}.
Proof.
  intros [msg k k' Hmsg Hk]. exists msg. split; [exact Hmsg|].
  rewrite run_Print, Hk, run_Exit. reflexivity.
Qed.

(** Where a program heeds the errors of its prompts, the execution in
    which a prompt gave an error, that being the last answer taken,
    ends there: by the report of the error and the exit. *)
Lemma heeded_run {A : Type} (p : Prog A) :
  Heeded p ->
  forall (w : World) (pre : list Answer) (sel : Selected) (e : error)
         (rest : list Answer),
    answers (script w) = (pre ++ Chose sel :: rest)%list ->
    promptError sel = Some e ->
    answers (script (final (run p w))) = rest ->
    outcome (run p w) = Exited (statusOf e)
    /\ exists before ctx reader msg,
         events (run p w)
         = (before ++ [Called (Select ctx reader); Called (Print msg);
                       Called (Exit (statusOf e))])%list
         /\ In msg (reportsOf e).
Proof.
  induction 1 as [a | ctx reader k Hleaves _ IH | X c k Hc _ IH];
    intros w pre sel e rest Hscript Herr Hfinal.
  - rewrite run_Ret in Hfinal. cbn [final stop] in Hfinal.
    rewrite Hscript in Hfinal. now apply answers_not_shorter in Hfinal.
  - destruct (run_Vis_script (Select ctx reader) k w)
      as [[Hw _] | (_ & sigs & Hq & [(a & x & w2 & Hans & Hdec & E) | (w1 & Hans & E)])];
      [discriminate Hw | |].
    + apply decode_Select in Hdec. subst a.
      rewrite E in *. rewrite final_after in Hfinal. rewrite outcome_after.
      cbn [events after].
      rewrite Hscript in Hans.
      destruct pre as [|a pre]; cbn [app] in Hans; injection Hans as Hx Hans.
      * subst x.
        destruct (leaves_run e (k sel) w2 (Hleaves sel e Herr)) as (msg & Hmsg & R).
        rewrite R. cbn [events outcome]. split; [reflexivity|].
        exists sigs, ctx, reader, msg. split; [reflexivity | exact Hmsg].
      * subst a.
        destruct (promptError x) as [e'|] eqn:Hx.
        -- destruct (leaves_run e' (k x) w2 (Hleaves x e' Hx)) as (msg & _ & R).
           rewrite R in Hfinal. cbn [final] in Hfinal.
           rewrite <- Hans in Hfinal. now apply answers_not_shorter in Hfinal.
        -- destruct x as [|input [e'|]]; try discriminate Hx.
           destruct (IH input w2 pre sel e rest (eq_sym Hans) Herr Hfinal)
             as (O & before & ctx' & reader' & msg & Ev & Hmsg).
           split; [exact O|].
           exists (sigs ++ Called (Select ctx reader) :: before)%list,
             ctx', reader', msg.
           split; [|exact Hmsg]. rewrite Ev, <- app_assoc. reflexivity.
    + rewrite E in Hfinal. rewrite final_after in Hfinal.
      cbn [final stop] in Hfinal. rewrite Hans, Hscript in Hfinal.
      now apply answers_not_shorter in Hfinal.
  - destruct (run_Vis_script c k w)
      as [(_ & [(x & E) | (code & E)])
         | (_ & sigs & Hq & [(a & x & w2 & Hans & Hdec & E) | (w1 & Hans & E)])].
    + rewrite E in *. rewrite final_after in Hfinal. rewrite outcome_after.
      destruct (IH x w pre sel e rest Hscript Herr Hfinal)
        as (O & before & ctx' & reader' & msg & Ev & Hmsg).
      split; [exact O|].
      exists (Called c :: before)%list, ctx', reader', msg.
      split; [|exact Hmsg]. cbn [events after app]. now rewrite Ev.
    + rewrite E in Hfinal. rewrite final_after in Hfinal.
      cbn [final stop] in Hfinal. rewrite Hscript in Hfinal.
      now apply answers_not_shorter in Hfinal.
    + rewrite E in *. rewrite final_after in Hfinal. rewrite outcome_after.
      rewrite Hscript in Hans.
      destruct pre as [|a' pre]; cbn [app] in Hans; injection Hans as Hx Hans.
      * subst a. rewrite (decode_Chose c _ sel Hc) in Hdec. discriminate Hdec.
      * destruct (IH x w2 pre sel e rest (eq_sym Hans) Herr Hfinal)
          as (O & before & ctx' & reader' & msg & Ev & Hmsg).
        split; [exact O|].
        exists (sigs ++ Called c :: before)%list, ctx', reader', msg.
        split; [|exact Hmsg]. cbn [events after]. rewrite Ev, <- app_assoc.
        reflexivity.
    + rewrite E in Hfinal. rewrite final_after in Hfinal.
      cbn [final stop] in Hfinal. rewrite Hans, Hscript in Hfinal.
      now apply answers_not_shorter in Hfinal.
Qed.

(** The report and the exit after an error. *)
Ltac leave :=
  match goal with
  | |- Leaves ?e _ =>
      destruct e; cbn [bind call print println canceledOrEOF];
      unfold osExit; cbn [bind];
      (eapply LeavesBy; [cbn [reportsOf canceledOrEOF In]; auto | reflexivity])
  end.

(** Go through a program, prompt by prompt, whatever the answers. *)
Ltac heed :=
  repeat first
    [ apply HeededRet
    | progress cbn [bind call print println]
    | progress unfold osExit
    | apply HeededSelect;
      [ let sel := fresh "sel" in
        let e := fresh "e" in
        let Herr := fresh "Herr" in
        intros sel e Herr;
        destruct sel as [|? [?|]]; cbn [promptError] in Herr;
        [ injection Herr as <- | injection Herr as <- | discriminate Herr ];
        unfold ctxErr; leave
      | intros ]
    | apply HeededCall; [reflexivity | intros]
    | match goal with
      | x : Empty_set |- _ => destruct x
      | |- Heeded (match ?x with _ => _ end) => destruct x
      | |- Heeded (bind (match ?x with _ => _ end) _) => destruct x
      end ].

Lemma saveToFile_heeds (rfs : FileSystem) (ctx : Context) (reader : Reader)
    (content fileType : string) :
  Heeded (saveToFile rfs ctx reader content fileType).
Proof. unfold saveToFile, promptForInput, handleInputError. heed. Qed.

Lemma main_heeds : Heeded main.
Proof.
  unfold main, processOutputOption, processCSVOption, processDatasetOption,
    executeCSVConversion, createSeparateCSVFiles, convertToSingleCSV,
    saveToFile, repairJSONData, promptForInput, handleInputError.
  heed.
Qed.

(** ** repairJSONData *)

Lemma repairJSONData_repair_fails (rfs : FileSystem) (ctx : Context)
    (path : string) (w : World) (data junk : bytes) (e : error)
    (rest : list Answer) :
  answers (script w) = GaveBytes data None :: GaveBytes junk (Some e) :: rest ->
  let r := run (repairJSONData rfs ctx path) w in
  outcome r = Returned (EmptyString, Some e)
  /\ calls (events r) = [Called (ReadFile rfs path); Called (RepairSessionData data)]
  /\ writeCalls (events r) = [].
Proof.
  intros H r. subst r. unfold repairJSONData. steps.
  wait; known. steps.
  wait; known. steps.
  auto.
Qed.

(** The call resumed with an answer of its own shape. *)
Ltac got :=
  match goal with
  | Hdec : decode _ ?d ?a = Some _ |- _ =>
      destruct a as [[|]| | | | |];
      cbn in Hdec; try discriminate Hdec;
      try (destruct d; [|discriminate Hdec]);
      injection Hdec as <-
  end.

(** The call got stuck: nothing more happens. *)
Ltac vain :=
  steps;
  try solve [ tauto | discriminate | congruence
            | repeat split; intros; first [tauto | discriminate | congruence] ].

Lemma repairJSONData_writes_after_repair (rfs : FileSystem) (ctx : Context)
    (path : string) (w : World) :
  writeCalls (events (run (repairJSONData rfs ctx path) w)) <> [] ->
  exists data fixed rest,
    answers (script w) = GaveBytes data None :: GaveBytes fixed None :: rest.
Proof.
  unfold repairJSONData. steps.
  wait; [vain|got]. steps.
  destruct err; [vain|].
  wait; [vain|got]. steps.
  destruct err; [vain|].
  intros _. cbn [script] in Hans0. rewrite Hans0 in Hans. eauto.
Qed.

(** C1: when [repairdata.RepairSessionData] returns an error,
    [repairJSONData] returns that error with the empty path after the
    two calls [ReadFile] and [RepairSessionData], so without any
    [WriteFile]; and in every execution a [WriteFile] of [repairJSONData]
    comes after a read and a repair that both returned no error. *)
Theorem repairJSONData_failure_writes_nothing :
  (forall rfs ctx path w data junk e rest,
      answers (script w)
      = GaveBytes data None :: GaveBytes junk (Some e) :: rest ->
      let r := run (repairJSONData rfs ctx path) w in
      outcome r = Returned (EmptyString, Some e)
      /\ calls (events r)
         = [Called (ReadFile rfs path); Called (RepairSessionData data)]
      /\ writeCalls (events r) = [])
  /\ (forall rfs ctx path w,
         writeCalls (events (run (repairJSONData rfs ctx path) w)) <> [] ->
         exists data fixed rest,
           answers (script w)
           = GaveBytes data None :: GaveBytes fixed None :: rest).
Proof.
  split.
  - intros. eapply repairJSONData_repair_fails; eassumption.
  - apply repairJSONData_writes_after_repair.
Qed.

Lemma repairJSONData_failure_writes_nothing_witness :
  let r := run (repairJSONData RealFileSystem WithCancel "chat.json")
             Scenario.repairGivesUp in
  outcome r = Returned (EmptyString, Some (OtherError "unable to repair"))
  /\ calls (events r)
     = [Called (ReadFile RealFileSystem "chat.json");
        Called (RepairSessionData Scenario.broken)]
  /\ writeCalls (events r) = [].
Proof.
  apply (proj1 repairJSONData_failure_writes_nothing
           RealFileSystem WithCancel "chat.json" Scenario.repairGivesUp
           Scenario.broken [] (OtherError "unable to repair") []).
  reflexivity.
Defined.

Lemma length_append (a b : string) :
  String.length (a ++ b) = (String.length a + String.length b)%nat.
Proof. induction a as [|c a IH]; cbn; [reflexivity | now rewrite IH]. Qed.

Lemma repaired_path_differs (path : string) : "repaired_" ++ path <> path.
Proof.
  intros E. apply (f_equal String.length) in E.
  rewrite length_append in E. cbn in E. lia.
Qed.

Lemma repairJSONData_success (rfs : FileSystem) (ctx : Context)
    (path : string) (w : World) (p : string) :
  let r := run (repairJSONData rfs ctx path) w in
  outcome r = Returned (p, None) ->
  p = "repaired_" ++ path
  /\ exists data fixed rest,
      answers (script w)
      = GaveBytes data None :: GaveBytes fixed None :: GaveErr None :: rest
      /\ calls (events r)
         = [Called (ReadFile rfs path); Called (RepairSessionData data);
            Called (WriteFile rfs p fixed perm0644)]
      /\ writeCalls (events r) = [(p, fixed)].
Proof.
  intros r. subst r. unfold repairJSONData. steps.
  wait; [vain|got]. steps.
  destruct err; [vain|].
  wait; [vain|got]. steps.
  destruct err; [vain|].
  wait; [vain|got]. steps.
  destruct err; [vain|]. steps.
  intros E. injection E as <-. split; [reflexivity|].
  cbn [script] in *. rewrite Hans1 in Hans0. rewrite Hans0 in Hans.
  eauto 8.
Qed.

Lemma repairJSONData_writes_elsewhere (rfs : FileSystem) (ctx : Context)
    (path : string) (w : World) :
  Forall (fun pd => fst pd <> path)
    (writeCalls (events (run (repairJSONData rfs ctx path) w))).
Proof.
  unfold repairJSONData. steps.
  wait; [vain|got]; steps; auto.
  destruct err; steps; auto.
  wait; [vain|got]; steps; auto.
  destruct err; steps; auto.
  wait; [|got; destruct err]; steps;
    (constructor; [apply repaired_path_differs | constructor]).
Qed.

(** The prefix goes in front of the directory of a path that has one,
    and in front of the file name of a path that has none. *)
Lemma Split_repaired (path : string) :
  GoPath.Split ("repaired_" ++ path)
  = match GoPath.directory path with
    | EmptyString => (EmptyString, "repaired_" ++ GoPath.fileName path)
    | String _ _ => ("repaired_" ++ GoPath.directory path, GoPath.fileName path)
    end.
Proof.
  unfold GoPath.directory, GoPath.fileName. cbn [append GoPath.Split].
  destruct (GoPath.Split path) as [[|d dir] file]; reflexivity.
Qed.

Lemma directory_repaired (path : string) :
  GoPath.directory ("repaired_" ++ path)
  = match GoPath.directory path with
    | EmptyString => EmptyString
    | String _ _ => "repaired_" ++ GoPath.directory path
    end.
Proof.
  unfold GoPath.directory at 1. rewrite Split_repaired.
  now destruct (GoPath.directory path).
Qed.

Lemma fileName_repaired (path : string) :
  GoPath.fileName ("repaired_" ++ path)
  = match GoPath.directory path with
    | EmptyString => "repaired_" ++ GoPath.fileName path
    | String _ _ => GoPath.fileName path
    end.
Proof.
  unfold GoPath.fileName at 1. rewrite Split_repaired.
  now destruct (GoPath.directory path).
Qed.

(** C2, as the code has it: when [repairJSONData] succeeds, the path it
    returns is the input path, as entered, with ["repaired_"] put in
    front, which is another path than the input.  For a path that is a
    bare file name this is the file [repaired_<name>] in the same
    directory, another file than the input; for a path with a directory
    the prefix is on the first element of the path, the directory is
    another one and the file keeps its name.  The one and only write of
    the execution stores the bytes [RepairSessionData] returned at that
    path; and in no execution does [repairJSONData] write to the input
    path. *)
Theorem repairJSONData_writes_repaired_copy :
  (forall rfs ctx path w p,
      let r := run (repairJSONData rfs ctx path) w in
      outcome r = Returned (p, None) ->
      p = "repaired_" ++ path /\ p <> path
      /\ (GoPath.directory path = EmptyString ->
          GoPath.directory p = EmptyString
          /\ GoPath.fileName p = "repaired_" ++ GoPath.fileName path
          /\ GoPath.fileName p <> GoPath.fileName path)
      /\ (GoPath.directory path <> EmptyString ->
          GoPath.directory p = "repaired_" ++ GoPath.directory path
          /\ GoPath.directory p <> GoPath.directory path
          /\ GoPath.fileName p = GoPath.fileName path)
      /\ exists data fixed rest,
          answers (script w)
          = GaveBytes data None :: GaveBytes fixed None :: GaveErr None :: rest
          /\ calls (events r)
             = [Called (ReadFile rfs path); Called (RepairSessionData data);
                Called (WriteFile rfs p fixed perm0644)]
          /\ writeCalls (events r) = [(p, fixed)])
  /\ (forall rfs ctx path w,
         Forall (fun pd => fst pd <> path)
           (writeCalls (events (run (repairJSONData rfs ctx path) w)))).
Proof.
  split.
  - intros rfs ctx path w p r H.
    destruct (repairJSONData_success rfs ctx path w p H) as [E R].
    split; [exact E|]. split; [rewrite E; apply repaired_path_differs|].
    split; [|split; [|exact R]]; rewrite E;
      rewrite directory_repaired, fileName_repaired.
    + intros Bare. rewrite Bare.
      repeat split; auto. apply repaired_path_differs.
    + intros Dir. destruct (GoPath.directory path) eqn:D; [contradiction|].
      repeat split; auto. apply repaired_path_differs.
  - apply repairJSONData_writes_elsewhere.
Qed.

Lemma repairJSONData_writes_repaired_copy_witness :
  let r := run (repairJSONData RealFileSystem WithCancel "chat.json")
             Scenario.repairDone in
  outcome r = Returned ("repaired_chat.json", None)
  /\ "repaired_chat.json" = "repaired_" ++ "chat.json"
  /\ "repaired_chat.json" <> "chat.json"
  /\ (GoPath.directory "chat.json" = EmptyString ->
      GoPath.directory "repaired_chat.json" = EmptyString
      /\ GoPath.fileName "repaired_chat.json" = "repaired_" ++ GoPath.fileName "chat.json"
      /\ GoPath.fileName "repaired_chat.json" <> GoPath.fileName "chat.json")
  /\ (GoPath.directory "chat.json" <> EmptyString ->
      GoPath.directory "repaired_chat.json" = "repaired_" ++ GoPath.directory "chat.json"
      /\ GoPath.directory "repaired_chat.json" <> GoPath.directory "chat.json"
      /\ GoPath.fileName "repaired_chat.json" = GoPath.fileName "chat.json")
  /\ exists data fixed rest,
      answers (script Scenario.repairDone)
      = GaveBytes data None :: GaveBytes fixed None :: GaveErr None :: rest
      /\ calls (events r)
         = [Called (ReadFile RealFileSystem "chat.json");
            Called (RepairSessionData data);
            Called (WriteFile RealFileSystem "repaired_chat.json" fixed perm0644)]
      /\ writeCalls (events r) = [("repaired_chat.json", fixed)].
Proof.
  split; [reflexivity|].
  apply (proj1 repairJSONData_writes_repaired_copy
           RealFileSystem WithCancel "chat.json" Scenario.repairDone
           "repaired_chat.json").
  reflexivity.
Defined.

(** C2 fails as stated: the user enters the path [data/chat.json]; the
    repair succeeds and writes [repaired_data/chat.json], a file named
    [chat.json] like the input, in another directory, and not a file
    named [repaired_chat.json]. *)
Lemma repaired_prefix_lands_on_directory :
  let r := run (repairJSONData RealFileSystem WithCancel "data/chat.json")
             Scenario.repairDone in
  outcome r = Returned ("repaired_data/chat.json", None)
  /\ writeCalls (events r) = [("repaired_data/chat.json", Scenario.repaired)]
  /\ GoPath.fileName "data/chat.json" = "chat.json"
  /\ GoPath.fileName "repaired_data/chat.json" = "chat.json"
  /\ GoPath.fileName "repaired_data/chat.json"
     <> "repaired_" ++ GoPath.fileName "data/chat.json"
  /\ GoPath.directory "data/chat.json" = "data/"
  /\ GoPath.directory "repaired_data/chat.json" = "repaired_data/".
Proof.
  cbv zeta. repeat split. discriminate.
Defined.

(** ** saveToFile *)

Lemma saveToFile_cases (rfs : FileSystem) (ctx : Context) (reader : Reader)
    (content fileType : string) (w : World) :
  let r := run (saveToFile rfs ctx reader content fileType) w in
  writeCalls (events r) = []
  \/ exists answer name rest,
      answers (script w)
      = Chose (ReadResult answer None) :: Chose (ReadResult name None)
          :: GaveBool true None :: rest
      /\ ToLower (TrimSpace answer) = "yes"
      /\ TrimSpace name <> EmptyString
      /\ writeCalls (events r)
         = [(savedName fileType (TrimSpace name), list_byte_of_string content)].
Proof.
  intros r. subst r. unfold saveToFile, promptForInput, handleInputError. steps.
  wait; [vain|got]; steps; [destruct (canceledOrEOF _); vain|].
  destruct err; [destruct (canceledOrEOF _); vain|].
  destruct (String.eqb_spec (ToLower (TrimSpace input)) "yes") as [Yes|No]; [|vain].
  steps.
  wait; [vain|got]; steps; [destruct (canceledOrEOF _); vain|].
  destruct err; [destruct (canceledOrEOF _); vain|].
  destruct (String.eqb_spec (TrimSpace input0) EmptyString) as [Empty|Named]; [vain|].
  steps.
  wait; [vain|got]; steps.
  destruct err; [destruct (canceledOrEOF _); vain|].
  destruct b; cbn [negb]; [|vain].
  right. exists input, input0, (answers s1).
  cbn [script] in *. rewrite Hans1 in Hans0. rewrite Hans0 in Hans.
  repeat split; auto.
  unfold savedName.
  wait; [|got; destruct err]; steps; reflexivity.
Qed.

Lemma saveToFile_confirmed (rfs : FileSystem) (ctx : Context) (reader : Reader)
    (content fileType : string) (w : World) (answer name : string)
    (rest : list Answer) :
  answers (script w)
  = Chose (ReadResult answer None) :: Chose (ReadResult name None)
      :: GaveBool true None :: rest ->
  ToLower (TrimSpace answer) = "yes" ->
  TrimSpace name <> EmptyString ->
  writeCalls (events (run (saveToFile rfs ctx reader content fileType) w))
  = [(savedName fileType (TrimSpace name), list_byte_of_string content)].
Proof.
  intros H Yes Named. unfold saveToFile, promptForInput. steps.
  wait; known. steps.
  rewrite Yes. cbn [String.eqb Ascii.eqb Bool.eqb]. steps.
  wait; known. steps.
  apply String.eqb_neq in Named. rewrite Named. steps.
  wait; known. steps.
  unfold savedName.
  wait; [|got; destruct err]; steps; reflexivity.
Qed.

Lemma savedName_longer (fileType name : string) :
  (String.length name < String.length (savedName fileType name))%nat.
Proof.
  unfold savedName.
  destruct (fileType =? FileTypeDataset)%string;
    rewrite length_append; cbn; lia.
Qed.

(** Once the three answers are there, [saveToFile] goes on to the write
    and does not leave the process. *)
Lemma saveToFile_written_stays (rfs : FileSystem) (ctx : Context)
    (reader : Reader) (content fileType : string) (w : World)
    (answer name : string) (rest : list Answer) :
  answers (script w)
  = Chose (ReadResult answer None) :: Chose (ReadResult name None)
      :: GaveBool true None :: rest ->
  ToLower (TrimSpace answer) = "yes" ->
  TrimSpace name <> EmptyString ->
  forall code,
    outcome (run (saveToFile rfs ctx reader content fileType) w) <> Exited code.
Proof.
  intros H Yes Named code. unfold saveToFile, promptForInput. steps.
  wait; known. steps.
  rewrite Yes. cbn [String.eqb Ascii.eqb Bool.eqb]. steps.
  wait; known. steps.
  apply String.eqb_neq in Named. rewrite Named. steps.
  wait; known. steps.
  wait; [|got; destruct err]; steps; discriminate.
Qed.

(** The paths of [saveToFile] that return without a write. *)
Lemma saveToFile_returns (rfs : FileSystem) (ctx : Context) (reader : Reader)
    (content fileType : string) (w : World) :
  let r := run (saveToFile rfs ctx reader content fileType) w in
  (forall answer rest,
      answers (script w) = Chose (ReadResult answer None) :: rest ->
      ToLower (TrimSpace answer) <> "yes" ->
      outcome r = Returned tt /\ writeCalls (events r) = [])
  /\ (forall answer name rest,
         answers (script w)
         = Chose (ReadResult answer None) :: Chose (ReadResult name None) :: rest ->
         ToLower (TrimSpace answer) = "yes" ->
         TrimSpace name = EmptyString ->
         outcome r = Returned tt /\ writeCalls (events r) = [])
  /\ (forall answer name rest,
         answers (script w)
         = Chose (ReadResult answer None) :: Chose (ReadResult name None)
             :: GaveBool false None :: rest ->
         ToLower (TrimSpace answer) = "yes" ->
         TrimSpace name <> EmptyString ->
         outcome r = Returned tt /\ writeCalls (events r) = []).
Proof.
  intros r. subst r. split; [|split].
  - intros answer rest H No. apply String.eqb_neq in No.
    unfold saveToFile, promptForInput. steps.
    wait; known. steps.
    rewrite No. steps. split; reflexivity.
  - intros answer name rest H Yes Empty.
    unfold saveToFile, promptForInput. steps.
    wait; known. steps.
    rewrite Yes. cbn [String.eqb Ascii.eqb Bool.eqb]. steps.
    wait; known. steps.
    rewrite Empty. steps. split; reflexivity.
  - intros answer name rest H Yes Named. apply String.eqb_neq in Named.
    unfold saveToFile, promptForInput. steps.
    wait; known. steps.
    rewrite Yes. cbn [String.eqb Ascii.eqb Bool.eqb]. steps.
    wait; known. steps.
    rewrite Named. steps.
    wait; known. steps. split; reflexivity.
Qed.

(** An error of the overwrite confirmation ends the process.  *)
Lemma saveToFile_confirmation_fails (rfs : FileSystem) (ctx : Context)
    (reader : Reader) (content fileType : string) (w : World)
    (answer name : string) (b : bool) (e : error) (rest : list Answer) :
  answers (script w)
  = Chose (ReadResult answer None) :: Chose (ReadResult name None)
      :: GaveBool b (Some e) :: rest ->
  ToLower (TrimSpace answer) = "yes" ->
  TrimSpace name <> EmptyString ->
  let r := run (saveToFile rfs ctx reader content fileType) w in
  outcome r = Exited (if canceledOrEOF e then 0 else 1)
  /\ writeCalls (events r) = [].
Proof.
  intros H Yes Named r. subst r.
  unfold saveToFile, promptForInput, handleInputError. steps.
  wait; known. steps.
  rewrite Yes. cbn [String.eqb Ascii.eqb Bool.eqb]. steps.
  wait; known. steps.
  apply String.eqb_neq in Named. rewrite Named. steps.
  wait; known. steps.
  destruct (canceledOrEOF e); steps; auto.
Qed.

(** C10, as the code has it: in every execution [saveToFile] calls
    [WriteFile] at most once; when it does, the save prompt was answered
    by a line that lowercases to ["yes"], the name prompt by a name that
    is not empty, and [ConfirmOverwrite] returned [true] without error;
    and whenever these three hold the write is made.  After an answer
    other than yes, an empty name or a declined overwriting the function
    returns without a write.  After an error of one of its two prompts
    or of the confirmation it does not return: it leaves the process, by
    [handleInputError], with status 0 for [context.Canceled] and
    [io.EOF] and status 1 for another error, without a write as well. *)
Theorem saveToFile_writes_once_when_confirmed
    (rfs : FileSystem) (ctx : Context) (reader : Reader)
    (content fileType : string) (w : World) :
  let r := run (saveToFile rfs ctx reader content fileType) w in
  (List.length (writeCalls (events r)) <= 1)%nat
  /\ (writeCalls (events r) <> [] <->
      exists answer name rest,
        answers (script w)
        = Chose (ReadResult answer None) :: Chose (ReadResult name None)
            :: GaveBool true None :: rest
        /\ ToLower (TrimSpace answer) = "yes"
        /\ TrimSpace name <> EmptyString)
  /\ (forall answer rest,
         answers (script w) = Chose (ReadResult answer None) :: rest ->
         ToLower (TrimSpace answer) <> "yes" ->
         outcome r = Returned tt /\ writeCalls (events r) = [])
  /\ (forall answer name rest,
         answers (script w)
         = Chose (ReadResult answer None) :: Chose (ReadResult name None) :: rest ->
         ToLower (TrimSpace answer) = "yes" ->
         TrimSpace name = EmptyString ->
         outcome r = Returned tt /\ writeCalls (events r) = [])
  /\ (forall answer name rest,
         answers (script w)
         = Chose (ReadResult answer None) :: Chose (ReadResult name None)
             :: GaveBool false None :: rest ->
         ToLower (TrimSpace answer) = "yes" ->
         TrimSpace name <> EmptyString ->
         outcome r = Returned tt /\ writeCalls (events r) = [])
  /\ (forall pre sel e rest,
         answers (script w) = (pre ++ Chose sel :: rest)%list ->
         promptError sel = Some e ->
         answers (script (final r)) = rest ->
         outcome r = Exited (if canceledOrEOF e then 0 else 1)
         /\ writeCalls (events r) = [])
  /\ (forall answer name b e rest,
         answers (script w)
         = Chose (ReadResult answer None) :: Chose (ReadResult name None)
             :: GaveBool b (Some e) :: rest ->
         ToLower (TrimSpace answer) = "yes" ->
         TrimSpace name <> EmptyString ->
         outcome r = Exited (if canceledOrEOF e then 0 else 1)
         /\ writeCalls (events r) = []).
Proof.
  intros r.
  assert (Once : (List.length (writeCalls (events r)) <= 1)%nat
                 /\ (writeCalls (events r) <> [] <->
                     exists answer name rest,
                       answers (script w)
                       = Chose (ReadResult answer None)
                           :: Chose (ReadResult name None)
                           :: GaveBool true None :: rest
                       /\ ToLower (TrimSpace answer) = "yes"
                       /\ TrimSpace name <> EmptyString)).
  { destruct (saveToFile_cases rfs ctx reader content fileType w)
      as [None | (answer & name & rest & H & Yes & Named & One)];
      fold r in None || fold r in One.
    - rewrite None. split; [cbn; lia|]. split; [congruence|].
      intros (answer & name & rest & H & Yes & Named).
      pose proof (saveToFile_confirmed rfs ctx reader content fileType w
                    answer name rest H Yes Named) as One.
      fold r in One. congruence.
    - rewrite One. split; [cbn; lia|]. split; [eauto 7 | discriminate]. }
  destruct Once as [Once Iff].
  destruct (saveToFile_returns rfs ctx reader content fileType w)
    as (No & Empty & Declined).
  fold r in No, Empty, Declined.
  split; [exact Once|]. split; [exact Iff|].
  split; [exact No|]. split; [exact Empty|]. split; [exact Declined|].
  split.
  - intros pre sel e rest H Herr Hfinal.
    destruct (heeded_run _ (saveToFile_heeds rfs ctx reader content fileType)
                w pre sel e rest H Herr Hfinal) as [O _].
    fold r in O. split; [exact O|].
    destruct (writeCalls (events r)) as [|pd l]; [reflexivity|].
    exfalso.
    assert (N : pd :: l <> []) by discriminate.
    apply Iff in N. destruct N as (answer & name & rest' & H' & Yes & Named).
    apply (saveToFile_written_stays rfs ctx reader content fileType w
             answer name rest' H' Yes Named (statusOf e)).
    exact O.
  - intros answer name b e rest H Yes Named.
    apply (saveToFile_confirmation_fails rfs ctx reader content fileType w
             answer name b e rest H Yes Named).
Qed.

Lemma saveToFile_writes_once_when_confirmed_witness :
  let r := run (saveToFile RealFileSystem WithCancel Stdin "[]" "dataset")
             Scenario.saveAsJSON in
  writeCalls (events r) <> []
  /\ exists answer name rest,
      answers (script Scenario.saveAsJSON)
      = Chose (ReadResult answer None) :: Chose (ReadResult name None)
          :: GaveBool true None :: rest
      /\ ToLower (TrimSpace answer) = "yes"
      /\ TrimSpace name <> EmptyString.
Proof.
  split; [discriminate|].
  apply (proj1 (proj2 (saveToFile_writes_once_when_confirmed
                         RealFileSystem WithCancel Stdin "[]" "dataset"
                         Scenario.saveAsJSON))).
  discriminate.
Defined.

(** C10 fails as stated: standard input ends at the save prompt, or the
    read of the file name fails; [saveToFile] does not return, it leaves
    the process, with status 0 in the first case and 1 in the second. *)
Lemma saveToFile_leaves_on_prompt_error :
  (let r := run (saveToFile RealFileSystem WithCancel Stdin "[]" "dataset")
              Scenario.endOfInput in
   outcome r = Exited 0
   /\ outcome r <> Returned tt
   /\ calls (events r)
      = [Called (Print PromptSaveOutputToFile); Called (Select WithCancel Stdin);
         Called (Print (GracefulExit ++ nl)); Called (Exit 0)])
  /\ (let r := run (saveToFile RealFileSystem WithCancel Stdin "[]" "dataset")
                 Scenario.saveInputFails in
      outcome r = Exited 1
      /\ outcome r <> Returned tt
      /\ calls (events r)
         = [Called (Print PromptSaveOutputToFile); Called (Select WithCancel Stdin);
            Called (Print (PromptEnterFileName "dataset"));
            Called (Select WithCancel Stdin);
            Called (Print (nl ++ "[GopherHelper] Error reading input: "
                              ++ "read /dev/stdin: input/output error" ++ nl));
            Called (Exit 1)]).
Proof.
  cbv zeta. repeat split; discriminate.
Defined.

(** C4, as the code has it: [saveToFile] puts [".json"] (file type
    ["dataset"]) or [".csv"] (any other file type) after every name it
    writes to, whatever the end of the name entered: the name written is
    never the name entered. *)
Theorem saveToFile_appends_extension
    (rfs : FileSystem) (ctx : Context) (reader : Reader)
    (content fileType : string) (w : World) (answer name : string)
    (rest : list Answer) :
  answers (script w)
  = Chose (ReadResult answer None) :: Chose (ReadResult name None)
      :: GaveBool true None :: rest ->
  ToLower (TrimSpace answer) = "yes" ->
  TrimSpace name <> EmptyString ->
  let written :=
    if (fileType =? "dataset")%string then TrimSpace name ++ ".json"
    else TrimSpace name ++ ".csv" in
  writeCalls (events (run (saveToFile rfs ctx reader content fileType) w))
  = [(written, list_byte_of_string content)]
  /\ written <> TrimSpace name.
Proof.
  intros H Yes Named written. split.
  - apply (saveToFile_confirmed rfs ctx reader content fileType w
             answer name rest H Yes Named).
  - intros E. pose proof (savedName_longer fileType (TrimSpace name)) as L.
    unfold savedName, FileTypeDataset in L. fold written in L.
    rewrite E in L. lia.
Qed.

Lemma saveToFile_appends_extension_witness :
  writeCalls (events (run (saveToFile RealFileSystem WithCancel Stdin "[]" "csv")
                        Scenario.saveAsCSV))
  = [("sessions.csv.csv", list_byte_of_string "[]")]
  /\ "sessions.csv.csv" <> "sessions.csv".
Proof.
  apply (saveToFile_appends_extension RealFileSystem WithCancel Stdin "[]" "csv"
           Scenario.saveAsCSV ("YES" ++ nl) ("sessions.csv" ++ nl) [GaveErr None]).
  - reflexivity.
  - reflexivity.
  - discriminate.
Defined.

(** C4 fails as stated: the user names the dataset file [sessions.json],
    a name that ends in the extension of the dataset output, and
    [saveToFile] writes [sessions.json.json], not [sessions.json]. *)
Lemma saveToFile_extension_twice :
  let r := run (saveToFile RealFileSystem WithCancel Stdin "[]" "dataset")
             Scenario.saveAsJSON in
  outcome r = Returned tt
  /\ map fst (writeCalls (events r)) = ["sessions.json.json"]
  /\ ~ In "sessions.json" (map fst (writeCalls (events r))).
Proof.
  cbv zeta. split; [reflexivity|]. split; [reflexivity|].
  intros [E|[]]. discriminate E.
Defined.

(** ** handleInputError *)

Lemma main_first_prompt_fails (w : World) (input : string) (e : error)
    (rest : list Answer) :
  answers (script w) = Chose (ReadResult input (Some e)) :: rest ->
  let r := run main w in
  calls (events r)
  = Called (Print PromptEnterJSONFilePath) :: Called (Select WithCancel Stdin)
      :: events (run (handleInputError e) w)
  /\ outcome r = Exited (if canceledOrEOF e then 0 else 1).
Proof.
  intros H r. subst r. unfold main, promptForInput, handleInputError. steps.
  wait; known. steps.
  destruct (canceledOrEOF e); steps; auto.
Qed.

(** C9: [handleInputError] does for [io.EOF] exactly what it does for
    [context.Canceled]: it prints the message of the graceful exit and
    leaves with status 0; for any other error it prints the error and
    leaves with status 1.  So the end of standard input is not reported
    as a failure: at whichever prompt of [main] and of the functions it
    calls the read gives [io.EOF], the execution ends there by the
    message of the graceful exit and status 0. *)
Theorem handleInputError_EOF_like_Canceled :
  (forall w,
      run (handleInputError EOF) w = run (handleInputError Canceled) w
      /\ events (run (handleInputError EOF) w)
         = [Called (Print (GracefulExit ++ nl)); Called (Exit 0)]
      /\ outcome (run (handleInputError EOF) w) = Exited 0)
  /\ (forall w msg,
         events (run (handleInputError (OtherError msg)) w)
         = [Called (Print (nl ++ "[GopherHelper] Error reading input: "
                             ++ msg ++ nl));
            Called (Exit 1)]
         /\ outcome (run (handleInputError (OtherError msg)) w) = Exited 1)
  /\ (forall w input rest,
         answers (script w) = Chose (ReadResult input (Some EOF)) :: rest ->
         outcome (run main w) = Exited 0
         /\ exitStatus (outcome (run main w)) = Some 0)
  /\ (forall w pre input rest,
         answers (script w)
         = (pre ++ Chose (ReadResult input (Some EOF)) :: rest)%list ->
         answers (script (final (run main w))) = rest ->
         outcome (run main w) = Exited 0
         /\ exitStatus (outcome (run main w)) = Some 0
         /\ exists before,
              events (run main w)
              = (before ++ [Called (Select WithCancel Stdin);
                            Called (Print (GracefulExit ++ nl));
                            Called (Exit 0)])%list).
Proof.
  split; [|split; [|split]].
  - intros w. repeat split.
  - intros w msg. split; reflexivity.
  - intros w input rest H.
    destruct (main_first_prompt_fails w input EOF rest H) as [_ O].
    rewrite O. split; reflexivity.
  - intros w pre input rest H Hfinal.
    destruct (heeded_run main main_heeds w pre (ReadResult input (Some EOF))
                EOF rest H eq_refl Hfinal)
      as (O & before & ctx & reader & msg & Ev & [<-|[]]).
    rewrite O. split; [reflexivity|]. split; [reflexivity|].
    exists before. rewrite Ev. now destruct ctx, reader.
Qed.

Lemma handleInputError_EOF_like_Canceled_witness :
  outcome (run main Scenario.endOfInputAtFileName) = Exited 0
  /\ exitStatus (outcome (run main Scenario.endOfInputAtFileName)) = Some 0
  /\ exists before,
       events (run main Scenario.endOfInputAtFileName)
       = (before ++ [Called (Select WithCancel Stdin);
                     Called (Print (GracefulExit ++ nl));
                     Called (Exit 0)])%list.
Proof.
  apply (proj2 (proj2 (proj2 handleInputError_EOF_like_Canceled))
           Scenario.endOfInputAtFileName
           [Chose (ReadResult ("chat.json" ++ nl) None);
            Chose (ReadResult ("no" ++ nl) None);
            GaveStore Scenario.emptyStore None;
            Chose (ReadResult ("1" ++ nl) None);
            Chose (ReadResult ("1" ++ nl) None)]
           EmptyString []).
  - reflexivity.
  - reflexivity.
Defined.

(** ** main: the repair *)

Lemma calls_app (es es' : list Event) : calls (es ++ es') = (calls es ++ calls es')%list.
Proof. apply filter_app. Qed.

Lemma loadsAndExports_calls (es : list Event) :
  loadsAndExports (calls es) = loadsAndExports es.
Proof.
  unfold loadsAndExports, calls.
  induction es as [|[|X c] es IH]; cbn; auto.
  destruct c; cbn; now rewrite IH.
Qed.

Lemma repairJSONData_stays_in_files (rfs : FileSystem) (ctx : Context)
    (path : string) (w : World) :
  let r := run (repairJSONData rfs ctx path) w in
  loadsAndExports (events r) = []
  /\ forall code, outcome r <> Exited code.
Proof.
  intros r. subst r. unfold repairJSONData. steps.
  wait; [vain|got]; steps.
  destruct err; [vain|].
  wait; [vain|got]; steps.
  destruct err; [vain|].
  wait; [vain|got; destruct err]; vain.
Qed.

(** What [main] does after [repairJSONData] came back. *)
Lemma main_repairs (w : World) (path answer : string) (rest : list Answer) :
  answers (script w)
  = Chose (ReadResult path None) :: Chose (ReadResult answer None) :: rest ->
  ToLower (TrimSpace answer) = "yes" ->
  exists w2,
    answers (script w2) = rest
    /\ let rr := run (repairJSONData RealFileSystem WithCancel (TrimSpace path)) w2 in
       calls (events (run main w))
       = (Called (Print PromptEnterJSONFilePath) :: Called (Select WithCancel Stdin)
          :: Called (Print PromptRepairData) :: Called (Select WithCancel Stdin)
          :: calls (events rr)
          ++ match outcome rr with
             | Returned (p, None) =>
                 [Called (Print ("Repaired JSON data has been saved to: " ++ p ++ nl));
                  Called (Exit 0)]
             | Returned (_, Some e) =>
                 [Called (Print ("Error: " ++ Error e ++ nl)); Called (Exit 1)]
             | _ => []
             end)%list
       /\ outcome (run main w)
          = match outcome rr with
            | Returned (_, None) => Exited 0
            | Returned (_, Some _) => Exited 1
            | Exited code => Exited code
            | Blocked => Blocked
            end.
Proof.
  intros H Yes. unfold main, promptForInput. steps.
  wait; known. steps.
  wait; known. steps.
  rewrite Yes. cbn [String.eqb Ascii.eqb Bool.eqb]. steps.
  exists {| cancelled := d0; script := s0 |}. split; [exact Hans0|].
  cbv zeta. rewrite run_bind. unfold andThen.
  destruct (outcome (run (repairJSONData _ _ _) _)) as [[p [e|]]|code|];
    cbn [events outcome final]; rewrite ?calls_app; steps;
    rewrite ?app_nil_r; auto.
Qed.

Lemma repairJSONData_succeeds (rfs : FileSystem) (ctx : Context)
    (path : string) (w : World) (data fixed : bytes) (rest : list Answer) :
  answers (script w)
  = GaveBytes data None :: GaveBytes fixed None :: GaveErr None :: rest ->
  let r := run (repairJSONData rfs ctx path) w in
  outcome r = Returned ("repaired_" ++ path, None)
  /\ calls (events r)
     = [Called (ReadFile rfs path); Called (RepairSessionData data);
        Called (WriteFile rfs ("repaired_" ++ path) fixed perm0644)].
Proof.
  intros H r. subst r. unfold repairJSONData. steps.
  wait; known. steps.
  wait; known. steps.
  wait; known. steps.
  auto.
Qed.

Lemma repairJSONData_fails (rfs : FileSystem) (ctx : Context) (path : string)
    (w : World) (e : error) :
  (exists data rest, answers (script w) = GaveBytes data (Some e) :: rest)
  \/ (exists data junk rest,
         answers (script w)
         = GaveBytes data None :: GaveBytes junk (Some e) :: rest)
  \/ (exists data fixed rest,
         answers (script w)
         = GaveBytes data None :: GaveBytes fixed None :: GaveErr (Some e) :: rest) ->
  outcome (run (repairJSONData rfs ctx path) w) = Returned (EmptyString, Some e).
Proof.
  intros [(data & rest & H) | [(data & junk & rest & H) | (data & fixed & rest & H)]];
    unfold repairJSONData; steps.
  - wait; known. steps. reflexivity.
  - wait; known. steps. wait; known. steps. reflexivity.
  - wait; known. steps. wait; known. steps. wait; known. steps. reflexivity.
Qed.

Lemma repairJSONData_failed (rfs : FileSystem) (ctx : Context) (path : string)
    (w : World) (p : string) (e : error) :
  outcome (run (repairJSONData rfs ctx path) w) = Returned (p, Some e) ->
  (exists data rest, answers (script w) = GaveBytes data (Some e) :: rest)
  \/ (exists data junk rest,
         answers (script w)
         = GaveBytes data None :: GaveBytes junk (Some e) :: rest)
  \/ (exists data fixed rest,
         answers (script w)
         = GaveBytes data None :: GaveBytes fixed None :: GaveErr (Some e) :: rest).
Proof.
  unfold repairJSONData. steps.
  wait; [vain|got]. steps.
  destruct err as [e1|].
  { steps. intros [= _ <-]. left. cbn [script] in *. eauto. }
  wait; [vain|got]. steps.
  destruct err as [e2|].
  { steps. intros [= _ <-]. right. left.
    cbn [script] in *. rewrite Hans0 in Hans. eauto. }
  wait; [vain|got]. steps.
  destruct err as [e3|]; steps; [|discriminate].
  intros [= _ <-]. right. right.
  cbn [script] in *. rewrite Hans1 in Hans0. rewrite Hans0 in Hans. eauto.
Qed.

(** C3, as the code has it: when the user answers the repair prompt by
    yes, [main] runs [repairJSONData] and then leaves the process.
    After a repair that wrote its file it prints the path of the
    repaired file and leaves with status 0; after a repair that failed,
    in its read, its repair or its write, it prints the error and leaves
    with status 1.  The store loader and the exports are not called in
    that execution. *)
Theorem main_repair_ends_the_process
    (w : World) (path answer : string) (rest : list Answer) :
  answers (script w)
  = Chose (ReadResult path None) :: Chose (ReadResult answer None) :: rest ->
  ToLower (TrimSpace answer) = "yes" ->
  let r := run main w in
  loadsAndExports (events r) = []
  /\ (outcome r = Exited 0 \/ outcome r = Exited 1 \/ outcome r = Blocked)
  /\ (outcome r = Exited 0 <->
      exists data fixed rest',
        rest = GaveBytes data None :: GaveBytes fixed None :: GaveErr None :: rest')
  /\ (forall data fixed rest',
         rest = GaveBytes data None :: GaveBytes fixed None :: GaveErr None :: rest' ->
         calls (events r)
         = [Called (Print PromptEnterJSONFilePath); Called (Select WithCancel Stdin);
            Called (Print PromptRepairData); Called (Select WithCancel Stdin);
            Called (ReadFile RealFileSystem (TrimSpace path));
            Called (RepairSessionData data);
            Called (WriteFile RealFileSystem ("repaired_" ++ TrimSpace path)
                      fixed perm0644);
            Called (Print ("Repaired JSON data has been saved to: "
                           ++ ("repaired_" ++ TrimSpace path) ++ nl));
            Called (Exit 0)])
  /\ (outcome r = Exited 1 <->
      exists e,
        (exists data rest', rest = GaveBytes data (Some e) :: rest')
        \/ (exists data junk rest',
               rest = GaveBytes data None :: GaveBytes junk (Some e) :: rest')
        \/ (exists data fixed rest',
               rest = GaveBytes data None :: GaveBytes fixed None
                        :: GaveErr (Some e) :: rest'))
  /\ (forall e,
         (exists data rest', rest = GaveBytes data (Some e) :: rest')
         \/ (exists data junk rest',
                rest = GaveBytes data None :: GaveBytes junk (Some e) :: rest')
         \/ (exists data fixed rest',
                rest = GaveBytes data None :: GaveBytes fixed None
                         :: GaveErr (Some e) :: rest') ->
         exists before,
           calls (events r)
           = (before ++ [Called (Print ("Error: " ++ Error e ++ nl));
                         Called (Exit 1)])%list).
Proof.
  intros H Yes r. subst r.
  destruct (main_repairs w path answer rest H Yes) as (w2 & Hrest & Hcalls & Hout).
  cbv zeta in Hcalls, Hout.
  pose proof (repairJSONData_stays_in_files RealFileSystem WithCancel
                (TrimSpace path) w2) as [Hfiles Hnoexit].
  pose proof (repairJSONData_success RealFileSystem WithCancel
                (TrimSpace path) w2) as Hsucc.
  pose proof (repairJSONData_failed RealFileSystem WithCancel
                (TrimSpace path) w2) as Hfailed.
  pose proof (repairJSONData_fails RealFileSystem WithCancel
                (TrimSpace path) w2) as Hfails.
  cbv zeta in Hfiles, Hnoexit, Hsucc.
  rewrite Hrest in Hfailed, Hfails.
  split; [|split; [|split; [|split; [|split]]]].
  - rewrite <- loadsAndExports_calls, Hcalls.
    unfold loadsAndExports. cbn [filter isLoadOrExport].
    rewrite filter_app. fold (loadsAndExports (calls (events
      (run (repairJSONData RealFileSystem WithCancel (TrimSpace path)) w2)))).
    rewrite loadsAndExports_calls, Hfiles.
    destruct (outcome (run (repairJSONData _ _ _) w2)) as [[p [e|]]|code|];
      reflexivity.
  - rewrite Hout.
    destruct (outcome (run (repairJSONData _ _ _) w2)) as [[p [e|]]|code|] eqn:O;
      auto.
    exfalso. exact (Hnoexit code eq_refl).
  - rewrite Hout. split.
    + intros E.
      destruct (outcome (run (repairJSONData _ _ _) w2)) as [[p [e|]]|code|] eqn:O;
        try discriminate E.
      * destruct (Hsucc p eq_refl) as (_ & data & fixed & rest' & Hshape & _).
        exists data, fixed, rest'. congruence.
      * exfalso. exact (Hnoexit code eq_refl).
    + intros (data & fixed & rest' & ->).
      destruct (repairJSONData_succeeds RealFileSystem WithCancel (TrimSpace path)
                  w2 data fixed rest' Hrest) as [O _].
      cbv zeta in O. rewrite O. reflexivity.
  - intros data fixed rest' ->.
    destruct (repairJSONData_succeeds RealFileSystem WithCancel (TrimSpace path)
                w2 data fixed rest' Hrest) as [O C].
    cbv zeta in O, C. rewrite Hcalls, O, C. reflexivity.
  - rewrite Hout. split.
    + intros E.
      destruct (outcome (run (repairJSONData _ _ _) w2)) as [[p [e|]]|code|] eqn:O;
        try discriminate E.
      * exists e. exact (Hfailed p e eq_refl).
      * exfalso. exact (Hnoexit code eq_refl).
    + intros (e & Fails). now rewrite (Hfails e Fails).
  - intros e Fails. rewrite Hcalls, (Hfails e Fails).
    eexists (_ :: _ :: _ :: _ :: _)%list. cbn [app]. reflexivity.
Qed.

Lemma main_repair_ends_the_process_witness :
  let r := run main Scenario.repairThenExport in
  outcome r = Exited 0
  /\ calls (events r)
     = [Called (Print PromptEnterJSONFilePath); Called (Select WithCancel Stdin);
        Called (Print PromptRepairData); Called (Select WithCancel Stdin);
        Called (ReadFile RealFileSystem "chat.json");
        Called (RepairSessionData Scenario.broken);
        Called (WriteFile RealFileSystem "repaired_chat.json"
                  Scenario.repaired perm0644);
        Called (Print ("Repaired JSON data has been saved to: "
                       ++ "repaired_chat.json" ++ nl));
        Called (Exit 0)]
  /\ loadsAndExports (events r) = [].
Proof.
  destruct (main_repair_ends_the_process Scenario.repairThenExport
              ("chat.json" ++ nl) ("yes" ++ nl)
              [GaveBytes Scenario.broken None; GaveBytes Scenario.repaired None;
               GaveErr None; GaveStore Scenario.emptyStore None;
               Chose (ReadResult ("2" ++ nl) None); GaveString "[]" None;
               Chose (ReadResult ("no" ++ nl) None)]
              eq_refl eq_refl)
    as (NoExport & _ & Zero & Calls & _).
  split; [|split].
  - apply Zero. eexists _, _, _. reflexivity.
  - apply (Calls Scenario.broken Scenario.repaired
             [GaveStore Scenario.emptyStore None;
              Chose (ReadResult ("2" ++ nl) None); GaveString "[]" None;
              Chose (ReadResult ("no" ++ nl) None)]).
    reflexivity.
  - exact NoExport.
Defined.

(** C3 fails as stated: the user asks for the repair, the repair writes
    its file, and the process leaves with status 0 without loading the
    repaired file or exporting anything; what a loader and an export
    would have got is still in the script. *)
Lemma main_repair_exports_nothing :
  let r := run main Scenario.repairThenExport in
  outcome r = Exited 0
  /\ writeCalls (events r) = [("repaired_chat.json", Scenario.repaired)]
  /\ loadsAndExports (events r) = []
  /\ answers (script (final r))
     = [GaveStore Scenario.emptyStore None; Chose (ReadResult ("2" ++ nl) None);
        GaveString "[]" None; Chose (ReadResult ("no" ++ nl) None)].
Proof.
  cbv zeta. repeat split.
Defined.

(** ** main: the failures and the export *)

Lemma main_first_prompt_cancelled (w : World) (rest : list Answer) :
  answers (script w) = Chose CtxDone :: rest ->
  cancelled w || interrupted (script w) = true ->
  let r := run main w in
  calls (events r)
  = [Called (Print PromptEnterJSONFilePath); Called (Select WithCancel Stdin);
     Called (Print (GracefulExit ++ nl)); Called (Exit 0)]
  /\ outcome r = Exited 0.
Proof.
  intros H Done r. subst r. unfold main, promptForInput, handleInputError. steps.
  wait; known.
  - rewrite Hmono, Done in D. discriminate D.
  - rewrite Hmono, Done in Hdec. injection Hdec as <-. steps. auto.
Qed.

Lemma main_parse_fails (w : World) (path answer : string) (store : StoreData)
    (e : error) (rest : list Answer) :
  answers (script w)
  = Chose (ReadResult path None) :: Chose (ReadResult answer None)
      :: GaveStore store (Some e) :: rest ->
  ToLower (TrimSpace answer) <> "yes" ->
  let r := run main w in
  calls (events r)
  = [Called (Print PromptEnterJSONFilePath); Called (Select WithCancel Stdin);
     Called (Print PromptRepairData); Called (Select WithCancel Stdin);
     Called (ReadJSONFromFile (TrimSpace path));
     Called (Print ("Error reading or parsing the JSON file: " ++ Error e ++ nl));
     Called (Exit 1)]
  /\ outcome r = Exited 1.
Proof.
  intros H No r. subst r. unfold main, promptForInput. steps.
  wait; known. steps.
  wait; known. steps.
  apply String.eqb_neq in No. rewrite No. steps.
  wait; known. steps.
  auto.
Qed.

(** After a store is loaded and the output format is read, [main] is
    [processOutputOption]. *)
Lemma main_exports (w : World) (path answer : string) (store : StoreData)
    (choice : string) (rest : list Answer) :
  answers (script w)
  = Chose (ReadResult path None) :: Chose (ReadResult answer None)
      :: GaveStore store None :: Chose (ReadResult choice None) :: rest ->
  ToLower (TrimSpace answer) <> "yes" ->
  exists w4,
    answers (script w4) = rest
    /\ let r' := run (processOutputOption RealFileSystem WithCancel Stdin
                        (TrimSpace choice) (Sessions (ChatNextWebStore store))) w4 in
       calls (events (run main w))
       = (Called (Print PromptEnterJSONFilePath) :: Called (Select WithCancel Stdin)
          :: Called (Print PromptRepairData) :: Called (Select WithCancel Stdin)
          :: Called (ReadJSONFromFile (TrimSpace path))
          :: Called (Print PromptSelectOutputFormat)
          :: Called (Select WithCancel Stdin)
          :: calls (events r'))%list
       /\ outcome (run main w) = outcome r'.
Proof.
  intros H No. unfold main, promptForInput. steps.
  wait; known. steps.
  wait; known. steps.
  apply String.eqb_neq in No. rewrite No. steps.
  wait; known. steps.
  wait; known. steps.
  exists {| cancelled := d2; script := s2 |}. split; [exact Hans2|].
  cbv zeta. auto.
Qed.

(** ** The CSV export *)

Lemma singleCSV_runs (rfs : FileSystem) (ctx : Context) (reader : Reader)
    (sessions : list Session) (w : World) (format name : string) (n : Z)
    (e : option error) (rest : list Answer) :
  answers (script w)
  = Chose (ReadResult format None) :: Chose (ReadResult name None)
      :: GaveBool true None :: GaveErr e :: rest ->
  Atoi (TrimSpace format) = Some n ->
  n <> OutputFormatSeparateCSV ->
  let r := run (processOutputOption rfs ctx reader "1" sessions) w in
  calls (events r)
  = [Called (Print PromptSelectCSVOutputFormat); Called (Select ctx reader);
     Called (Print PromptEnterCSVFileName); Called (Select ctx reader);
     Called (ConfirmOverwrite rfs ctx reader (TrimSpace name));
     Called (ConvertSessionsToCSV ctx sessions n (TrimSpace name));
     Called (Print (conversionReport e (TrimSpace name)))]
  /\ outcome r = Returned tt.
Proof.
  intros H Number Single r. subst r.
  unfold processOutputOption, processCSVOption, executeCSVConversion,
    convertToSingleCSV, promptForInput.
  cbn [String.eqb Ascii.eqb Bool.eqb]. steps.
  wait; known. steps.
  rewrite Number. apply Z.eqb_neq in Single. rewrite Single. steps.
  wait; known. steps.
  wait; known. steps.
  wait; known. steps.
  destruct e as [[| |msg]|]; steps; auto.
Qed.

Lemma processOutputOption_invalid (fs : FileSystem) (ctx : Context)
    (reader : Reader) (choice : string) (sessions : list Session) (w : World) :
  choice <> "1" -> choice <> "2" ->
  run (processOutputOption fs ctx reader choice sessions) w
  = {| events := [Called (Print ("Invalid output option." ++ nl))];
       outcome := Returned tt; final := w |}.
Proof.
  intros N1 N2. unfold processOutputOption.
  apply String.eqb_neq in N1, N2. rewrite N1, N2. reflexivity.
Qed.

Lemma processCSVOption_invalid (rfs : FileSystem) (ctx : Context)
    (reader : Reader) (sessions : list Session) (w : World) (format : string)
    (rest : list Answer) :
  answers (script w) = Chose (ReadResult format None) :: rest ->
  Atoi (TrimSpace format) = None ->
  let r := run (processCSVOption rfs ctx reader sessions) w in
  calls (events r)
  = [Called (Print PromptSelectCSVOutputFormat); Called (Select ctx reader);
     Called (Print (nl ++ "Invalid format option." ++ nl))]
  /\ outcome r = Returned tt
  /\ answers (script (final r)) = rest.
Proof.
  intros H NoNumber r. subst r. unfold processCSVOption, promptForInput. steps.
  wait; known. steps.
  rewrite NoNumber. steps. auto.
Qed.

(** C7, as the code has it: an output option other than ["1"] and ["2"]
    is reported and nothing else happens; a CSV format option that is no
    decimal number is reported after the format prompt and nothing else
    happens, the rest of the input stays unread.  A CSV format option
    that is a number other than 3, inside [{1,2,4}] or not, is not
    checked by main.go: the name of the file is asked for, the
    overwriting is confirmed and the conversion is called with that
    number. *)
Theorem invalid_selection_reported :
  (forall fs ctx reader choice sessions w,
      choice <> "1" -> choice <> "2" ->
      run (processOutputOption fs ctx reader choice sessions) w
      = {| events := [Called (Print ("Invalid output option." ++ nl))];
           outcome := Returned tt; final := w |})
  /\ (forall rfs ctx reader sessions w format rest,
         answers (script w) = Chose (ReadResult format None) :: rest ->
         Atoi (TrimSpace format) = None ->
         let r := run (processCSVOption rfs ctx reader sessions) w in
         calls (events r)
         = [Called (Print PromptSelectCSVOutputFormat); Called (Select ctx reader);
            Called (Print (nl ++ "Invalid format option." ++ nl))]
         /\ outcome r = Returned tt
         /\ answers (script (final r)) = rest)
  /\ (forall rfs ctx reader sessions w format name n e rest,
         answers (script w)
         = Chose (ReadResult format None) :: Chose (ReadResult name None)
             :: GaveBool true None :: GaveErr e :: rest ->
         Atoi (TrimSpace format) = Some n ->
         n <> OutputFormatSeparateCSV ->
         let r := run (processOutputOption rfs ctx reader "1" sessions) w in
         calls (events r)
         = [Called (Print PromptSelectCSVOutputFormat); Called (Select ctx reader);
            Called (Print PromptEnterCSVFileName); Called (Select ctx reader);
            Called (ConfirmOverwrite rfs ctx reader (TrimSpace name));
            Called (ConvertSessionsToCSV ctx sessions n (TrimSpace name));
            Called (Print (conversionReport e (TrimSpace name)))]
         /\ outcome r = Returned tt).
Proof.
  split; [|split].
  - exact processOutputOption_invalid.
  - exact processCSVOption_invalid.
  - exact singleCSV_runs.
Qed.

Lemma invalid_selection_reported_witness :
  run (processOutputOption RealFileSystem WithCancel Stdin "3" [])
      (Scenario.start [Scenario.typed "out.csv"])
  = {| events := [Called (Print ("Invalid output option." ++ nl))];
       outcome := Returned tt;
       final := Scenario.start [Scenario.typed "out.csv"] |}
  /\ (let r := run (processCSVOption RealFileSystem WithCancel Stdin [])
                 (Scenario.start [Scenario.typed "inline"; Scenario.typed "out.csv"]) in
      calls (events r)
      = [Called (Print PromptSelectCSVOutputFormat); Called (Select WithCancel Stdin);
         Called (Print (nl ++ "Invalid format option." ++ nl))]
      /\ outcome r = Returned tt
      /\ answers (script (final r)) = [Chose (ReadResult ("out.csv" ++ nl) None)])
  /\ (let r := run (processOutputOption RealFileSystem WithCancel Stdin "1" [])
                 (Scenario.start
                    [Scenario.typed "-5"; Scenario.typed "out.csv";
                     Gives (GaveBool true None); Gives (GaveErr None)]) in
      calls (events r)
      = [Called (Print PromptSelectCSVOutputFormat); Called (Select WithCancel Stdin);
         Called (Print PromptEnterCSVFileName); Called (Select WithCancel Stdin);
         Called (ConfirmOverwrite RealFileSystem WithCancel Stdin "out.csv");
         Called (ConvertSessionsToCSV WithCancel [] (-5) "out.csv");
         Called (Print ("CSV output saved to out.csv" ++ nl))]
      /\ outcome r = Returned tt).
Proof.
  destruct invalid_selection_reported as (Option & Word & Number).
  split; [|split].
  - apply Option; discriminate.
  - apply (Word RealFileSystem WithCancel Stdin [] _ ("inline" ++ nl)
             [Chose (ReadResult ("out.csv" ++ nl) None)]); reflexivity.
  - apply (Number RealFileSystem WithCancel Stdin [] _ ("-5" ++ nl)
             ("out.csv" ++ nl) (-5) None []);
      [reflexivity | reflexivity | discriminate].
Defined.

(** C7 fails as stated: the user chooses the CSV format 7, outside
    [{1,2,3,4}]; [main] still asks for the name of the CSV file, has the
    overwriting confirmed and calls the conversion with 7. *)
Lemma format_outside_the_set_prompts :
  let r := run main Scenario.formatSeven in
  Atoi "7" = Some 7
  /\ calls (events r)
     = [Called (Print PromptEnterJSONFilePath); Called (Select WithCancel Stdin);
        Called (Print PromptRepairData); Called (Select WithCancel Stdin);
        Called (ReadJSONFromFile "chat.json");
        Called (Print PromptSelectOutputFormat); Called (Select WithCancel Stdin);
        Called (Print PromptSelectCSVOutputFormat); Called (Select WithCancel Stdin);
        Called (Print PromptEnterCSVFileName); Called (Select WithCancel Stdin);
        Called (ConfirmOverwrite RealFileSystem WithCancel Stdin "out.csv");
        Called (ConvertSessionsToCSV WithCancel [] 7 "out.csv");
        Called (Print ("Failed to convert sessions to CSV: invalid format option"
                       ++ nl))]
  /\ outcome r = Returned tt.
Proof.
  cbv zeta. repeat split.
Defined.

(** ** Exit status *)

Lemma processCSVOption_prompt_fails (rfs : FileSystem) (ctx : Context)
    (reader : Reader) (sessions : list Session) (w : World) (input : string)
    (e : error) (rest : list Answer) :
  answers (script w) = Chose (ReadResult input (Some e)) :: rest ->
  let r := run (processCSVOption rfs ctx reader sessions) w in
  calls (events r)
  = [Called (Print PromptSelectCSVOutputFormat); Called (Select ctx reader);
     Called (Print (if canceledOrEOF e then GracefulExit ++ nl
                    else nl ++ "Error reading input: " ++ Error e ++ nl));
     Called (Exit (if canceledOrEOF e then 0 else 1))]
  /\ outcome r = Exited (if canceledOrEOF e then 0 else 1).
Proof.
  intros H r. subst r. unfold processCSVOption, promptForInput. steps.
  wait; known. steps.
  destruct (canceledOrEOF e); steps; auto.
Qed.

Lemma handleInputError_status (e : error) (w : World) :
  let r := run (handleInputError e) w in
  outcome r = Exited (if canceledOrEOF e then 0 else 1)
  /\ events r
     = [Called (Print (if canceledOrEOF e then GracefulExit ++ nl
                       else nl ++ "[GopherHelper] Error reading input: "
                            ++ Error e ++ nl));
        Called (Exit (if canceledOrEOF e then 0 else 1))].
Proof. destruct e; split; reflexivity. Qed.

Lemma main_repair_fails (w : World) (path answer : string) (rest : list Answer)
    (e : error) :
  answers (script w)
  = Chose (ReadResult path None) :: Chose (ReadResult answer None) :: rest ->
  ToLower (TrimSpace answer) = "yes" ->
  (exists data rest', rest = GaveBytes data (Some e) :: rest')
  \/ (exists data junk rest',
         rest = GaveBytes data None :: GaveBytes junk (Some e) :: rest')
  \/ (exists data fixed rest',
         rest = GaveBytes data None :: GaveBytes fixed None
                  :: GaveErr (Some e) :: rest') ->
  let r := run main w in
  outcome r = Exited 1
  /\ In (Called (Print ("Error: " ++ Error e ++ nl))) (calls (events r)).
Proof.
  intros H Yes Fails r. subst r.
  destruct (main_repairs w path answer rest H Yes) as (w2 & Hrest & Hcalls & Hout).
  cbv zeta in Hcalls, Hout.
  rewrite <- Hrest in Fails.
  pose proof (repairJSONData_fails RealFileSystem WithCancel (TrimSpace path)
                w2 e Fails) as O.
  rewrite O in Hcalls, Hout. split; [exact Hout|].
  rewrite Hcalls. do 4 right. apply in_or_app. right. left. reflexivity.
Qed.

Lemma main_conversion_ends (w : World) (path answer : string) (store : StoreData)
    (choice format name : string) (n : Z) (e : option error)
    (rest : list Answer) :
  answers (script w)
  = Chose (ReadResult path None) :: Chose (ReadResult answer None)
      :: GaveStore store None :: Chose (ReadResult choice None)
      :: Chose (ReadResult format None) :: Chose (ReadResult name None)
      :: GaveBool true None :: GaveErr e :: rest ->
  ToLower (TrimSpace answer) <> "yes" ->
  TrimSpace choice = "1" ->
  Atoi (TrimSpace format) = Some n ->
  n <> OutputFormatSeparateCSV ->
  let r := run main w in
  outcome r = Returned tt
  /\ calls (events r)
     = [Called (Print PromptEnterJSONFilePath); Called (Select WithCancel Stdin);
        Called (Print PromptRepairData); Called (Select WithCancel Stdin);
        Called (ReadJSONFromFile (TrimSpace path));
        Called (Print PromptSelectOutputFormat); Called (Select WithCancel Stdin);
        Called (Print PromptSelectCSVOutputFormat); Called (Select WithCancel Stdin);
        Called (Print PromptEnterCSVFileName); Called (Select WithCancel Stdin);
        Called (ConfirmOverwrite RealFileSystem WithCancel Stdin (TrimSpace name));
        Called (ConvertSessionsToCSV WithCancel (Sessions (ChatNextWebStore store))
                  n (TrimSpace name));
        Called (Print (conversionReport e (TrimSpace name)))].
Proof.
  intros H No One Number Single r. subst r.
  destruct (main_exports w path answer store choice _ H No)
    as (w4 & Hrest & Hcalls & Hout).
  cbv zeta in Hcalls, Hout. rewrite One in Hcalls, Hout.
  destruct (singleCSV_runs RealFileSystem WithCancel Stdin
              (Sessions (ChatNextWebStore store)) w4 format name n e rest
              Hrest Number Single) as [C O].
  cbv zeta in C, O. rewrite Hout, O, Hcalls, C. auto.
Qed.

(** C5, as the code has it.  A prompt that ends with
    [context.Canceled], or with [io.EOF], goes through the graceful
    exit: its message and status 0; a prompt that ends with another
    error is reported and the status is 1; this at every prompt of
    [main] and of the functions it calls.  A repair that fails (the
    read, the repair or the write of [repairJSONData]) and a store that
    cannot be loaded are reported and the status is 1.  A single-file
    CSV conversion that returns [context.Canceled] prints that the
    operation was cancelled and [main] returns, so the status is 0. *)
Theorem exit_status_of_errors :
  (forall e w,
      outcome (run (handleInputError e) w)
      = Exited (if canceledOrEOF e then 0 else 1)
      /\ events (run (handleInputError e) w)
         = [Called (Print (if canceledOrEOF e then GracefulExit ++ nl
                           else nl ++ "[GopherHelper] Error reading input: "
                                ++ Error e ++ nl));
            Called (Exit (if canceledOrEOF e then 0 else 1))])
  /\ (forall w pre sel e rest,
         answers (script w) = (pre ++ Chose sel :: rest)%list ->
         promptError sel = Some e ->
         answers (script (final (run main w))) = rest ->
         outcome (run main w) = Exited (if canceledOrEOF e then 0 else 1)
         /\ exists before msg,
              events (run main w)
              = (before ++ [Called (Select WithCancel Stdin); Called (Print msg);
                            Called (Exit (if canceledOrEOF e then 0 else 1))])%list
              /\ In msg (reportsOf e))
  /\ (forall w rest,
         answers (script w) = Chose CtxDone :: rest ->
         cancelled w || interrupted (script w) = true ->
         let r := run main w in
         calls (events r)
         = [Called (Print PromptEnterJSONFilePath); Called (Select WithCancel Stdin);
            Called (Print (GracefulExit ++ nl)); Called (Exit 0)]
         /\ outcome r = Exited 0)
  /\ (forall w input e rest,
         answers (script w) = Chose (ReadResult input (Some e)) :: rest ->
         outcome (run main w)
         = Exited (match e with Canceled | EOF => 0 | OtherError _ => 1 end)
         /\ calls (events (run main w))
            = [Called (Print PromptEnterJSONFilePath);
               Called (Select WithCancel Stdin);
               Called (Print (if canceledOrEOF e then GracefulExit ++ nl
                              else nl ++ "[GopherHelper] Error reading input: "
                                   ++ Error e ++ nl));
               Called (Exit (if canceledOrEOF e then 0 else 1))])
  /\ (forall rfs ctx reader sessions w input e rest,
         answers (script w) = Chose (ReadResult input (Some e)) :: rest ->
         outcome (run (processCSVOption rfs ctx reader sessions) w)
         = Exited (match e with Canceled | EOF => 0 | OtherError _ => 1 end)
         /\ calls (events (run (processCSVOption rfs ctx reader sessions) w))
            = [Called (Print PromptSelectCSVOutputFormat);
               Called (Select ctx reader);
               Called (Print (if canceledOrEOF e then GracefulExit ++ nl
                              else nl ++ "Error reading input: " ++ Error e ++ nl));
               Called (Exit (if canceledOrEOF e then 0 else 1))])
  /\ (forall w path answer rest e,
         answers (script w)
         = Chose (ReadResult path None) :: Chose (ReadResult answer None) :: rest ->
         ToLower (TrimSpace answer) = "yes" ->
         (exists data rest', rest = GaveBytes data (Some e) :: rest')
         \/ (exists data junk rest',
                rest = GaveBytes data None :: GaveBytes junk (Some e) :: rest')
         \/ (exists data fixed rest',
                rest = GaveBytes data None :: GaveBytes fixed None
                         :: GaveErr (Some e) :: rest') ->
         let r := run main w in
         outcome r = Exited 1
         /\ In (Called (Print ("Error: " ++ Error e ++ nl))) (calls (events r))
         /\ exists before,
              calls (events r)
              = (before ++ [Called (Print ("Error: " ++ Error e ++ nl));
                            Called (Exit 1)])%list)
  /\ (forall w path answer store e rest,
         answers (script w)
         = Chose (ReadResult path None) :: Chose (ReadResult answer None)
             :: GaveStore store (Some e) :: rest ->
         ToLower (TrimSpace answer) <> "yes" ->
         outcome (run main w) = Exited 1
         /\ calls (events (run main w))
            = [Called (Print PromptEnterJSONFilePath);
               Called (Select WithCancel Stdin);
               Called (Print PromptRepairData); Called (Select WithCancel Stdin);
               Called (ReadJSONFromFile (TrimSpace path));
               Called (Print ("Error reading or parsing the JSON file: "
                              ++ Error e ++ nl));
               Called (Exit 1)])
  /\ (forall w path answer store choice format name n rest,
         answers (script w)
         = Chose (ReadResult path None) :: Chose (ReadResult answer None)
             :: GaveStore store None :: Chose (ReadResult choice None)
             :: Chose (ReadResult format None) :: Chose (ReadResult name None)
             :: GaveBool true None :: GaveErr (Some Canceled) :: rest ->
         ToLower (TrimSpace answer) <> "yes" ->
         TrimSpace choice = "1" ->
         Atoi (TrimSpace format) = Some n ->
         n <> OutputFormatSeparateCSV ->
         let r := run main w in
         exitStatus (outcome r) = Some 0
         /\ last (calls (events r)) Interrupted
            = Called (Print ("Operation was canceled by the user." ++ nl))).
Proof.
  repeat apply conj.
  - intros e w. apply handleInputError_status.
  - intros w pre sel e rest H Herr Hfinal.
    destruct (heeded_run main main_heeds w pre sel e rest H Herr Hfinal)
      as (O & before & ctx & reader & msg & Ev & Hmsg).
    split; [exact O|]. exists before, msg. split; [|exact Hmsg].
    rewrite Ev. now destruct ctx, reader.
  - exact main_first_prompt_cancelled.
  - intros w input e rest H.
    destruct (main_first_prompt_fails w input e rest H) as [C O].
    destruct (handleInputError_status e w) as [_ Ev]. cbv zeta in Ev.
    rewrite O, C, Ev. split; [destruct e|]; reflexivity.
  - intros rfs ctx reader sessions w input e rest H.
    destruct (processCSVOption_prompt_fails rfs ctx reader sessions w input e
                rest H) as [C O].
    rewrite O, C. split; [destruct e|]; reflexivity.
  - intros w path answer rest e H Yes Fails r. subst r.
    destruct (main_repair_fails w path answer rest e H Yes Fails) as [O I].
    split; [exact O|]. split; [exact I|].
    destruct (main_repairs w path answer rest H Yes) as (w2 & Hrest & Hcalls & _).
    cbv zeta in Hcalls. rewrite <- Hrest in Fails.
    rewrite (repairJSONData_fails RealFileSystem WithCancel (TrimSpace path)
               w2 e Fails) in Hcalls.
    rewrite Hcalls. eexists (_ :: _ :: _ :: _ :: _)%list. cbn [app]. reflexivity.
  - intros w path answer store e rest H No.
    destruct (main_parse_fails w path answer store e rest H No) as [C O].
    split; assumption.
  - intros w path answer store choice format name n rest H No One Number Single r.
    subst r.
    destruct (main_conversion_ends w path answer store choice format name n
                (Some Canceled) rest H No One Number Single) as [O C].
    cbv zeta in O, C. rewrite O, C. split; reflexivity.
Qed.

Lemma exit_status_of_errors_witness :
  outcome (run main Scenario.interruptedAtPrompt) = Exited 0
  /\ outcome (run main Scenario.endOfInput) = Exited 0
  /\ outcome (run main Scenario.repairFails) = Exited 1
  /\ outcome (run main Scenario.parseFails) = Exited 1
  /\ outcome (run main Scenario.readFailsAtFormat) = Exited 1
  /\ outcome (run main Scenario.endOfInputAtFileName) = Exited 0
  /\ exitStatus (outcome (run main Scenario.conversionCancelled)) = Some 0
  /\ last (calls (events (run main Scenario.conversionCancelled))) Interrupted
     = Called (Print ("Operation was canceled by the user." ++ nl)).
Proof.
  destruct exit_status_of_errors
    as (_ & Prompt & Cancelled & Failed & _ & Repair & Parse & Conversion).
  split; [|split; [|split; [|split; [|split; [|split]]]]].
  - apply (Cancelled Scenario.interruptedAtPrompt []); reflexivity.
  - apply (Failed Scenario.endOfInput EmptyString EOF []); reflexivity.
  - apply (Repair Scenario.repairFails ("chat.json" ++ nl) ("yes" ++ nl)
             [GaveBytes Scenario.broken None;
              GaveBytes [] (Some (OtherError "unable to repair"))]
             (OtherError "unable to repair")); [reflexivity | reflexivity |].
    right. left. exists Scenario.broken, [], []. reflexivity.
  - apply (Parse Scenario.parseFails ("chat.json" ++ nl) ("no" ++ nl)
             Scenario.emptyStore (OtherError "unexpected end of JSON input") []);
      [reflexivity | discriminate].
  - apply (Prompt Scenario.readFailsAtFormat
             [Chose (ReadResult ("chat.json" ++ nl) None);
              Chose (ReadResult ("no" ++ nl) None);
              GaveStore Scenario.emptyStore None;
              Chose (ReadResult ("1" ++ nl) None)]
             (ReadResult EmptyString
                (Some (OtherError "read /dev/stdin: input/output error")))
             (OtherError "read /dev/stdin: input/output error") []);
      reflexivity.
  - apply (Prompt Scenario.endOfInputAtFileName
             [Chose (ReadResult ("chat.json" ++ nl) None);
              Chose (ReadResult ("no" ++ nl) None);
              GaveStore Scenario.emptyStore None;
              Chose (ReadResult ("1" ++ nl) None);
              Chose (ReadResult ("1" ++ nl) None)]
             (ReadResult EmptyString (Some EOF)) EOF []);
      reflexivity.
  - apply (Conversion Scenario.conversionCancelled ("chat.json" ++ nl) ("no" ++ nl)
             Scenario.emptyStore ("1" ++ nl) ("2" ++ nl) ("out.csv" ++ nl) 2 []);
      [reflexivity | discriminate | reflexivity | reflexivity | discriminate].
Defined.

(** C5 fails as stated.  The single-file conversion fails for want of
    room: [main] prints the failure and returns, the status is 0.  The
    dataset cannot be written: [main] prints the failure and returns,
    the status is 0.  Standard input ends at the first prompt, which is
    no cancellation: the process leaves by the graceful exit, status 0. *)
Lemma failures_with_status_zero :
  (let r := run main Scenario.conversionFails in
   exitStatus (outcome r) = Some 0
   /\ last (calls (events r)) Interrupted
      = Called (Print ("Failed to convert sessions to CSV: no space left on device"
                       ++ nl)))
  /\ (let r := run main Scenario.writeFails in
      exitStatus (outcome r) = Some 0
      /\ last (calls (events r)) Interrupted
         = Called (Print ("Error writing file: permission denied" ++ nl)))
  /\ (let r := run main Scenario.endOfInput in
      exitStatus (outcome r) = Some 0
      /\ calls (events r)
         = [Called (Print PromptEnterJSONFilePath); Called (Select WithCancel Stdin);
            Called (Print (GracefulExit ++ nl)); Called (Exit 0)]).
Proof.
  cbv zeta. repeat split.
Defined.

(** ** Cancellation and the separate-files export *)

(** Bring what is known of the script into the goal, and compare. *)
Ltac script :=
  steps;
  cbn [script cancelled] in *;
  repeat match goal with
         | H : answers ?s = _ |- context [answers ?s] => rewrite H
         end;
  first [ reflexivity
        | match goal with b : bool |- _ => destruct b; reflexivity end ].

(** The call got no answer it could take: the script is over, or its
    next answer is of another shape. *)
Ltac stuck :=
  steps;
  match goal with
  | Hno : _ \/ (exists a rest, _ /\ decode _ _ a = None) |- _ =>
      let a := fresh "a" in
      let rest := fresh "rest" in
      let E := fresh "E" in
      let D := fresh "D" in
      destruct Hno as [E | (a & rest & E & D)];
      [ script
      | destruct a as [[|]| | | | |]; cbn in D; try discriminate D; script ]
  end.

Lemma createSeparateCSVFiles_converts (rfs : FileSystem) (ctx : Context)
    (reader : Reader) (sessions : list Session) (w : World) :
  separateConversions (events (run (createSeparateCSVFiles rfs ctx reader sessions) w))
  = separateConversionFor (answers (script w)).
Proof.
  unfold createSeparateCSVFiles, promptForInput, handleInputError,
    handleInputCancellation. steps.
  wait; [stuck|got]; steps; [destruct (canceledOrEOF _); script|].
  destruct err; [destruct (canceledOrEOF _); script|].
  wait; [stuck|got]; steps.
  destruct err; [destruct (canceledOrEOF _); script|].
  destruct b; steps; [|script].
  wait; [stuck|got]; steps; [destruct (canceledOrEOF _); script|].
  destruct err; [destruct (canceledOrEOF _); script|].
  wait; [stuck|got]; steps.
  destruct err; [destruct (canceledOrEOF _); script|].
  destruct b; steps; [|script].
  wait; [|got; destruct err; [destruct (canceledOrEOF _)|]]; script.
Qed.

Lemma createSeparateCSVFiles_cancelled (rfs : FileSystem) (ctx : Context)
    (reader : Reader) (sessions : list Session) (w : World) (rest : list Answer) :
  answers (script w) = Chose CtxDone :: rest ->
  cancelled w || interrupted (script w) = true ->
  let r := run (createSeparateCSVFiles rfs ctx reader sessions) w in
  calls (events r)
  = [Called (Print PromptEnterSessionsCSVFileName); Called (Select ctx reader);
     Called (Print (GracefulExit ++ nl)); Called (Exit 0)]
  /\ outcome r = Exited 0.
Proof.
  intros H Done r. subst r.
  unfold createSeparateCSVFiles, promptForInput, handleInputError. steps.
  wait; known.
  - rewrite Hmono, Done in D. discriminate D.
  - rewrite Hmono, Done in Hdec. injection Hdec as <-. steps. auto.
Qed.

Lemma createSeparateCSVFiles_cancelled_later (rfs : FileSystem) (ctx : Context)
    (reader : Reader) (sessions : list Session) (w : World) (name : string)
    (rest : list Answer) :
  answers (script w)
  = Chose (ReadResult name None) :: GaveBool true None :: Chose CtxDone :: rest ->
  let r := run (createSeparateCSVFiles rfs ctx reader sessions) w in
  (calls (events r)
   = [Called (Print PromptEnterSessionsCSVFileName); Called (Select ctx reader);
      Called (ConfirmOverwrite rfs ctx reader (TrimSpace name));
      Called (Print PromptEnterMessagesCSVFileName); Called (Select ctx reader);
      Called (Print (GracefulExit ++ nl)); Called (Exit 0)]
   /\ outcome r = Exited 0)
  \/ (calls (events r)
      = [Called (Print PromptEnterSessionsCSVFileName); Called (Select ctx reader);
         Called (ConfirmOverwrite rfs ctx reader (TrimSpace name));
         Called (Print PromptEnterMessagesCSVFileName); Called (Select ctx reader)]
      /\ outcome r = Blocked
      /\ cancelled (final r) = false).
Proof.
  intros H r. subst r.
  unfold createSeparateCSVFiles, promptForInput, handleInputError. steps.
  wait; known. steps.
  wait; known. steps.
  wait; known.
  - right. steps. destruct (cancelled w0); [discriminate D | auto].
  - destruct d1; [|discriminate Hdec].
    injection Hdec as <-. left. steps. auto.
Qed.

(** C6, as the code has it.  The context goes to the prompts, to
    [ConfirmOverwrite] and to [ConvertSessionsToCSV];
    [CreateSeparateCSVFiles] and [WriteFile] are called without it.
    [createSeparateCSVFiles] calls the conversion exactly when its two
    prompts and its two confirmations returned without error, the
    confirmations with [true]; the signals of the script and the state
    of the context have no part in it.  A prompt of
    [createSeparateCSVFiles] whose [select] takes the branch of the
    cancellation (which it can only once the context is cancelled) ends
    the process by the graceful exit before any further call. *)
Theorem separate_export_cancels_at_prompts :
  (forall rfs ctx reader sessions w,
      separateConversions
        (events (run (createSeparateCSVFiles rfs ctx reader sessions) w))
      = separateConversionFor (answers (script w)))
  /\ (forall rfs ctx reader sessions w w',
         answers (script w) = answers (script w') ->
         separateConversions
           (events (run (createSeparateCSVFiles rfs ctx reader sessions) w))
         = separateConversions
             (events (run (createSeparateCSVFiles rfs ctx reader sessions) w')))
  /\ (forall rfs ctx reader sessions w rest,
         answers (script w) = Chose CtxDone :: rest ->
         cancelled w || interrupted (script w) = true ->
         let r := run (createSeparateCSVFiles rfs ctx reader sessions) w in
         calls (events r)
         = [Called (Print PromptEnterSessionsCSVFileName);
            Called (Select ctx reader);
            Called (Print (GracefulExit ++ nl)); Called (Exit 0)]
         /\ outcome r = Exited 0)
  /\ (forall rfs ctx reader sessions w name rest,
         answers (script w)
         = Chose (ReadResult name None) :: GaveBool true None
             :: Chose CtxDone :: rest ->
         let r := run (createSeparateCSVFiles rfs ctx reader sessions) w in
         (calls (events r)
          = [Called (Print PromptEnterSessionsCSVFileName);
             Called (Select ctx reader);
             Called (ConfirmOverwrite rfs ctx reader (TrimSpace name));
             Called (Print PromptEnterMessagesCSVFileName);
             Called (Select ctx reader);
             Called (Print (GracefulExit ++ nl)); Called (Exit 0)]
          /\ outcome r = Exited 0)
         \/ (calls (events r)
             = [Called (Print PromptEnterSessionsCSVFileName);
                Called (Select ctx reader);
                Called (ConfirmOverwrite rfs ctx reader (TrimSpace name));
                Called (Print PromptEnterMessagesCSVFileName);
                Called (Select ctx reader)]
             /\ outcome r = Blocked
             /\ cancelled (final r) = false))
  /\ (forall rfs ctx reader sessions n name data perm,
         contextOf (Select ctx reader) = Some ctx
         /\ contextOf (ConfirmOverwrite rfs ctx reader name) = Some ctx
         /\ contextOf (ConvertSessionsToCSV ctx sessions n name) = Some ctx
         /\ contextOf (CreateSeparateCSVFiles sessions name name) = None
         /\ contextOf (WriteFile rfs name data perm) = None).
Proof.
  split; [|split; [|split; [|split]]].
  - exact createSeparateCSVFiles_converts.
  - intros rfs ctx reader sessions w w' Same.
    now rewrite !createSeparateCSVFiles_converts, Same.
  - exact createSeparateCSVFiles_cancelled.
  - exact createSeparateCSVFiles_cancelled_later.
  - intros. repeat split.
Qed.

Lemma separate_export_cancels_at_prompts_witness :
  (let r := run (createSeparateCSVFiles RealFileSystem WithCancel Stdin [])
              Scenario.interruptedAtPrompt in
   calls (events r)
   = [Called (Print PromptEnterSessionsCSVFileName);
      Called (Select WithCancel Stdin);
      Called (Print (GracefulExit ++ nl)); Called (Exit 0)]
   /\ outcome r = Exited 0)
  /\ separateConversions
       (events (run (createSeparateCSVFiles RealFileSystem WithCancel Stdin [])
                  (Scenario.start
                     [Scenario.typed "s.csv"; Gives (GaveBool true None);
                      Scenario.typed "m.csv"; Gives (GaveBool true None)])))
     = separateConversions
         (events (run (createSeparateCSVFiles RealFileSystem WithCancel Stdin [])
                    {| cancelled := true;
                       script := [Scenario.typed "s.csv"; Sigint;
                                  Gives (GaveBool true None);
                                  Scenario.typed "m.csv";
                                  Gives (GaveBool true None); Sigint] |}))
  /\ (let r := run (createSeparateCSVFiles RealFileSystem WithCancel Stdin [])
                 (Scenario.start
                    [Scenario.typed "s.csv"; Gives (GaveBool true None);
                     Sigint; Gives (Chose CtxDone)]) in
      (calls (events r)
       = [Called (Print PromptEnterSessionsCSVFileName);
          Called (Select WithCancel Stdin);
          Called (ConfirmOverwrite RealFileSystem WithCancel Stdin "s.csv");
          Called (Print PromptEnterMessagesCSVFileName);
          Called (Select WithCancel Stdin);
          Called (Print (GracefulExit ++ nl)); Called (Exit 0)]
       /\ outcome r = Exited 0)
      \/ (calls (events r)
          = [Called (Print PromptEnterSessionsCSVFileName);
             Called (Select WithCancel Stdin);
             Called (ConfirmOverwrite RealFileSystem WithCancel Stdin "s.csv");
             Called (Print PromptEnterMessagesCSVFileName);
             Called (Select WithCancel Stdin)]
          /\ outcome r = Blocked
          /\ cancelled (final r) = false)).
Proof.
  destruct separate_export_cancels_at_prompts
    as (_ & Same & Cancelled & Later & _).
  split; [|split].
  - apply (Cancelled RealFileSystem WithCancel Stdin []
             Scenario.interruptedAtPrompt []); reflexivity.
  - apply Same. reflexivity.
  - apply (Later RealFileSystem WithCancel Stdin [] _ ("s.csv" ++ nl) []).
    reflexivity.
Defined.

(** C6 fails as stated.  In the separate-files export the user
    interrupts after the second confirmation: the conversion, which is
    given no context, is called all the same and [main] reports both
    files saved.  In the dataset export the user interrupts after the
    confirmation: the file is written all the same. *)
Lemma interrupt_does_not_stop_conversion_or_write :
  (let r := run main Scenario.interruptedBeforeConversion in
   events r
   = [Called (Print PromptEnterJSONFilePath); Called (Select WithCancel Stdin);
      Called (Print PromptRepairData); Called (Select WithCancel Stdin);
      Called (ReadJSONFromFile "chat.json");
      Called (Print PromptSelectOutputFormat); Called (Select WithCancel Stdin);
      Called (Print PromptSelectCSVOutputFormat); Called (Select WithCancel Stdin);
      Called (Print PromptEnterSessionsCSVFileName); Called (Select WithCancel Stdin);
      Called (ConfirmOverwrite RealFileSystem WithCancel Stdin "s.csv");
      Called (Print PromptEnterMessagesCSVFileName); Called (Select WithCancel Stdin);
      Called (ConfirmOverwrite RealFileSystem WithCancel Stdin "m.csv");
      Interrupted;
      Called (CreateSeparateCSVFiles [] "s.csv" "m.csv");
      Called (Print ("Sessions data saved to s.csv" ++ nl));
      Called (Print ("Messages data saved to m.csv" ++ nl))]
   /\ outcome r = Returned tt
   /\ cancelled (final r) = true
   /\ contextOf (CreateSeparateCSVFiles [] "s.csv" "m.csv") = None)
  /\ (let r := run main Scenario.interruptedBeforeWrite in
      events r
      = [Called (Print PromptEnterJSONFilePath); Called (Select WithCancel Stdin);
         Called (Print PromptRepairData); Called (Select WithCancel Stdin);
         Called (ReadJSONFromFile "chat.json");
         Called (Print PromptSelectOutputFormat); Called (Select WithCancel Stdin);
         Called (ExtractToDataset []);
         Called (Print PromptSaveOutputToFile); Called (Select WithCancel Stdin);
         Called (Print (PromptEnterFileName "dataset"));
         Called (Select WithCancel Stdin);
         Called (ConfirmOverwrite RealFileSystem WithCancel Stdin "out.json");
         Interrupted;
         Called (WriteFile RealFileSystem "out.json" (list_byte_of_string "[]")
                   perm0644);
         Called (Print ("DATASET output saved to out.json" ++ nl))]
      /\ outcome r = Returned tt
      /\ contextOf (WriteFile RealFileSystem "out.json" (list_byte_of_string "[]")
                      perm0644) = None).
Proof.
  cbv zeta. repeat split.
Defined.

(** ** promptForInput *)

(** What [promptForInput] returns for each branch its [select] takes. *)
Lemma promptForInput_returns (ctx : Context) (reader : Reader) (prompt : string)
    (w : World) (r : Selected) (rest : list Answer) :
  answers (script w) = Chose r :: rest ->
  (r = CtxDone -> cancelled w || interrupted (script w) = true) ->
  let p := run (promptForInput ctx reader prompt) w in
  calls (events p) = [Called (Print prompt); Called (Select ctx reader)]
  /\ outcome p
     = Returned (match r with
                 | CtxDone => (EmptyString, Some Canceled)
                 | ReadResult input err => (TrimSpace input, err)
                 end)
  /\ answers (script (final p)) = rest.
Proof.
  intros H Done p. subst p. unfold promptForInput. steps.
  wait; known.
  - destruct r; [|discriminate D].
    rewrite Hmono, (Done eq_refl) in D. discriminate D.
  - destruct r as [|input err].
    + rewrite Hmono, (Done eq_refl) in Hdec. injection Hdec as <-. steps. auto.
    + injection Hdec as <-. steps. auto.
Qed.

(** * Further properties of main.go *)

(** ** More on executions *)

Lemma quiet_flat_map {B : Type} (f : Event -> list B) (sigs : list Event) :
  f Interrupted = [] -> quiet sigs -> flat_map f sigs = [].
Proof.
  unfold quiet, calls. intros F.
  induction sigs as [|[|X c] sigs IH]; cbn; intros Q; auto.
  - rewrite F. auto.
  - discriminate Q.
Qed.

Lemma quiet_filter (P : Event -> bool) (sigs : list Event) :
  P Interrupted = false -> quiet sigs -> filter P sigs = [].
Proof.
  unfold quiet, calls. intros F.
  induction sigs as [|[|X c] sigs IH]; cbn; intros Q; auto.
  - rewrite F. auto.
  - discriminate Q.
Qed.

Section MoreAfterFacts.

Context {A X : Type} (sigs : list Event) (c : Call X) (r : Run A).
Hypothesis Q : quiet sigs.

Lemma flat_map_after {B : Type} (f : Event -> list B) :
  f Interrupted = [] ->
  flat_map f (events (after sigs c r))
  = (f (Called c) ++ flat_map f (events r))%list.
Proof.
  intros F. unfold after. cbn [events].
  rewrite flat_map_app, (quiet_flat_map f sigs F Q). reflexivity.
Qed.

Lemma filter_after (P : Event -> bool) :
  P Interrupted = false ->
  filter P (events (after sigs c r))
  = ((if P (Called c) then [Called c] else []) ++ filter P (events r))%list.
Proof.
  intros F. unfold after. cbn [events].
  rewrite filter_app, (quiet_filter P sigs F Q). cbn [app filter].
  destruct (P (Called c)); reflexivity.
Qed.

Lemma printed_after :
  printed (events (after sigs c r))
  = (printOf (Called c) ++ printed (events r))%list.
Proof. apply flat_map_after. reflexivity. Qed.

Lemma confirmations_after :
  confirmations (events (after sigs c r))
  = (confirmOf (Called c) ++ confirmations (events r))%list.
Proof. apply flat_map_after. reflexivity. Qed.

Lemma singleConversions_after :
  singleConversions (events (after sigs c r))
  = (singleOf (Called c) ++ singleConversions (events r))%list.
Proof. apply flat_map_after. reflexivity. Qed.

End MoreAfterFacts.

(** Every execution of a program that starts with a call is that call
    after the signals that came first, followed by the rest or by the
    end: no answer, or the exit. *)
Lemma run_Vis_cases {A X : Type} (c : Call X) (k : X -> Prog A) (w : World) :
  exists sigs,
    quiet sigs
    /\ ((exists x w2, run (Vis c k) w = after sigs c (run (k x) w2))
        \/ (exists w1, run (Vis c k) w = after sigs c (stop Blocked w1))
        \/ (exists code w1,
               isExit (Called c) = true
               /\ run (Vis c k) w = after sigs c (stop (Exited code) w1))).
Proof.
  destruct (waits c) eqn:Wc.
  - destruct (run_waited c k w Wc) as [sigs w1 Hq _ _ | sigs d a s' x Hq _ _ _];
      exists sigs; split; auto.
    + right. left. eauto.
    + left. eauto.
  - exists []. split; [reflexivity|].
    destruct c; try discriminate Wc.
    + left. exists tt, w. reflexivity.
    + right. right. exists code, w. split; reflexivity.
Qed.

Section AtMostFacts.

Variable P : Event -> bool.
Hypothesis P_signal : P Interrupted = false.

Lemma atMost_le {A : Type} (p : Prog A) (n : nat) :
  AtMost P n p -> forall m, (n <= m)%nat -> AtMost P m p.
Proof.
  induction 1 as [n a | n X c k Hc _ IH | n X c k Hc _ IH]; intros m Le.
  - constructor.
  - apply AtMostSkip; auto.
  - destruct m as [|m]; [lia|].
    apply AtMostTake; auto. intros x. apply IH. lia.
Qed.

Lemma atMost_bind {A B : Type} (p : Prog A) (f : A -> Prog B) (n m : nat) :
  AtMost P n p -> (forall a, AtMost P m (f a)) -> AtMost P (n + m) (bind p f).
Proof.
  intros Hp Hf.
  induction Hp as [n a | n X c k Hc _ IH | n X c k Hc _ IH]; cbn [bind].
  - apply (atMost_le _ m); [apply Hf | lia].
  - apply AtMostSkip; auto.
  - apply (AtMostTake P (n + m)); auto.
Qed.

Lemma atMost_run {A : Type} (p : Prog A) (n : nat) :
  AtMost P n p ->
  forall w, (List.length (filter P (events (run p w))) <= n)%nat.
Proof.
  induction 1 as [n a | n X c k Hc _ IH | n X c k Hc _ IH]; intros w.
  - rewrite run_Ret. cbn. lia.
  - destruct (run_Vis_cases c k w)
      as (sigs & Hq & [(x & w2 & E) | [(w1 & E) | (code & w1 & _ & E)]]);
      rewrite E, (filter_after sigs c _ Hq P P_signal), Hc; cbn [app].
    + apply IH.
    + cbn. lia.
    + cbn. lia.
  - destruct (run_Vis_cases c k w)
      as (sigs & Hq & [(x & w2 & E) | [(w1 & E) | (code & w1 & _ & E)]]);
      rewrite E, (filter_after sigs c _ Hq P P_signal), Hc; cbn [app List.length].
    + specialize (IH x w2). lia.
    + cbn. lia.
    + cbn. lia.
Qed.

Lemma never_run {A : Type} (p : Prog A) :
  AtMost P 0 p -> forall w, filter P (events (run p w)) = [].
Proof.
  intros H w. pose proof (atMost_run p 0 H w) as L.
  destruct (filter P (events (run p w))); [reflexivity | cbn in L; lia].
Qed.

End AtMostFacts.

(** A program that never calls [os.Exit] never ends the process. *)
Lemma never_exits {A : Type} (p : Prog A) :
  AtMost isExit 0 p -> forall w code, outcome (run p w) <> Exited code.
Proof.
  intros H. remember 0%nat as n eqn:N.
  induction H as [n a | n X c k Hc _ IH | n X c k Hc _ IH]; intros w code.
  - rewrite run_Ret. discriminate.
  - destruct (run_Vis_cases c k w)
      as (sigs & Hq & [(x & w2 & E) | [(w1 & E) | (code' & w1 & Hx & E)]]);
      rewrite E, outcome_after.
    + apply IH. exact N.
    + discriminate.
    + rewrite Hx in Hc. discriminate Hc.
  - discriminate N.
Qed.

(** The count of the [WriteFile] calls, read either way. *)
Lemma writeCalls_length (es : list Event) :
  List.length (writeCalls es) = List.length (filter isWrite es).
Proof.
  unfold writeCalls.
  induction es as [|[|X c] es IH]; cbn; auto.
  destruct c; cbn; auto.
Qed.

Lemma separateConversions_none (es : list Event) :
  filter isSeparateConversion es = [] -> separateConversions es = [].
Proof.
  unfold separateConversions.
  induction es as [|[|X c] es IH]; cbn; auto.
  destruct c; cbn; auto; discriminate.
Qed.

Lemma singleConversions_none (es : list Event) :
  filter isSingleConversion es = [] -> singleConversions es = [].
Proof.
  unfold singleConversions.
  induction es as [|[|X c] es IH]; cbn; auto.
  destruct c; cbn; auto; discriminate.
Qed.

(** Go through a program, call by call, whatever the answers. *)
Ltac bound :=
  repeat first
    [ apply AtMostRet
    | progress cbn [bind call print println]
    | progress unfold osExit
    | apply AtMostSkip; [reflexivity | intros]
    | apply AtMostTake; [reflexivity | intros]
    | match goal with
      | x : Empty_set |- _ => destruct x
      | |- AtMost _ _ (match ?x with _ => _ end) => destruct x
      | |- AtMost _ _ (bind (match ?x with _ => _ end) _) => destruct x
      end ].

(** The steps that do not wait, with the further readings. *)
Ltac more :=
  repeat first
    [ progress steps
    | rewrite printed_after by auto
    | rewrite confirmations_after by auto
    | rewrite singleConversions_after by auto
    | progress cbn [printOf printed confirmOf confirmations singleOf
                      singleConversions app flat_map] ].

(** Bring what is known of the script into the goal. *)
Ltac read :=
  more;
  cbn [script cancelled] in *;
  repeat match goal with
         | H : answers ?s = _ |- context [answers ?s] => rewrite H
         end;
  cbn [unconfirmedWrite singleConversionFor separateConversionFor].

(** Close a branch of an execution once the script is read. *)
Ltac close :=
  read;
  repeat split; intros;
  first [ reflexivity | discriminate | congruence
        | match goal with b : bool |- _ => destruct b; reflexivity end
        | idtac ].

(** The call got no answer it could take. *)
Ltac blocked :=
  more;
  match goal with
  | Hno : _ \/ (exists a rest, _ /\ decode _ _ a = None) |- _ =>
      let a := fresh "a" in
      let rest := fresh "rest" in
      let E := fresh "E" in
      let D := fresh "D" in
      destruct Hno as [E | (a & rest & E & D)];
      [ close
      | destruct a as [[|]| | | | |]; cbn in D; try discriminate D; close ]
  end.

(** ** writeContentToFile *)

(** X1: [writeContentToFile] never asks for an overwrite confirmation and
    never ends the process.  It writes exactly when its prompt returned
    without error, whatever the name is, the empty name too: under the
    name with [".json"] after it for the file type ["dataset"], under the
    name as entered for any other file type. *)
Theorem writeContentToFile_writes_unconfirmed
    (rfs : FileSystem) (ctx : Context) (reader : Reader)
    (content fileType : string) (w : World) :
  let r := run (writeContentToFile rfs ctx reader content fileType) w in
  confirmations (events r) = []
  /\ writeCalls (events r)
     = unconfirmedWrite fileType content (answers (script w))
  /\ forall code, outcome r <> Exited code.
Proof.
  intros r. subst r. unfold writeContentToFile, promptForInput. more.
  wait; [blocked|got]; more; [close|].
  destruct err; [close|]. more.
  wait; [|got; destruct err]; close.
Qed.

(** ** repairJSONData *)

(** X2: [repairJSONData] is silent: in no execution does it print, prompt,
    ask for an overwrite confirmation or end the process.  The file
    [repaired_...] is written without asking, whether it exists or not. *)
Theorem repairJSONData_is_silent
    (rfs : FileSystem) (ctx : Context) (path : string) (w : World) :
  let r := run (repairJSONData rfs ctx path) w in
  filter isInteraction (events r) = []
  /\ confirmations (events r) = []
  /\ printed (events r) = []
  /\ forall code, outcome r <> Exited code.
Proof.
  intros r. subst r.
  assert (Silent : AtMost isInteraction 0 (repairJSONData rfs ctx path)).
  { unfold repairJSONData. bound. }
  assert (NoExit : AtMost isExit 0 (repairJSONData rfs ctx path)).
  { unfold repairJSONData. bound. }
  pose proof (never_run isInteraction eq_refl _ Silent w) as S.
  split; [exact S|]. split; [|split].
  - revert S. generalize (events (run (repairJSONData rfs ctx path) w)).
    induction l as [|[|X c] l IH]; cbn; auto.
    destruct c; cbn; auto; discriminate.
  - revert S. generalize (events (run (repairJSONData rfs ctx path) w)).
    induction l as [|[|X c] l IH]; cbn; auto.
    destruct c; cbn; auto; discriminate.
  - apply never_exits. exact NoExit.
Qed.

(** ** main *)

Ltac whole_main :=
  unfold main, processOutputOption, processCSVOption, processDatasetOption,
    executeCSVConversion, createSeparateCSVFiles, convertToSingleCSV,
    saveToFile, repairJSONData, promptForInput, handleInputError.

(** X3: in every execution [main] calls [WriteFile] at most once. *)
Theorem main_writes_at_most_once (w : World) :
  (List.length (writeCalls (events (run main w))) <= 1)%nat.
Proof.
  rewrite writeCalls_length.
  apply (atMost_run isWrite eq_refl).
  whole_main. bound.
Qed.

(** X4: an execution of [main] is a repair or an export, never both: it
    makes no [ReadFile] or [RepairSessionData] call, or it makes no call
    to the store loader and the exporters. *)
Theorem main_repairs_or_exports (w : World) :
  let r := run main w in
  filter isRepair (events r) = [] \/ loadsAndExports (events r) = [].
Proof.
  intros r. subst r. unfold main, promptForInput, handleInputError.
  assert (F : forall {A X : Type} sigs (c : Call X) (r : Run A),
             quiet sigs -> isRepair (Called c) = false ->
             filter isRepair (events r) = [] ->
             filter isRepair (events (after sigs c r)) = []).
  { intros A X sigs c r Hq Hc Hr.
    rewrite (filter_after sigs c r Hq isRepair eq_refl), Hc, Hr. reflexivity. }
  assert (G : forall e w',
             filter isRepair (events (run (handleInputError e) w')) = []).
  { intros e w'. destruct e; reflexivity. }
  unfold handleInputError in G.
  steps.
  wait; [left; repeat (apply F; auto)|got]; steps;
    [left; repeat (apply F; auto); apply G|].
  destruct err; [left; repeat (apply F; auto); apply G|].
  steps.
  wait; [left; repeat (apply F; auto)|got]; steps;
    [left; repeat (apply F; auto); apply G|].
  destruct err; [left; repeat (apply F; auto); apply G|].
  destruct (ToLower (TrimSpace input0) =? "yes")%string.
  - right. unfold loadsAndExports.
    apply (never_run isLoadOrExport eq_refl).
    unfold repairJSONData. bound.
  - left. repeat (apply F; auto).
    apply (never_run isRepair eq_refl).
    unfold processOutputOption, processCSVOption, processDatasetOption,
      executeCSVConversion, createSeparateCSVFiles, convertToSingleCSV,
      saveToFile, promptForInput, handleInputError.
    bound.
Qed.

(** ** The CSV export *)

(** X5: the CSV export never reads or writes through the file system it
    is given: [processCSVOption] makes no [ReadFile] and no [WriteFile]
    call; the file system serves [ConfirmOverwrite] only, the CSV files
    are written inside package [exporter]. *)
Theorem csv_export_leaves_file_system (rfs : FileSystem) (ctx : Context)
    (reader : Reader) (sessions : list Session) (w : World) :
  let r := run (processCSVOption rfs ctx reader sessions) w in
  filter isFileAccess (events r) = [] /\ writeCalls (events r) = [].
Proof.
  intros r. subst r.
  assert (N : AtMost isFileAccess 0 (processCSVOption rfs ctx reader sessions)).
  { unfold processCSVOption, executeCSVConversion, createSeparateCSVFiles,
      convertToSingleCSV, promptForInput, handleInputError. bound. }
  pose proof (never_run isFileAccess eq_refl _ N w) as S.
  split; [exact S|].
  revert S. generalize (events (run (processCSVOption rfs ctx reader sessions) w)).
  unfold writeCalls.
  induction l as [|[|X c] l IH]; cbn; auto.
  destruct c; cbn; auto; discriminate.
Qed.

(** X6: [executeCSVConversion] begins with a prompt: for the sessions
    file when the format is 3, for the CSV file otherwise.  With the
    format 3 it never calls the single-file conversion; with any other
    format it never calls the separate-files conversion. *)
Theorem executeCSVConversion_dispatches (rfs : FileSystem) (ctx : Context)
    (reader : Reader) (formatOption : Z) (sessions : list Session) (w : World) :
  let r := run (executeCSVConversion rfs ctx reader formatOption sessions) w in
  hd_error (printed (events r))
  = Some (if (formatOption =? 3)%Z then PromptEnterSessionsCSVFileName
          else PromptEnterCSVFileName)
  /\ (formatOption = 3 -> singleConversions (events r) = [])
  /\ (formatOption <> 3 -> separateConversions (events r) = []).
Proof.
  intros r. subst r. split; [|split].
  - unfold executeCSVConversion, OutputFormatSeparateCSV.
    destruct (formatOption =? 3)%Z; cbn [negb];
      unfold createSeparateCSVFiles, promptForInput; more; reflexivity.
  - intros ->. apply singleConversions_none.
    apply (never_run isSingleConversion eq_refl).
    unfold executeCSVConversion, createSeparateCSVFiles, promptForInput,
      handleInputError.
    cbn [Z.eqb OutputFormatSeparateCSV Pos.eqb negb]. bound.
  - intros Other. apply separateConversions_none.
    apply (never_run isSeparateConversion eq_refl).
    unfold executeCSVConversion, convertToSingleCSV, promptForInput,
      handleInputError, OutputFormatSeparateCSV.
    apply Z.eqb_neq in Other. rewrite Other. cbn [negb]. bound.
Qed.

(** X7: [convertToSingleCSV] asks for the confirmation under the very
    name it was given, calls the conversion exactly when the
    confirmation came back [true] without error, with the format and the
    name it was given, and never ends the process, whatever fails. *)
Theorem convertToSingleCSV_converts_when_confirmed
    (rfs : FileSystem) (ctx : Context) (reader : Reader)
    (sessions : list Session) (formatOption : Z) (csvFileName : string)
    (w : World) :
  let r := run (convertToSingleCSV rfs ctx reader sessions formatOption
                  csvFileName) w in
  confirmations (events r) = [csvFileName]
  /\ singleConversions (events r)
     = singleConversionFor formatOption csvFileName (answers (script w))
  /\ forall code, outcome r <> Exited code.
Proof.
  intros r. subst r. unfold convertToSingleCSV. more.
  wait; [blocked|got]; more.
  destruct err; [close|].
  destruct b; more; [|close].
  wait; [|got; destruct err as [[| |msg]|]]; close.
Qed.

(** ** saveToFile *)

(** X8: [saveToFile] never writes a file it did not ask about: every
    [WriteFile] of an execution goes to the one name [ConfirmOverwrite]
    was asked about in that execution, the name with its extension. *)
Theorem saveToFile_writes_the_confirmed_name
    (rfs : FileSystem) (ctx : Context) (reader : Reader)
    (content fileType : string) (w : World) (path : string) (data : bytes) :
  let r := run (saveToFile rfs ctx reader content fileType) w in
  In (path, data) (writeCalls (events r)) ->
  confirmations (events r) = [path].
Proof.
  intros r. subst r. unfold saveToFile, promptForInput, handleInputError. more.
  wait; [more; cbn [In]; tauto|got]; more; [destruct (canceledOrEOF _); more; cbn [In]; tauto|].
  destruct err; [destruct (canceledOrEOF _); more; cbn [In]; tauto|].
  destruct (ToLower (TrimSpace input) =? "yes")%string; more; [|cbn [In]; tauto].
  wait; [more; cbn [In]; tauto|got]; more; [destruct (canceledOrEOF _); more; cbn [In]; tauto|].
  destruct err; [destruct (canceledOrEOF _); more; cbn [In]; tauto|].
  destruct (TrimSpace input0 =? EmptyString)%string; more; [cbn [In]; tauto|].
  wait; [more; cbn [In]; tauto|got]; more.
  destruct err; [destruct (canceledOrEOF _); more; cbn [In]; tauto|].
  destruct b; more; [|cbn [In]; tauto].
  wait; [|got; destruct err]; more;
    (intros [E|[]]; injection E as <- _; reflexivity).
Qed.

Lemma saveToFile_writes_the_confirmed_name_witness :
  confirmations
    (events (run (saveToFile RealFileSystem WithCancel Stdin "[]" "dataset")
               Scenario.saveAsJSON))
  = ["sessions.json.json"].
Proof.
  apply (saveToFile_writes_the_confirmed_name RealFileSystem WithCancel Stdin
           "[]" "dataset" Scenario.saveAsJSON "sessions.json.json"
           (list_byte_of_string "[]")).
  left. reflexivity.
Defined.

(** X9: once the overwriting is confirmed, [saveToFile] prints its two
    prompts and then one report of the write: the error when [WriteFile]
    failed, the name saved when it did not, after the file type in
    capitals; it returns in both cases.  This for a file type of ASCII
    bytes, as ["dataset"] is, where [ToTitle] is Go's. *)
Theorem saveToFile_reports_the_write
    (rfs : FileSystem) (ctx : Context) (reader : Reader)
    (content fileType : string) (w : World) (answer name : string)
    (err : option error) (rest : list Answer) :
  isASCII fileType = true ->
  answers (script w)
  = Chose (ReadResult answer None) :: Chose (ReadResult name None)
      :: GaveBool true None :: GaveErr err :: rest ->
  ToLower (TrimSpace answer) = "yes" ->
  TrimSpace name <> EmptyString ->
  let r := run (saveToFile rfs ctx reader content fileType) w in
  printed (events r)
  = [PromptSaveOutputToFile; PromptEnterFileName fileType;
     writeReport err fileType (savedName fileType (TrimSpace name))]
  /\ outcome r = Returned tt
  /\ answers (script (final r)) = rest.
Proof.
  intros _ H Yes Named r. subst r. unfold saveToFile, promptForInput. more.
  wait; known. more.
  rewrite Yes. cbn [String.eqb Ascii.eqb Bool.eqb]. more.
  wait; known. more.
  apply String.eqb_neq in Named. rewrite Named. more.
  wait; known. more.
  wait; known. more.
  destruct err; more; auto.
Qed.

Lemma saveToFile_reports_the_write_witness :
  let r := run (saveToFile RealFileSystem WithCancel Stdin "[]" "dataset")
             Scenario.saveAsJSON in
  printed (events r)
  = [PromptSaveOutputToFile; PromptEnterFileName "dataset";
     "DATASET output saved to sessions.json.json" ++ nl]
  /\ outcome r = Returned tt
  /\ answers (script (final r)) = [].
Proof.
  apply (saveToFile_reports_the_write RealFileSystem WithCancel Stdin "[]"
           "dataset" Scenario.saveAsJSON ("yes" ++ nl) ("sessions.json" ++ nl)
           None []).
  - reflexivity.
  - reflexivity.
  - reflexivity.
  - discriminate.
Defined.

(** ** createSeparateCSVFiles *)

(** X10: declining either overwrite confirmation stops the
    separate-files export: [createSeparateCSVFiles] says so and returns,
    without a further prompt and without the conversion; what is left of
    the input stays unread. *)
Theorem createSeparateCSVFiles_stops_when_declined :
  (forall rfs ctx reader sessions w name rest,
      answers (script w)
      = Chose (ReadResult name None) :: GaveBool false None :: rest ->
      let r := run (createSeparateCSVFiles rfs ctx reader sessions) w in
      calls (events r)
      = [Called (Print PromptEnterSessionsCSVFileName); Called (Select ctx reader);
         Called (ConfirmOverwrite rfs ctx reader (TrimSpace name));
         Called (Print ("Operation cancelled by the user for sessions file." ++ nl))]
      /\ outcome r = Returned tt
      /\ answers (script (final r)) = rest)
  /\ (forall rfs ctx reader sessions w name name' rest,
         answers (script w)
         = Chose (ReadResult name None) :: GaveBool true None
             :: Chose (ReadResult name' None) :: GaveBool false None :: rest ->
         let r := run (createSeparateCSVFiles rfs ctx reader sessions) w in
         calls (events r)
         = [Called (Print PromptEnterSessionsCSVFileName); Called (Select ctx reader);
            Called (ConfirmOverwrite rfs ctx reader (TrimSpace name));
            Called (Print PromptEnterMessagesCSVFileName); Called (Select ctx reader);
            Called (ConfirmOverwrite rfs ctx reader (TrimSpace name'));
            Called (Print ("Operation cancelled by the user for messages file." ++ nl))]
         /\ outcome r = Returned tt
         /\ answers (script (final r)) = rest).
Proof.
  split.
  - intros rfs ctx reader sessions w name rest H r. subst r.
    unfold createSeparateCSVFiles, promptForInput. more.
    wait; known. more.
    wait; known. more.
    auto.
  - intros rfs ctx reader sessions w name name' rest H r. subst r.
    unfold createSeparateCSVFiles, promptForInput. more.
    wait; known. more.
    wait; known. more.
    wait; known. more.
    wait; known. more.
    auto.
Qed.

Lemma createSeparateCSVFiles_stops_when_declined_witness :
  (let r := run (createSeparateCSVFiles RealFileSystem WithCancel Stdin [])
              Scenario.sessionsFileKept in
   calls (events r)
   = [Called (Print PromptEnterSessionsCSVFileName);
      Called (Select WithCancel Stdin);
      Called (ConfirmOverwrite RealFileSystem WithCancel Stdin "s.csv");
      Called (Print ("Operation cancelled by the user for sessions file." ++ nl))]
   /\ outcome r = Returned tt
   /\ answers (script (final r))
      = [Chose (ReadResult ("m.csv" ++ nl) None); GaveBool true None])
  /\ (let r := run (createSeparateCSVFiles RealFileSystem WithCancel Stdin [])
                 Scenario.messagesFileKept in
      calls (events r)
      = [Called (Print PromptEnterSessionsCSVFileName);
         Called (Select WithCancel Stdin);
         Called (ConfirmOverwrite RealFileSystem WithCancel Stdin "s.csv");
         Called (Print PromptEnterMessagesCSVFileName);
         Called (Select WithCancel Stdin);
         Called (ConfirmOverwrite RealFileSystem WithCancel Stdin "m.csv");
         Called (Print ("Operation cancelled by the user for messages file." ++ nl))]
      /\ outcome r = Returned tt
      /\ answers (script (final r)) = [GaveErr None]).
Proof.
  destruct createSeparateCSVFiles_stops_when_declined as [First Second].
  split.
  - apply (First RealFileSystem WithCancel Stdin [] Scenario.sessionsFileKept
             ("s.csv" ++ nl)).
    reflexivity.
  - apply (Second RealFileSystem WithCancel Stdin [] Scenario.messagesFileKept
             ("s.csv" ++ nl) ("m.csv" ++ nl)).
    reflexivity.
Defined.

(** X11: after both confirmations, [createSeparateCSVFiles] reports the
    two files saved exactly when the conversion returned no error, and
    then returns; when the conversion returned an error it ends the
    process and says nothing of saved files: by the graceful exit, status
    0, for [context.Canceled] and [io.EOF], with the error and status 1
    for any other error. *)
Theorem createSeparateCSVFiles_reports_the_conversion
    (rfs : FileSystem) (ctx : Context) (reader : Reader)
    (sessions : list Session) (w : World) (name name' : string)
    (err : option error) (rest : list Answer) :
  answers (script w)
  = Chose (ReadResult name None) :: GaveBool true None
      :: Chose (ReadResult name' None) :: GaveBool true None
      :: GaveErr err :: rest ->
  let r := run (createSeparateCSVFiles rfs ctx reader sessions) w in
  printed (events r)
  = PromptEnterSessionsCSVFileName :: PromptEnterMessagesCSVFileName
    :: match err with
       | None =>
           ["Sessions data saved to " ++ TrimSpace name ++ nl;
            "Messages data saved to " ++ TrimSpace name' ++ nl]
       | Some e =>
           [if canceledOrEOF e then GracefulExit ++ nl
            else nl ++ "Error reading input: " ++ Error e ++ nl]
       end
  /\ outcome r
     = match err with
       | None => Returned tt
       | Some e => Exited (if canceledOrEOF e then 0 else 1)
       end.
Proof.
  intros H r. subst r. unfold createSeparateCSVFiles, promptForInput. more.
  wait; known. more.
  wait; known. more.
  wait; known. more.
  wait; known. more.
  wait; known. more.
  destruct err as [e|]; more; [destruct (canceledOrEOF e); more|]; auto.
Qed.

Lemma createSeparateCSVFiles_reports_the_conversion_witness :
  let r := run (createSeparateCSVFiles RealFileSystem WithCancel Stdin [])
             Scenario.separateFails in
  printed (events r)
  = [PromptEnterSessionsCSVFileName; PromptEnterMessagesCSVFileName;
     nl ++ "Error reading input: no space left on device" ++ nl]
  /\ outcome r = Exited 1.
Proof.
  apply (createSeparateCSVFiles_reports_the_conversion RealFileSystem WithCancel
           Stdin [] Scenario.separateFails ("s.csv" ++ nl) ("m.csv" ++ nl)
           (Some (OtherError "no space left on device")) []).
  reflexivity.
Defined.

(** ** processDatasetOption *)

(** X12: when the extraction of the dataset fails, [processDatasetOption]
    ends the process at once, before any prompt and any write: by the
    graceful exit, status 0, for [context.Canceled] and [io.EOF], with
    the error and status 1 for any other error. *)
Theorem processDatasetOption_extraction_fails
    (rfs : FileSystem) (ctx : Context) (reader : Reader)
    (sessions : list Session) (w : World) (output : string) (e : error)
    (rest : list Answer) :
  answers (script w) = GaveString output (Some e) :: rest ->
  let r := run (processDatasetOption rfs ctx reader sessions) w in
  calls (events r)
  = [Called (ExtractToDataset sessions);
     Called (Print (if canceledOrEOF e then GracefulExit ++ nl
                    else nl ++ "Error reading input: " ++ Error e ++ nl));
     Called (Exit (if canceledOrEOF e then 0 else 1))]
  /\ outcome r = Exited (if canceledOrEOF e then 0 else 1)
  /\ answers (script (final r)) = rest.
Proof.
  intros H r. subst r. unfold processDatasetOption. more.
  wait; known. more.
  destruct (canceledOrEOF e); more; auto.
Qed.

Lemma processDatasetOption_extraction_fails_witness :
  let r := run (processDatasetOption RealFileSystem WithCancel Stdin [])
             Scenario.extractionFails in
  calls (events r)
  = [Called (ExtractToDataset []);
     Called (Print (nl ++ "Error reading input: json: unsupported value" ++ nl));
     Called (Exit 1)]
  /\ outcome r = Exited 1
  /\ answers (script (final r))
     = [Chose (ReadResult ("yes" ++ nl) None); Chose (ReadResult ("out" ++ nl) None)].
Proof.
  apply (processDatasetOption_extraction_fails RealFileSystem WithCancel Stdin []
           Scenario.extractionFails EmptyString
           (OtherError "json: unsupported value")).
  reflexivity.
Defined.

(** After the extraction, [processDatasetOption] is [saveToFile] on the
    dataset. *)
Lemma processDatasetOption_saves (rfs : FileSystem) (ctx : Context)
    (reader : Reader) (sessions : list Session) (w : World) (output : string)
    (rest : list Answer) :
  answers (script w) = GaveString output None :: rest ->
  exists sigs w1,
    quiet sigs /\ answers (script w1) = rest
    /\ run (processDatasetOption rfs ctx reader sessions) w
       = after sigs (ExtractToDataset sessions)
           (run (saveToFile rfs ctx reader output "dataset") w1).
Proof.
  intros H. unfold processDatasetOption. more.
  wait; known. more.
  exists sigs, {| cancelled := d; script := s |}. repeat split; auto.
Qed.

(** X13: the dataset export writes what the extraction returned: once
    the user answered yes, gave a name and confirmed, the one file
    written has the name with [".json"] after it and holds the bytes of
    the string [ExtractToDataset] returned. *)
Theorem dataset_export_writes_the_extraction
    (rfs : FileSystem) (ctx : Context) (reader : Reader)
    (sessions : list Session) (w : World) (output answer name : string)
    (rest : list Answer) :
  answers (script w)
  = GaveString output None :: Chose (ReadResult answer None)
      :: Chose (ReadResult name None) :: GaveBool true None :: rest ->
  ToLower (TrimSpace answer) = "yes" ->
  TrimSpace name <> EmptyString ->
  writeCalls (events (run (processDatasetOption rfs ctx reader sessions) w))
  = [(TrimSpace name ++ ".json", list_byte_of_string output)].
Proof.
  intros H Yes Named.
  destruct (processDatasetOption_saves rfs ctx reader sessions w output _ H)
    as (sigs & w1 & Hq & Hrest & ->).
  rewrite (writeCalls_after sigs _ _ Hq). cbn [writeOf app].
  apply (saveToFile_confirmed rfs ctx reader output "dataset" w1 answer name
           rest Hrest Yes Named).
Qed.

Lemma dataset_export_writes_the_extraction_witness :
  writeCalls (events (run (processDatasetOption RealFileSystem WithCancel Stdin [])
                        Scenario.datasetSaved))
  = [("out.json", list_byte_of_string "[{}]")].
Proof.
  apply (dataset_export_writes_the_extraction RealFileSystem WithCancel Stdin []
           Scenario.datasetSaved "[{}]" ("Yes" ++ nl) (" out " ++ nl)
           [GaveErr None]).
  - reflexivity.
  - reflexivity.
  - discriminate.
Defined.

(** X14: a dataset the user does not save is dropped: after any answer
    that does not lowercase to ["yes"], [processDatasetOption] prints the
    prompt and that the saving is cancelled, nothing of the dataset, it
    writes nothing and returns. *)
Theorem dataset_not_saved_is_dropped
    (rfs : FileSystem) (ctx : Context) (reader : Reader)
    (sessions : list Session) (w : World) (output answer : string)
    (rest : list Answer) :
  answers (script w)
  = GaveString output None :: Chose (ReadResult answer None) :: rest ->
  ToLower (TrimSpace answer) <> "yes" ->
  let r := run (processDatasetOption rfs ctx reader sessions) w in
  printed (events r)
  = [PromptSaveOutputToFile;
     "Save to file operation cancelled by the user." ++ nl]
  /\ writeCalls (events r) = []
  /\ confirmations (events r) = []
  /\ outcome r = Returned tt
  /\ answers (script (final r)) = rest.
Proof.
  intros H No r. subst r.
  unfold processDatasetOption, saveToFile, promptForInput. more.
  wait; known. more.
  wait; known. more.
  apply String.eqb_neq in No. rewrite No. more.
  auto 6.
Qed.

Lemma dataset_not_saved_is_dropped_witness :
  let r := run (processDatasetOption RealFileSystem WithCancel Stdin [])
             Scenario.datasetDropped in
  printed (events r)
  = [PromptSaveOutputToFile;
     "Save to file operation cancelled by the user." ++ nl]
  /\ writeCalls (events r) = []
  /\ confirmations (events r) = []
  /\ outcome r = Returned tt
  /\ answers (script (final r)) = [Chose (ReadResult ("out" ++ nl) None)].
Proof.
  apply (dataset_not_saved_is_dropped RealFileSystem WithCancel Stdin []
           Scenario.datasetDropped "[{}]" ("n" ++ nl)).
  - reflexivity.
  - discriminate.
Defined.

(** * Package updater *)

Section FirstMatching.

Import Updater.

Variables GOOS GOARCH : string.

Lemma firstMatching_found (assets : list asset) (url : string) :
  firstMatching GOOS GOARCH assets = (url, None) ->
  exists before a rest,
    assets = (before ++ a :: rest)%list
    /\ Name a = platformAsset GOOS GOARCH
    /\ BrowserDownloadURL a = url
    /\ Forall (fun b => Name b <> platformAsset GOOS GOARCH) before.
Proof.
  induction assets as [|a assets IH]; cbn [firstMatching]; [discriminate|].
  destruct (String.eqb_spec (Name a) (platformAsset GOOS GOARCH)) as [E|N].
  - intros F. injection F as <-. exists [], a, assets. auto.
  - intros F. destruct (IH F) as (before & b & rest & -> & Hn & Hu & Hb).
    exists (a :: before), b, rest. repeat split; auto.
Qed.

Lemma firstMatching_missing (assets : list asset) :
  Forall (fun a => Name a <> platformAsset GOOS GOARCH) assets <->
  firstMatching GOOS GOARCH assets
  = (EmptyString, Some (OtherError "no binary for the current platform")).
Proof.
  induction assets as [|a assets IH]; cbn [firstMatching].
  - split; auto.
  - destruct (String.eqb_spec (Name a) (platformAsset GOOS GOARCH)) as [E|N].
    + split; [|discriminate].
      intros F. inversion F as [|? ? Ha _]. contradiction.
    + rewrite <- IH. split.
      * intros F. now inversion F.
      * intros F. constructor; auto.
Qed.

Lemma firstMatching_cases (assets : list asset) :
  firstMatching GOOS GOARCH assets
  = (EmptyString, Some (OtherError "no binary for the current platform"))
  \/ exists url, firstMatching GOOS GOARCH assets = (url, None).
Proof.
  induction assets as [|a assets IH]; cbn [firstMatching]; auto.
  destruct (Name a =? platformAsset GOOS GOARCH)%string; eauto.
Qed.

End FirstMatching.

(** X15: when [findMatchingAsset] returns a URL, it is the download URL
    of the first asset of the release whose name is
    [ChatGPT-Next-Web-Session-Exporter-<GOOS>-<GOARCH>]: no asset before
    it has that name. *)
Theorem findMatchingAsset_returns_first_match (GOOS GOARCH : string)
    (release : Updater.releaseInfo) (url : string) :
  Updater.findMatchingAsset GOOS GOARCH release = (url, None) ->
  exists before a rest,
    Updater.Assets release = (before ++ a :: rest)%list
    /\ Updater.Name a = Updater.platformAsset GOOS GOARCH
    /\ Updater.BrowserDownloadURL a = url
    /\ Forall (fun b => Updater.Name b <> Updater.platformAsset GOOS GOARCH)
              before.
Proof. apply firstMatching_found. Qed.

Lemma findMatchingAsset_returns_first_match_witness :
  exists before a rest,
    Updater.Assets UpdateScenario.next = (before ++ a :: rest)%list
    /\ Updater.Name a = Updater.platformAsset "linux" "amd64"
    /\ Updater.BrowserDownloadURL a = "https://example.org/v2/linux-amd64"%string
    /\ Forall (fun b => Updater.Name b <> Updater.platformAsset "linux" "amd64")
              before.
Proof.
  apply (findMatchingAsset_returns_first_match "linux" "amd64"
           UpdateScenario.next "https://example.org/v2/linux-amd64").
  reflexivity.
Defined.

(** X16: [findMatchingAsset] fails exactly when no asset of the release
    has the name of this platform, the empty list of assets included; it
    then returns the empty URL and the error [no binary for the current
    platform].  It has no other error: any other result is a URL without
    an error. *)
Theorem findMatchingAsset_fails_without_match (GOOS GOARCH : string)
    (release : Updater.releaseInfo) :
  (Forall (fun a => Updater.Name a <> Updater.platformAsset GOOS GOARCH)
          (Updater.Assets release) <->
   Updater.findMatchingAsset GOOS GOARCH release
   = (EmptyString, Some (OtherError "no binary for the current platform")))
  /\ (Updater.findMatchingAsset GOOS GOARCH release
      = (EmptyString, Some (OtherError "no binary for the current platform"))
      \/ exists url,
           Updater.findMatchingAsset GOOS GOARCH release = (url, None)).
Proof.
  split; [apply firstMatching_missing | apply firstMatching_cases].
Qed.

(** ** What the notes print *)

Lemma prefix_nl (c : ascii) (r : string) :
  prefix nl (String c r) = (c =? ascii_of_nat 10)%char.
Proof.
  unfold nl. cbn [prefix].
  destruct (ascii_dec (ascii_of_nat 10) c) as [<-|N].
  - rewrite Ascii.eqb_refl. now destruct r.
  - symmetry. apply Ascii.eqb_neq. congruence.
Qed.

Lemma Contains_nl_cons (c : ascii) (r : string) :
  MoreStrings.Contains (String c r) nl
  = ((c =? ascii_of_nat 10)%char || MoreStrings.Contains r nl)%bool.
Proof. cbn [MoreStrings.Contains]. now rewrite prefix_nl. Qed.

Lemma splitFrom_lines (s : string) :
  MoreStrings.Contains (fst (MoreStrings.splitFrom nl 0 s)) nl = false
  /\ Forall (fun line => MoreStrings.Contains line nl = false)
            (snd (MoreStrings.splitFrom nl 0 s)).
Proof.
  induction s as [|c r [IHp IHps]].
  - split; [reflexivity | constructor].
  - cbn [MoreStrings.splitFrom]. rewrite prefix_nl.
    change (String.length nl - 1)%nat with 0%nat.
    destruct (MoreStrings.splitFrom nl 0 r) as [p ps].
    cbn [fst snd] in *.
    destruct (c =? ascii_of_nat 10)%char eqn:E; cbn [fst snd].
    + split; [reflexivity | now constructor].
    + split; [|assumption].
      rewrite Contains_nl_cons, E. exact IHp.
Qed.

Lemma Split_lines (s : string) :
  Forall (fun line => MoreStrings.Contains line nl = false)
         (MoreStrings.Split s nl).
Proof.
  unfold MoreStrings.Split.
  destruct (splitFrom_lines s) as [Hp Hps].
  destruct (MoreStrings.splitFrom nl 0 s) as [p ps].
  now constructor.
Qed.

Lemma Split_not_empty (s sep : string) : MoreStrings.Split s sep <> [].
Proof.
  unfold MoreStrings.Split.
  destruct (MoreStrings.splitFrom sep 0 s). discriminate.
Qed.

(** The notes only print. *)
Lemma printReleaseNotes_only_prints (f : Updater.Action -> bool) (body : string) :
  (forall s, f (Updater.Stdout s) = false) ->
  filter f (Updater.printReleaseNotes body) = [].
Proof.
  intros Hf. unfold Updater.printReleaseNotes.
  induction (MoreStrings.Split _ nl) as [|line lines IH]; [reflexivity|].
  cbn [map filter].
  destruct (MoreStrings.Contains line "https://"); now rewrite Hf.
Qed.

(** X17: [printReleaseNotes] prints whole lines and nothing else: it
    prints at least one line, also for an empty body, and every piece it
    prints is one line without a line feed inside, ended by a line feed,
    with [Link: ] in front of it exactly when the line contains
    [https://]. *)
Theorem printReleaseNotes_prints_whole_lines (body : string) :
  Updater.printReleaseNotes body <> []
  /\ Forall
       (fun a =>
          exists line,
            MoreStrings.Contains line nl = false
            /\ a = Updater.Stdout
                     ((if MoreStrings.Contains line "https://"
                       then "Link: " else EmptyString)
                      ++ line ++ nl))
       (Updater.printReleaseNotes body).
Proof.
  unfold Updater.printReleaseNotes. split.
  - intros E. apply map_eq_nil in E. now apply Split_not_empty in E.
  - apply Forall_map.
    eapply Forall_impl; [|apply Split_lines].
    intros line Hl. exists line. split; [assumption|].
    now destruct (MoreStrings.Contains line "https://").
Qed.

(** ** The update as a whole *)

(** Unfolds the updater down to the calls it makes. *)
Ltac updater :=
  cbv beta iota zeta delta
    [Updater.UpdateApplication Updater.getLatestRelease
     Updater.downloadAndUpdate Updater.findMatchingAsset
     Updater.downloadAsset Updater.applyUpdate Updater.restartApplication].

(** Follows one more branch of the updater. *)
Ltac branch :=
  match goal with
  | |- context [match ?x with _ => _ end] =>
      lazymatch x with
      | context [match _ with _ => _ end] => fail
      | _ => destruct x eqn:?
      end
  end.

Section UpdateFacts.

Import Updater.

Variables GOOS GOARCH : string.

Lemma getLatestRelease_calls (o : Outside) :
  fst (getLatestRelease o)
  = [Get ("https://api.github.com/repos/" ++ githubRepo ++ "/releases/latest")].
Proof.
  unfold getLatestRelease. now destruct (httpGet o _).
Qed.

Lemma downloadAsset_calls (o : Outside) (url : string) :
  forall f : Action -> bool,
    f (Get url) = false ->
    f (CreateTemp EmptyString "ChatGPT-Next-Web-Session-Exporter-update-*") = false ->
    f Copy = false ->
    filter f (fst (downloadAsset o url)) = [].
Proof.
  intros f Hg Ht Hc. unfold downloadAsset.
  repeat branch; cbn [fst filter]; now rewrite ?Hg, ?Ht, ?Hc.
Qed.

Lemma downloadAndUpdate_calls (o : Outside) (release : releaseInfo) :
  forall f : Action -> bool,
    (forall s, f (Stdout s) = false) ->
    (forall url, f (Get url) = false) ->
    f (CreateTemp EmptyString "ChatGPT-Next-Web-Session-Exporter-update-*") = false ->
    f Copy = false ->
    filter f (fst (downloadAndUpdate GOOS GOARCH o release)) = [].
Proof.
  intros f Hs Hg Ht Hc. unfold downloadAndUpdate.
  destruct (findMatchingAsset GOOS GOARCH release) as [url [e|]].
  - cbn [fst filter]. now rewrite !Hs.
  - pose proof (downloadAsset_calls o url f (Hg url) Ht Hc) as D.
    destruct (downloadAsset o url) as [acts [temp [e|]]]; cbn [fst] in *;
      cbn [app filter]; rewrite !Hs, ?filter_app, D; cbn [filter app];
      now rewrite ?Hs.
Qed.

(** A download that came to its end left the file that [os.CreateTemp]
    made, after a copy without error. *)
Lemma downloadAndUpdate_done (o : Outside) (release : releaseInfo)
    (acts : list Action) (temp : string) :
  downloadAndUpdate GOOS GOARCH o release = (acts, (temp, None)) ->
  createTemp o = (temp, None) /\ ioCopy o = None.
Proof.
  unfold downloadAndUpdate, downloadAsset.
  repeat branch; intros E; try discriminate;
    repeat match goal with
           | H : (_, _) = (_, _) |- _ => injection H as ? ?; subst
           end; try discriminate; auto.
Qed.

(** X18: when the latest release cannot be fetched, [UpdateApplication]
    does nothing beyond the request: it prints nothing and returns the
    error, with [error fetching latest release: ] in front.  That is so
    when [http.Get] fails (its error), when GitHub answers with a status
    other than 200 ([GitHub API response status: <status>]) and when the
    body does not decode (the error of the decoder). *)
Theorem UpdateApplication_fetch_fails (o : Outside) (resp : Response)
    (err : option error) :
  httpGet o ("https://api.github.com/repos/" ++ githubRepo ++ "/releases/latest")
  = (resp, err) ->
  (forall e,
      err = Some e ->
      UpdateApplication GOOS GOARCH o
      = ([Get ("https://api.github.com/repos/" ++ githubRepo
               ++ "/releases/latest")],
         Returned
           (Some (OtherError ("error fetching latest release: " ++ Error e)))))
  /\ (err = None ->
      StatusCode resp <> 200 ->
      UpdateApplication GOOS GOARCH o
      = ([Get ("https://api.github.com/repos/" ++ githubRepo
               ++ "/releases/latest")],
         Returned
           (Some (OtherError
                    ("error fetching latest release: "
                     ++ "GitHub API response status: " ++ Status resp)))))
  /\ (forall release e,
         err = None ->
         StatusCode resp = 200 ->
         jsonDecode o (RespBody resp) = (release, Some e) ->
         UpdateApplication GOOS GOARCH o
         = ([Get ("https://api.github.com/repos/" ++ githubRepo
                  ++ "/releases/latest")],
            Returned
              (Some (OtherError ("error fetching latest release: " ++ Error e))))).
Proof.
  intros G. updater. rewrite G. repeat split.
  - intros e ->. reflexivity.
  - intros -> S.
    destruct (Z.eqb_spec (StatusCode resp) 200) as [E|_]; [contradiction|].
    reflexivity.
  - intros release e -> S D. rewrite S, D. reflexivity.
Qed.

(** X19: [UpdateApplication] compares the tag of the latest release with
    [currentVersion] for equality only.  With the same tag it prints
    [No update available.] and returns nil; with any other tag, older
    ones included, it prints the release notes and announces the update
    and the download, whatever happens next. *)
Theorem UpdateApplication_compares_tags_for_equality (o : Outside)
    (fetched : list Action) (release : releaseInfo) :
  getLatestRelease o = (fetched, inl release) ->
  (TagName release = currentVersion ->
   UpdateApplication GOOS GOARCH o
   = ((fetched ++ [Stdout ("No update available." ++ nl)])%list, Returned None))
  /\ (TagName release <> currentVersion ->
      exists rest,
        fst (UpdateApplication GOOS GOARCH o)
        = (fetched
           ++ Stdout ("Release notes for version " ++ TagName release ++ ":" ++ nl)
              :: printReleaseNotes (Body release)
           ++ Stdout ("Update available: " ++ TagName release ++ nl)
              :: Stdout ("Downloading update..." ++ nl)
              :: rest)%list).
Proof.
  intros L. unfold UpdateApplication. rewrite L. split.
  - intros ->. reflexivity.
  - intros N. apply String.eqb_neq in N. rewrite N.
    unfold downloadAndUpdate.
    destruct (findMatchingAsset GOOS GOARCH release) as [url [e|]].
    + exists []. reflexivity.
    + destruct (downloadAsset o url) as [acts [temp [e|]]].
      * exists acts. cbn [fst app]. reflexivity.
      * destruct (applyUpdate o temp) as [applied [e|]].
        -- eexists. cbn [fst app]. reflexivity.
        -- destruct (restartApplication o) as [restarted out].
           eexists. cbn [fst app]. reflexivity.
Qed.

(** X20: [UpdateApplication] renames at most once, and only onto the
    binary, only the file that [os.CreateTemp] made and a copy without
    error filled, and only after the user confirmed the overwriting. *)
Theorem UpdateApplication_replaces_only_when_confirmed (o : Outside) :
  filter isRename (fst (UpdateApplication GOOS GOARCH o)) = []
  \/ (filter isRename (fst (UpdateApplication GOOS GOARCH o))
      = [Rename (fst (createTemp o)) binaryName]
      /\ snd (createTemp o) = None
      /\ ioCopy o = None
      /\ confirmOverwrite o binaryName = (true, None)).
Proof.
  unfold UpdateApplication.
  pose proof (getLatestRelease_calls o) as L.
  destruct (getLatestRelease o) as [fetched [release|e]];
    cbn [fst] in L; subst fetched; [|now left].
  destruct (TagName release =? currentVersion)%string; [now left|].
  pose proof (downloadAndUpdate_calls o release isRename
                (fun _ => eq_refl) (fun _ => eq_refl) eq_refl eq_refl) as D.
  pose proof (downloadAndUpdate_done o release) as E.
  destruct (downloadAndUpdate GOOS GOARCH o release)
    as [downloaded [temp [e|]]]; cbn [fst] in D.
  - left. cbn [fst app filter isRename].
    now rewrite filter_app, printReleaseNotes_only_prints, D by reflexivity.
  - destruct (E _ _ eq_refl) as [T C].
    unfold applyUpdate, restartApplication.
    destruct (confirmOverwrite o binaryName) as [[|] [e|]] eqn:Q; cbn [negb];
      [left|right|left|left];
      [ | rewrite T; cbn [fst snd]; repeat split; auto | | ];
      destruct (osRename o temp binaryName), (cmdStart o);
      cbn [fst app filter isRename];
      rewrite !filter_app, printReleaseNotes_only_prints, D by reflexivity;
      reflexivity.
Qed.

(** X21: declining the overwriting does not stop the update.  After a
    download that succeeded and the answer no, [UpdateApplication] prints
    [Update cancelled by the user.], renames nothing, and still goes on
    to [restartApplication]: it prints [Update applied. Restarting
    application...] and starts the program again; it leaves with status 0
    if that start succeeds and returns nil if not. *)
Theorem UpdateApplication_declined_still_restarts (o : Outside)
    (fetched downloaded : list Action) (release : releaseInfo) (temp : string) :
  getLatestRelease o = (fetched, inl release) ->
  TagName release <> currentVersion ->
  downloadAndUpdate GOOS GOARCH o release = (downloaded, (temp, None)) ->
  confirmOverwrite o binaryName = (false, None) ->
  UpdateApplication GOOS GOARCH o
  = ((fetched
      ++ Stdout ("Release notes for version " ++ TagName release ++ ":" ++ nl)
         :: printReleaseNotes (Body release)
      ++ downloaded
      ++ [AskOverwrite binaryName;
          Stdout ("Update cancelled by the user." ++ nl);
          Stdout ("Update applied. Restarting application..." ++ nl);
          Start;
          match cmdStart o with
          | Some e => Stderr ("error restarting application: " ++ Error e)
          | None => OsExit 0
          end])%list,
     match cmdStart o with
     | Some _ => Returned None
     | None => Exited 0
     end).
Proof.
  intros L N D Q. apply String.eqb_neq in N.
  unfold UpdateApplication, applyUpdate, restartApplication.
  rewrite L, N, D, Q. cbn [negb].
  now destruct (cmdStart o).
Qed.

(** X22: [UpdateApplication] starts the program again at most once, and
    how it ends follows from that start alone: without a start it
    returns; after a start that succeeded it does not return but leaves
    the process with status 0; after a start that failed it returns nil,
    as if the update had been applied. *)
Theorem UpdateApplication_exits_after_restart (o : Outside) :
  (filter isStart (fst (UpdateApplication GOOS GOARCH o)) = []
   /\ exists err, snd (UpdateApplication GOOS GOARCH o) = Returned err)
  \/ (filter isStart (fst (UpdateApplication GOOS GOARCH o)) = [Start]
      /\ match cmdStart o with
         | None => snd (UpdateApplication GOOS GOARCH o) = Exited 0
         | Some _ => snd (UpdateApplication GOOS GOARCH o) = Returned None
         end).
Proof.
  unfold UpdateApplication.
  pose proof (getLatestRelease_calls o) as L.
  destruct (getLatestRelease o) as [fetched [release|e]];
    cbn [fst] in L; subst fetched; [|left; split; [reflexivity | eexists; reflexivity]].
  destruct (TagName release =? currentVersion)%string; [left; split; [reflexivity | eexists; reflexivity]|].
  pose proof (downloadAndUpdate_calls o release isStart
                (fun _ => eq_refl) (fun _ => eq_refl) eq_refl eq_refl) as D.
  destruct (downloadAndUpdate GOOS GOARCH o release)
    as [downloaded [temp [e|]]]; cbn [fst] in D.
  - left. cbn [fst snd app filter isStart].
    rewrite filter_app, printReleaseNotes_only_prints, D by reflexivity.
    split; [reflexivity | eexists; reflexivity].
  - unfold applyUpdate, restartApplication.
    destruct (confirmOverwrite o binaryName) as [[|] [e|]]; cbn [negb];
      destruct (osRename o temp binaryName), (cmdStart o);
      cbn [fst snd app filter isStart];
      rewrite !filter_app, printReleaseNotes_only_prints, D by reflexivity;
      cbn [filter isStart app]; (left; split; [reflexivity | eexists; reflexivity]) || (right; split; reflexivity).
Qed.

(** X23: a release without a binary for this platform is announced but
    not taken: [UpdateApplication] prints the notes and [Update
    available], [Downloading update...], then returns the error [no
    binary for the current platform]; it downloads nothing, asks
    nothing, renames nothing and does not restart. *)
Theorem UpdateApplication_without_binary (o : Outside)
    (fetched : list Action) (release : releaseInfo) :
  getLatestRelease o = (fetched, inl release) ->
  TagName release <> currentVersion ->
  Forall (fun a => Name a <> platformAsset GOOS GOARCH) (Assets release) ->
  UpdateApplication GOOS GOARCH o
  = ((fetched
      ++ Stdout ("Release notes for version " ++ TagName release ++ ":" ++ nl)
         :: printReleaseNotes (Body release)
      ++ [Stdout ("Update available: " ++ TagName release ++ nl);
          Stdout ("Downloading update..." ++ nl)])%list,
     Returned (Some (OtherError "no binary for the current platform"))).
Proof.
  intros L N F. apply String.eqb_neq in N.
  apply firstMatching_missing in F.
  unfold UpdateApplication, downloadAndUpdate, findMatchingAsset.
  now rewrite L, N, F.
Qed.

(** X24: [downloadAsset] does not look at the response it downloads:
    whatever the status of the response (a 404 as much as a 200), the
    outcome is that of the three calls [http.Get], [os.CreateTemp] and
    [io.Copy], and when none of them fails the temporary file is
    returned as the update. *)
Theorem downloadAsset_ignores_the_status (o : Outside) (url : string)
    (resp : Response) :
  httpGet o url = (resp, None) ->
  snd (createTemp o) = None ->
  ioCopy o = None ->
  downloadAsset o url
  = ([Get url;
      CreateTemp EmptyString "ChatGPT-Next-Web-Session-Exporter-update-*";
      Copy],
     (fst (createTemp o), None)).
Proof.
  intros G T C. unfold downloadAsset. rewrite G, C.
  destruct (createTemp o) as [out err]. cbn [fst snd] in *. now subst err.
Qed.

End UpdateFacts.

Lemma UpdateApplication_fetch_fails_witness :
  Updater.UpdateApplication "linux" "amd64" UpdateScenario.limited
  = ([Updater.Get UpdateScenario.api],
     Returned
       (Some (OtherError
                "error fetching latest release: GitHub API response status: 403 rate limit exceeded")))
  /\ Updater.UpdateApplication "linux" "amd64" UpdateScenario.offline
     = ([Updater.Get UpdateScenario.api],
        Returned
          (Some (OtherError
                   "error fetching latest release: dial tcp: no route to host")))
  /\ Updater.UpdateApplication "linux" "amd64" UpdateScenario.garbled
     = ([Updater.Get UpdateScenario.api],
        Returned
          (Some (OtherError
                   "error fetching latest release: invalid character '<' looking for beginning of value"))).
Proof.
  split; [|split].
  - apply (proj1 (proj2 (UpdateApplication_fetch_fails "linux" "amd64"
                           UpdateScenario.limited
                           (UpdateScenario.answered 403 "403 rate limit exceeded")
                           None eq_refl)));
      [reflexivity | cbn; lia].
  - apply (proj1 (UpdateApplication_fetch_fails "linux" "amd64"
                    UpdateScenario.offline
                    (UpdateScenario.answered 0 EmptyString)
                    (Some (OtherError "dial tcp: no route to host")) eq_refl)
             (OtherError "dial tcp: no route to host")).
    reflexivity.
  - apply (proj2 (proj2 (UpdateApplication_fetch_fails "linux" "amd64"
                           UpdateScenario.garbled
                           (UpdateScenario.answered 200 "200 OK") None eq_refl))
             UpdateScenario.next
             (OtherError "invalid character '<' looking for beginning of value"));
      reflexivity.
Defined.

Lemma UpdateApplication_compares_tags_for_equality_witness :
  exists rest,
    fst (Updater.UpdateApplication "linux" "amd64"
           (UpdateScenario.outside UpdateScenario.older 200 "200 OK" true None))
    = ([Updater.Get UpdateScenario.api]
       ++ Updater.Stdout ("Release notes for version 1.0.0:" ++ nl)
          :: Updater.printReleaseNotes EmptyString
       ++ Updater.Stdout ("Update available: 1.0.0" ++ nl)
          :: Updater.Stdout ("Downloading update..." ++ nl)
          :: rest)%list.
Proof.
  apply (UpdateApplication_compares_tags_for_equality "linux" "amd64"
           (UpdateScenario.outside UpdateScenario.older 200 "200 OK" true None)
           [Updater.Get UpdateScenario.api] UpdateScenario.older).
  - reflexivity.
  - vm_compute. discriminate.
Defined.

Lemma UpdateApplication_declined_still_restarts_witness :
  Updater.UpdateApplication "linux" "amd64"
    (UpdateScenario.outside UpdateScenario.next 200 "200 OK" false None)
  = ([Updater.Get UpdateScenario.api;
      Updater.Stdout ("Release notes for version v1.3.3.8:" ++ nl);
      Updater.Stdout nl;
      Updater.Stdout ("Fixes" ++ nl);
      Updater.Stdout ("Link: see https://example.org/notes" ++ nl);
      Updater.Stdout ("Update available: v1.3.3.8" ++ nl);
      Updater.Stdout ("Downloading update..." ++ nl);
      Updater.Get "https://example.org/v2/linux-amd64";
      Updater.CreateTemp EmptyString "ChatGPT-Next-Web-Session-Exporter-update-*";
      Updater.Copy;
      Updater.Stdout ("Update downloaded." ++ nl);
      Updater.AskOverwrite "ChatGPT-Next-Web-Session-Exporter";
      Updater.Stdout ("Update cancelled by the user." ++ nl);
      Updater.Stdout ("Update applied. Restarting application..." ++ nl);
      Updater.Start;
      Updater.OsExit 0],
     Exited 0).
Proof.
  apply (UpdateApplication_declined_still_restarts "linux" "amd64"
           (UpdateScenario.outside UpdateScenario.next 200 "200 OK" false None)
           [Updater.Get UpdateScenario.api]
           [Updater.Stdout ("Update available: v1.3.3.8" ++ nl);
            Updater.Stdout ("Downloading update..." ++ nl);
            Updater.Get "https://example.org/v2/linux-amd64";
            Updater.CreateTemp EmptyString
              "ChatGPT-Next-Web-Session-Exporter-update-*";
            Updater.Copy;
            Updater.Stdout ("Update downloaded." ++ nl)]
           UpdateScenario.next
           "/tmp/ChatGPT-Next-Web-Session-Exporter-update-42").
  - reflexivity.
  - vm_compute. discriminate.
  - reflexivity.
  - reflexivity.
Defined.

Lemma UpdateApplication_without_binary_witness :
  Updater.UpdateApplication "linux" "amd64"
    (UpdateScenario.outside UpdateScenario.older 200 "200 OK" true None)
  = ([Updater.Get UpdateScenario.api;
      Updater.Stdout ("Release notes for version 1.0.0:" ++ nl);
      Updater.Stdout nl;
      Updater.Stdout ("Update available: 1.0.0" ++ nl);
      Updater.Stdout ("Downloading update..." ++ nl)],
     Returned (Some (OtherError "no binary for the current platform"))).
Proof.
  apply (UpdateApplication_without_binary "linux" "amd64"
           (UpdateScenario.outside UpdateScenario.older 200 "200 OK" true None)
           [Updater.Get UpdateScenario.api] UpdateScenario.older).
  - reflexivity.
  - vm_compute. discriminate.
  - repeat constructor; vm_compute; discriminate.
Defined.

Lemma downloadAsset_ignores_the_status_witness :
  Updater.downloadAsset
    (UpdateScenario.outside UpdateScenario.next 404 "404 Not Found" true None)
    "https://example.org/v2/linux-amd64"
  = ([Updater.Get "https://example.org/v2/linux-amd64";
      Updater.CreateTemp EmptyString "ChatGPT-Next-Web-Session-Exporter-update-*";
      Updater.Copy],
     ("/tmp/ChatGPT-Next-Web-Session-Exporter-update-42"%string, None)).
Proof.
  apply (downloadAsset_ignores_the_status
           (UpdateScenario.outside UpdateScenario.next 404 "404 Not Found" true None)
           "https://example.org/v2/linux-amd64"
           (UpdateScenario.answered 404 "404 Not Found")).
  - reflexivity.
  - reflexivity.
  - reflexivity.
Defined.

(** * Package bannercli *)

Lemma slept_app (l1 l2 : list Banner.Action) :
  Banner.slept (l1 ++ l2) = Banner.slept l1 + Banner.slept l2.
Proof.
  induction l1 as [|[s|d] l1 IH]; cbn [app Banner.slept]; lia.
Qed.

Lemma pass_from (message : string) (delay : Z) (n start : nat) :
  (start + n <= String.length message)%nat ->
  let frames :=
    flat_map
      (fun i =>
         [Banner.Show (String (ascii_of_nat 13) (Banner.spaces i ++ message));
          Banner.Sleep delay])
      (seq start n) in
  Banner.slept frames = Z.of_nat n * delay
  /\ List.length (filter Banner.isSleep frames) = n
  /\ Forall (Banner.frame message delay) frames.
Proof.
  cbv zeta. revert start.
  induction n as [|n IH]; intros start B.
  - cbn. repeat split; auto.
  - destruct (IH (S start)) as (Hs & Hn & Hi); [lia|].
    cbn [seq flat_map app Banner.slept filter Banner.isSleep List.length].
    rewrite Hs, Hn. repeat split; [nia|].
    constructor; [|constructor; [reflexivity | assumption]].
    right. exists start. split; [lia | reflexivity].
Qed.

Lemma passes_spec (message : string) (delay : Z) (times : nat) :
  Banner.slept (Banner.passes message delay times)
  = Z.of_nat times * (Z.of_nat (String.length message) * delay)
  /\ List.length (filter Banner.isSleep (Banner.passes message delay times))
     = (times * String.length message)%nat
  /\ Forall (Banner.frame message delay) (Banner.passes message delay times).
Proof.
  destruct (pass_from message delay (String.length message) 0) as (Ps & Pn & Pi);
    [lia|].
  fold (Banner.pass message delay) in Ps, Pn, Pi.
  induction times as [|times (Hs & Hn & Hi)].
  - cbn [Banner.passes Banner.slept filter List.length]. repeat split; auto.
  - cbn [Banner.passes]. rewrite slept_app, filter_app, length_app, Ps, Pn, Hs, Hn.
    repeat split; [rewrite Nat2Z.inj_succ; ring |].
    apply Forall_app. now split.
Qed.

Lemma nth_error_map_seq {B : Type} (g : nat -> B) (len : nat) :
  forall start n,
    (n < len)%nat -> nth_error (map g (seq start len)) n = Some (g (start + n)%nat).
Proof.
  induction len as [|len IH]; intros start n L; [lia|].
  destruct n as [|n]; cbn [seq map nth_error].
  - now rewrite Nat.add_0_r.
  - rewrite IH by lia. f_equal. f_equal. lia.
Qed.

Lemma pass_frames (message : string) (delay : Z) :
  Banner.pass message delay
  = flat_map (fun f => [Banner.Show f; Banner.Sleep delay])
      (map (fun i => String (ascii_of_nat 13) (Banner.spaces i ++ message))
           (seq 0 (String.length message))).
Proof.
  unfold Banner.pass.
  induction (seq 0 (String.length message)) as [|i l IH]; [reflexivity|].
  cbn [flat_map map app]. now rewrite IH.
Qed.

(** The frames of the passes, in order: the frame at step [n] has
    [n mod len(message)] spaces. *)
Lemma passes_frames (message : string) (delay : Z) (times : nat) :
  exists frames,
    Banner.passes message delay times
    = flat_map (fun f => [Banner.Show f; Banner.Sleep delay]) frames
    /\ List.length frames = (times * String.length message)%nat
    /\ forall n,
         (n < times * String.length message)%nat ->
         nth_error frames n
         = Some (String (ascii_of_nat 13)
                   (Banner.spaces (n mod String.length message) ++ message)).
Proof.
  induction times as [|times (frames & E & L & N)].
  - exists []. repeat split; auto. intros n Hn. cbn in Hn. lia.
  - exists (map (fun i => String (ascii_of_nat 13) (Banner.spaces i ++ message))
              (seq 0 (String.length message)) ++ frames)%list.
    cbn [Banner.passes]. rewrite pass_frames, E, flat_map_app.
    split; [reflexivity|]. split.
    + rewrite length_app, length_map, length_seq, L. reflexivity.
    + intros n Hn. cbn [Nat.mul] in Hn.
      destruct (Nat.lt_ge_cases n (String.length message)) as [Lt|Ge].
      * rewrite nth_error_app1 by now rewrite length_map, length_seq.
        rewrite nth_error_map_seq by exact Lt.
        now rewrite Nat.mod_small by exact Lt.
      * rewrite nth_error_app2 by now rewrite length_map, length_seq.
        rewrite length_map, length_seq, N by lia.
        replace (n mod String.length message)%nat
          with ((n - String.length message) mod String.length message)%nat;
          [reflexivity|].
        replace n with ((n - String.length message)
                        + 1 * String.length message)%nat at 2 by lia.
        now rewrite Nat.Div0.mod_add.
Qed.

(** X25: [PrintAnimatedBanner] shows a frame and then sleeps for
    [delay], [repeat] times the length of the message in bytes, and then
    prints a line feed; nothing else.  The frame at step [n] is a
    carriage return, [n mod len(message)] spaces and the message.  It
    shows no frame and does not sleep when [repeat] is zero or negative
    or the message is empty. *)
Theorem PrintAnimatedBanner_frames (message : string) (repeat delay : Z) :
  Banner.slept (Banner.PrintAnimatedBanner message repeat delay)
  = Z.max 0 repeat * Z.of_nat (String.length message) * delay
  /\ List.length
       (filter Banner.isSleep (Banner.PrintAnimatedBanner message repeat delay))
     = (Z.to_nat repeat * String.length message)%nat
  /\ Forall
       (fun a =>
          match a with
          | Banner.Sleep d => d = delay
          | Banner.Show s =>
              s = nl
              \/ exists i, (i < String.length message)%nat
                           /\ s = String (ascii_of_nat 13)
                                    (Banner.spaces i ++ message)
          end)
       (Banner.PrintAnimatedBanner message repeat delay)
  /\ last (Banner.PrintAnimatedBanner message repeat delay)
          (Banner.Sleep delay)
     = Banner.Show nl
  /\ exists frames,
       Banner.PrintAnimatedBanner message repeat delay
       = (flat_map (fun f => [Banner.Show f; Banner.Sleep delay]) frames
          ++ [Banner.Show nl])%list
       /\ List.length frames = (Z.to_nat repeat * String.length message)%nat
       /\ forall n,
            (n < Z.to_nat repeat * String.length message)%nat ->
            nth_error frames n
            = Some (String (ascii_of_nat 13)
                      (Banner.spaces (n mod String.length message) ++ message)).
Proof.
  unfold Banner.PrintAnimatedBanner.
  destruct (passes_spec message delay (Z.to_nat repeat)) as (Hs & Hn & Hi).
  destruct (passes_frames message delay (Z.to_nat repeat)) as (frames & E & L & N).
  rewrite slept_app, filter_app, length_app, Hs, Hn, last_last.
  cbn [Banner.slept filter Banner.isSleep List.length].
  split; [nia|]. split; [lia|]. split; [|split; [reflexivity|]].
  - apply Forall_app. split; [exact Hi|].
    constructor; [now left | constructor].
  - exists frames. rewrite E. repeat split; assumption.
Qed.
